(** * Rule-based document analysis of the Cluster API helper scripts

    A shallow embedding of the analysis code of
    [migration_checker.py], [audit_security.py],
    [check_provider_contract.py], [lint_cluster_templates.py] and
    [validate_manifests.py], followed by the properties proved about it.

    Parsed JSON/YAML documents are Python values.  Python exceptions are
    modelled by an error monad, so that every [.get] on a value that is
    not a mapping, every [in] on a value that is not a container and every
    ordering comparison on a non-number raises as it does in the scripts. *)

From Stdlib Require Import ZArith Ascii String.
From stdpp Require Import gmap strings list fin_maps pretty.

Local Open Scope string_scope.
Local Open Scope list_scope.
Local Open Scope Z_scope.

(** ** Python values *)

(** A parsed document: [None], booleans, integers, strings, lists and
    mappings with string keys.  Numbers are integers: the only numeric
    field the checks compute with, the replica count, is an integer in
    the resources; floating-point numbers and the mapping keys that are
    not strings, which YAML allows, are left out. *)
#[warnings="-register-all"]
Inductive value : Type :=
  | VNone
  | VBool (b : bool)
  | VInt (n : Z)
  | VStr (s : string)
  | VList (l : list value)
  | VDict (m : gmap string value).

(** The empty mapping [{}] and the empty list [[]] used as defaults. *)
Definition empty_dict : value := VDict ∅.
Definition empty_list : value := VList [].

(** ** Exceptions *)

Inductive exn : Type :=
  | AttributeError
  | TypeError
  | KeyError
  | TimeoutExpired
  | JSONDecodeError
  | OSError.

Inductive exc (A : Type) : Type :=
  | Ok (a : A)
  | Raise (e : exn).
Arguments Ok {A} a.
Arguments Raise {A} e.

#[global] Instance exc_ret : MRet exc := fun _ a => Ok a.
#[global] Instance exc_bind : MBind exc := fun _ _ f m =>
  match m with
  | Ok a => f a
  | Raise e => Raise e
  end.


(** [for x in xs: body], threading the state the body updates. *)
Fixpoint for_each {A S : Type} (xs : list A) (body : A -> S -> exc S) (s : S)
  : exc S :=
  match xs with
  | [] => Ok s
  | x :: xs' => s' ← body x s; for_each xs' body s'
  end.

(** ** Python primitives *)

(** [isinstance(v, dict)] *)
Definition isinstance_dict (v : value) : bool :=
  match v with VDict _ => true | _ => false end.

(** [isinstance(v, str)] *)
Definition isinstance_str (v : value) : bool :=
  match v with VStr _ => true | _ => false end.

(** [v is None] *)
Definition is_none (v : value) : bool :=
  match v with VNone => true | _ => false end.

(** Truth value of [v] ([bool(v)], as tested by [if v] and [not v]). *)
Definition truthy (v : value) : bool :=
  match v with
  | VNone => false
  | VBool b => b
  | VInt n => negb (n =? 0)
  | VStr s => negb (String.eqb s "")
  | VList l => match l with [] => false | _ => true end
  | VDict m => negb (bool_decide (m = ∅))
  end.

(** [d.get(key, default)]: only mappings have a [get] attribute. *)
Definition dict_get (d : value) (key : string) (dflt : value) : exc value :=
  match d with
  | VDict m => Ok (default dflt (m !! key))
  | _ => Raise AttributeError
  end.

(** [d[key]] for a string key: [KeyError] on a mapping without the key,
    [TypeError] on every other value (strings and lists want integer
    indices, scalars are not subscriptable). *)
Definition getitem (d : value) (key : string) : exc value :=
  match d with
  | VDict m => match m !! key with Some v => Ok v | None => Raise KeyError end
  | _ => Raise TypeError
  end.

(** [needle in hay] on strings: substring test. *)
Fixpoint is_prefix (p s : string) : bool :=
  match p, s with
  | EmptyString, _ => true
  | String a p', String b s' => if Ascii.eqb a b then is_prefix p' s' else false
  | String _ _, EmptyString => false
  end.

Fixpoint substring_of (needle hay : string) : bool :=
  is_prefix needle hay ||
  match hay with
  | EmptyString => false
  | String _ hay' => substring_of needle hay'
  end.

(** [key in c] for a string [key]: key membership on a mapping, substring
    test on a string, element membership on a list; any other value is
    not iterable. *)
Definition str_in (key : string) (c : value) : exc bool :=
  match c with
  | VDict m => Ok (bool_decide (is_Some (m !! key)))
  | VStr s => Ok (substring_of key s)
  | VList l =>
      Ok (existsb (fun x => match x with VStr s => String.eqb s key | _ => false end) l)
  | _ => Raise TypeError
  end.

(** Lookup in a rule table (a module-level dict with string keys, kept as
    an association list because the scripts iterate it in insertion
    order). *)
Fixpoint assoc {V : Type} (key : string) (table : list (string * V)) : option V :=
  match table with
  | [] => None
  | (k, v) :: rest => if String.eqb k key then Some v else assoc key rest
  end.

(** [k in TABLE] / [TABLE[k]] for a key taken from a document: lists and
    mappings are unhashable, every other non-string equals no key. *)
Definition table_find {V : Type} (table : list (string * V)) (k : value)
  : exc (option V) :=
  match k with
  | VStr s => Ok (assoc s table)
  | VList _ | VDict _ => Raise TypeError
  | _ => Ok None
  end.

(** [s.split(".")] *)
Fixpoint split_dot (s : string) : list string :=
  match s with
  | EmptyString => [""]
  | String c s' =>
      if Ascii.eqb c "."%char then "" :: split_dot s'
      else match split_dot s' with
           | [] => [String c ""]
           | w :: ws => String c w :: ws
           end
  end.

(** ** migration_checker.py *)

Record MigrationIssue : Type := mkMigrationIssue {
  mi_path : string;
  mi_field : string;
  mi_reason : string;
  mi_action : string;
  mi_severity : string
}.

(** The loop of [get_nested]: [current] is replaced by [current.get(key)]
    while it is a mapping; the first non-mapping ends the walk with
    [None]. *)
Fixpoint get_nested_loop (current : value) (keys : list string) : exc value :=
  match keys with
  | [] => Ok current
  | key :: keys' =>
      if isinstance_dict current then
        next ← dict_get current key VNone;
        get_nested_loop next keys'
      else Ok VNone
  end.

Definition get_nested (data : value) (path : string) : exc value :=
  get_nested_loop data (split_dot path).

(** Rule tables of [migration_checker.py]: per kind, the deprecated field
    paths with their (reason, action), in the order they are written. *)
Definition DEPRECATED_FIELDS : list (string * list (string * (string * string))) :=
  [ ("Cluster",
      [ ("spec.topology.rolloutAfter",
          ("Never implemented, removed in v1beta2", "Remove this field"));
        ("spec.topology.class",
          ("Renamed to spec.topology.classRef.name",
           "Move to spec.topology.classRef.name"));
        ("spec.topology.classNamespace",
          ("Renamed to spec.topology.classRef.namespace",
           "Move to spec.topology.classRef.namespace"));
        ("status.failureReason",
          ("Moved to status.deprecated.v1beta1.failureReason",
           "Update status handling code"));
        ("status.failureMessage",
          ("Moved to status.deprecated.v1beta1.failureMessage",
           "Update status handling code")) ]);
    ("Machine",
      [ ("spec.nodeDeletionTimeout",
          ("Renamed to spec.deletion.nodeDeletionTimeoutSeconds",
           "Move to spec.deletion.nodeDeletionTimeoutSeconds (as int32)"));
        ("spec.nodeDrainTimeout",
          ("Renamed to spec.deletion.nodeDrainTimeoutSeconds",
           "Move to spec.deletion.nodeDrainTimeoutSeconds (as int32)"));
        ("spec.nodeVolumeDetachTimeout",
          ("Renamed to spec.deletion.nodeVolumeDetachTimeoutSeconds",
           "Move to spec.deletion.nodeVolumeDetachTimeoutSeconds (as int32)")) ]);
    ("MachineDeployment",
      [ ("spec.progressDeadlineSeconds",
          ("Deprecated since v1.9, removed in v1beta2", "Remove this field"));
        ("spec.revisionHistoryLimit",
          ("Removed, controller now cleans up all MachineSets without replicas",
           "Remove this field"));
        ("spec.strategy.rollingUpdate.deletePolicy",
          ("Renamed to spec.deletion.order", "Move to spec.deletion.order"));
        ("spec.machineNamingStrategy",
          ("Renamed to spec.machineNaming", "Rename to spec.machineNaming")) ]);
    ("MachineSet",
      [ ("spec.deletePolicy",
          ("Renamed to spec.deletion.order", "Move to spec.deletion.order"));
        ("spec.machineNamingStrategy",
          ("Renamed to spec.machineNaming", "Rename to spec.machineNaming")) ]);
    ("KubeadmControlPlane",
      [ ("spec.kubeadmConfigSpec.clusterConfiguration.clusterName",
          ("Inferred from top level, removed to avoid confusion",
           "Remove this field")) ]) ].

Definition OBJECT_REF_FIELDS : list string :=
  [ "spec.infrastructureRef";
    "spec.controlPlaneRef";
    "spec.bootstrap.configRef";
    "spec.template.spec.infrastructureRef";
    "spec.template.spec.bootstrap.configRef" ].

(** One turn of the loop of [check_deprecated_fields]: the field is
    reported when [get_nested] gives something that [is not None]; the
    severity is the constructor's default, ["warning"]. *)
Definition deprecated_field_step (doc : value) (file_path : string)
    (rule : string * (string * string)) (issues : list MigrationIssue)
  : exc (list MigrationIssue) :=
  let '(field, (reason, action)) := rule in
  v ← get_nested doc field;
  if negb (is_none v) then
    Ok (issues ++ [mkMigrationIssue file_path field reason action "warning"])
  else Ok issues.

Definition check_deprecated_fields (doc : value) (file_path : string)
  : exc (list MigrationIssue) :=
  kind ← dict_get doc "kind" (VStr "");
  entry ← table_find DEPRECATED_FIELDS kind;
  match entry with
  | None => Ok []
  | Some rules => for_each rules (deprecated_field_step doc file_path) []
  end.

(** [a and b] on fallible tests: [b] is evaluated only when [a] holds. *)
Definition and_then (a b : exc bool) : exc bool :=
  x ← a; if (x : bool) then b else Ok false.

Definition not_ (a : exc bool) : exc bool := x ← a; Ok (negb x).

(** The checks made on one object reference that is a non-empty mapping. *)
Definition object_reference_issues (file_path ref_path : string) (ref : value)
    (issues : list MigrationIssue) : exc (list MigrationIssue) :=
  needs_group ← and_then (str_in "apiVersion" ref) (not_ (str_in "apiGroup" ref));
  let issues1 :=
    if (needs_group : bool) then
      issues ++ [mkMigrationIssue file_path (ref_path +:+ ".apiVersion")
        "v1beta2 uses apiGroup instead of apiVersion in object references"
        "Replace apiVersion with apiGroup (e.g., 'infrastructure.cluster.x-k8s.io')"
        "info"]
    else issues in
  has_ns ← str_in "namespace" ref;
  Ok (if (has_ns : bool) then
        issues1 ++ [mkMigrationIssue file_path (ref_path +:+ ".namespace")
          "namespace field removed from object references in v1beta2"
          "Remove namespace field from object reference"
          "warning"]
      else issues1).

Definition object_reference_step (doc : value) (file_path : string)
    (ref_path : string) (issues : list MigrationIssue)
  : exc (list MigrationIssue) :=
  ref ← get_nested doc ref_path;
  if truthy ref && isinstance_dict ref
  then object_reference_issues file_path ref_path ref issues
  else Ok issues.

Definition check_object_references (doc : value) (file_path : string)
  : exc (list MigrationIssue) :=
  for_each OBJECT_REF_FIELDS (object_reference_step doc file_path) [].

Definition duration_fields : list (string * string) :=
  [ ("spec.nodeDeletionTimeout", "spec.deletion.nodeDeletionTimeoutSeconds");
    ("spec.nodeDrainTimeout", "spec.deletion.nodeDrainTimeoutSeconds");
    ("spec.nodeVolumeDetachTimeout", "spec.deletion.nodeVolumeDetachTimeoutSeconds");
    ("spec.template.spec.nodeDeletionTimeout",
     "spec.template.spec.deletion.nodeDeletionTimeoutSeconds");
    ("spec.topology.controlPlane.nodeDeletionTimeout",
     "spec.topology.controlPlane.deletion.nodeDeletionTimeoutSeconds") ].

Definition check_api_version (doc : value) (file_path : string)
  : exc (list MigrationIssue) :=
  api_version ← dict_get doc "apiVersion" (VStr "");
  beta ← str_in "v1beta1" api_version;
  if (beta : bool) then
    Ok [mkMigrationIssue file_path "apiVersion"
          "v1beta1 is deprecated, will be removed in August 2026"
          "Migrate to v1beta2 API version" "warning"]
  else
    alpha ← str_in "v1alpha" api_version;
    Ok (if (alpha : bool) then
          [mkMigrationIssue file_path "apiVersion"
             "v1alpha versions are deprecated"
             "Migrate to v1beta2 API version" "warning"]
        else []).

Section Scripts.

(** What the embedding takes from the Python runtime: [str()] of a list
    or a mapping, and whether a string holds an alphabetic character
    ([any(c.isalpha() for c in s)], which depends on the Unicode
    tables). *)
Variable repr_container : value -> string.
Variable has_alpha : string -> bool.

(** [str(v)], as an f-string renders a value. *)
Definition py_str (v : value) : string :=
  match v with
  | VNone => "None"
  | VBool true => "True"
  | VBool false => "False"
  | VInt n => pretty n
  | VStr s => s
  | VList _ | VDict _ => repr_container v
  end.

Definition duration_field_step (doc : value) (file_path : string)
    (rule : string * string) (issues : list MigrationIssue)
  : exc (list MigrationIssue) :=
  let '(old_path, new_path) := rule in
  v ← get_nested doc old_path;
  Ok (if negb (is_none v) &&
         match v with VStr s => has_alpha s | _ => false end
      then issues ++ [mkMigrationIssue file_path old_path
             "Duration fields changed from string to int32 seconds"
             ("Convert to integer seconds and rename to " +:+ new_path)
             "warning"]
      else issues).

Definition check_duration_fields (doc : value) (file_path : string)
  : exc (list MigrationIssue) :=
  for_each duration_fields (duration_field_step doc file_path) [].

Definition analyze_document (doc : value) (file_path : string)
  : exc (list MigrationIssue) :=
  i1 ← check_api_version doc file_path;
  i2 ← check_deprecated_fields doc file_path;
  i3 ← check_object_references doc file_path;
  i4 ← check_duration_fields doc file_path;
  Ok (i1 ++ i2 ++ i3 ++ i4).

(** ** audit_security.py *)

Record Finding : Type := mkFinding {
  severity : string;
  category : string;
  resource : string;
  message : string;
  recommendation : string
}.

Record AuditReport : Type := mkAuditReport {
  cluster_name : string;
  findings : list Finding
}.

(** [AuditReport.add]: the finding is appended to the report's list. *)
Definition add (report : AuditReport) (sev cat res msg rec : string) : AuditReport :=
  mkAuditReport (cluster_name report)
                (findings report ++ [mkFinding sev cat res msg rec]).

(** [sum(1 for f in self.findings if f.severity == s)] *)
Definition count_severity (s : string) (fs : list Finding) : nat :=
  length (filter (fun f => severity f = s) fs).

Definition high_count (report : AuditReport) : nat :=
  count_severity "high" (findings report).
Definition medium_count (report : AuditReport) : nat :=
  count_severity "medium" (findings report).
Definition low_count (report : AuditReport) : nat :=
  count_severity "low" (findings report).

(** Numbers as the comparison and arithmetic operators see them: [bool]
    is a subclass of [int]. *)
Definition int_of (v : value) : option Z :=
  match v with
  | VInt n => Some n
  | VBool b => Some (Z.b2z b)
  | _ => None
  end.

(** [v < k] for an integer literal [k]: ordering a non-number against an
    [int] is a [TypeError]. *)
Definition py_lt_int (v : value) (k : Z) : exc bool :=
  match int_of v with
  | Some n => Ok (n <? k)
  | None => Raise TypeError
  end.

(** [v == k] for an integer literal [k]: never raises. *)
Definition py_eq_int (v : value) (k : Z) : bool :=
  match int_of v with
  | Some n => n =? k
  | None => false
  end.

(** [v % k == 0] for a positive integer literal [k].  On a non-number it
    is a [TypeError]; [check_replicas] reaches it only after [v < 3] has
    been evaluated, which has already raised for every such value. *)
Definition py_mod_is_zero (v : value) (k : Z) : exc bool :=
  match int_of v with
  | Some n => Ok (n mod k =? 0)
  | None => Raise TypeError
  end.

(** [obj.get("metadata", {}).get(field, dflt)] *)
Definition metadata_field (obj : value) (field dflt : string) : exc value :=
  metadata ← dict_get obj "metadata" empty_dict;
  dict_get metadata field (VStr dflt).

(** ["<Kind>/<namespace>/<name>"] as the checks build it. *)
Definition resource_name (kind : string) (obj : value) : exc string :=
  name ← metadata_field obj "name" "unknown";
  namespace ← metadata_field obj "namespace" "default";
  Ok (kind +:+ "/" +:+ py_str namespace +:+ "/" +:+ py_str name).

(** The value [check_replicas] reads as the control-plane replica count:
    every missing level defaults to [{}], a missing count to [1]. *)
Definition control_plane_replicas (cluster : value) : exc value :=
  spec ← dict_get cluster "spec" empty_dict;
  topology ← dict_get spec "topology" empty_dict;
  cp ← dict_get topology "controlPlane" empty_dict;
  dict_get cp "replicas" (VInt 1).

Definition check_replicas (cluster : value) (report : AuditReport)
  : exc AuditReport :=
  res ← resource_name "Cluster" cluster;
  cp_replicas ← control_plane_replicas cluster;
  below ← py_lt_int cp_replicas 3;
  let report1 :=
    if (below : bool) then
      add report
        (if py_eq_int cp_replicas 1 then "medium" else "low")
        "Availability" res
        ("Control plane has " +:+ py_str cp_replicas +:+
         " replica(s) (recommend 3 for HA)")
        "Use 3 control plane replicas for production HA"
    else report in
  even ← py_mod_is_zero cp_replicas 2;
  Ok (if (even : bool) then
        add report1 "low" "Availability" res
          ("Control plane has even number of replicas (" +:+
           py_str cp_replicas +:+ ")")
          "Use odd number of replicas for proper etcd quorum"
      else report1).

(** Iteration over a value ([for x in v]): the elements of a list, the
    characters of a string, the keys of a mapping.  Every loop of the
    scripts takes its item for a mapping at once, so on a string or on
    the keys of a mapping it raises at the first item, whichever it is:
    the order in which a mapping gives its keys does not show. *)
Definition py_iter (v : value) : exc (list value) :=
  match v with
  | VList l => Ok l
  | VStr s => Ok (map (fun c => VStr (String c "")) (list_ascii_of_string s))
  | VDict m => Ok (map (fun kv => VStr kv.1) (map_to_list m))
  | _ => Raise TypeError
  end.

(** [any(var.get("name") in names for var in variables)]: stops at the
    first variable that matches. *)
Fixpoint any_named (names : list string) (variables : list value) : exc bool :=
  match variables with
  | [] => Ok false
  | var :: rest =>
      n ← dict_get var "name" VNone;
      if match n with
         | VStr s => existsb (String.eqb s) names
         | _ => false
         end
      then Ok true
      else any_named names rest
  end.

Definition check_network_security (cluster : value) (report : AuditReport)
  : exc AuditReport :=
  res ← resource_name "Cluster" cluster;
  spec ← dict_get cluster "spec" empty_dict;
  network ← dict_get spec "clusterNetwork" empty_dict;
  let report1 :=
    if negb (truthy network) then
      add report "info" "Network" res
        "No explicit clusterNetwork configuration"
        "Define clusterNetwork with appropriate CIDR ranges"
    else report in
  topology ← dict_get spec "topology" empty_dict;
  variables ← dict_get topology "variables" empty_list;
  vars ← py_iter variables;
  cni_configured ← any_named ["cni"; "networkPlugin"; "calico"; "cilium"] vars;
  Ok (if negb cni_configured then
        add report1 "info" "Network" res
          "CNI configuration not found in cluster variables"
          "Ensure CNI plugin is configured (calico, cilium, etc.)"
      else report1).

(** ** check_provider_contract.py *)

(** The lists of [INFRASTRUCTURE_CLUSTER_CONTRACT] the check reads. *)
Definition INFRASTRUCTURE_CLUSTER_required_spec_fields : list string :=
  ["controlPlaneEndpoint"].
Definition INFRASTRUCTURE_CLUSTER_required_status_fields : list string :=
  ["ready"].

(** [crd] holds the CRD's name as found in the document, whatever its
    type. *)
Record ContractViolation : Type := mkContractViolation {
  cv_severity : string;
  cv_category : string;
  cv_crd : value;
  cv_message : string;
  cv_requirement : string
}.

Record ContractReport : Type := mkContractReport {
  provider : string;
  provider_type : string;
  violations : list ContractViolation;
  checked_crds : list string
}.

Definition add_violation (report : ContractReport)
    (sev cat : string) (crd : value) (msg req : string) : ContractReport :=
  mkContractReport (provider report) (provider_type report)
    (violations report ++ [mkContractViolation sev cat crd msg req])
    (checked_crds report).

Definition error_count (report : ContractReport) : nat :=
  length (filter (fun v => cv_severity v = "error") (violations report)).

Definition is_compliant (report : ContractReport) : bool :=
  Nat.eqb (error_count report) 0.

(** The loop of [get_crd_schema]: the schema of the first served
    version, [{}] when there is none. *)
Fixpoint first_served_schema (versions : list value) : exc value :=
  match versions with
  | [] => Ok empty_dict
  | version :: rest =>
      served ← dict_get version "served" VNone;
      if truthy served then
        schema ← dict_get version "schema" empty_dict;
        dict_get schema "openAPIV3Schema" empty_dict
      else first_served_schema rest
  end.

Definition get_crd_schema (crd : value) : exc value :=
  spec ← dict_get crd "spec" empty_dict;
  versions ← dict_get spec "versions" empty_list;
  vs ← py_iter versions;
  first_served_schema vs.

(** The first loop of [check_schema_fields]: walks [properties] along
    the non-empty parts of the path; [None] stands for the early
    [return required_fields]. *)
Fixpoint schema_descend (current : value) (parts : list string)
  : exc (option value) :=
  match parts with
  | [] => Ok (Some current)
  | part :: rest =>
      if negb (String.eqb part "") then
        properties ← dict_get current "properties" empty_dict;
        present ← str_in part properties;
        if (present : bool) then
          next ← getitem properties part;
          schema_descend next rest
        else Ok None
      else schema_descend current rest
  end.

(** The second loop: the required fields whose first dotted part is not
    a key of [properties]. *)
Fixpoint missing_fields (properties : value) (required_fields : list string)
  : exc (list string) :=
  match required_fields with
  | [] => Ok []
  | field_name :: rest =>
      present ← str_in (hd "" (split_dot field_name)) properties;
      missing ← missing_fields properties rest;
      Ok (if (present : bool) then missing else field_name :: missing)
  end.

Definition check_schema_fields (schema : value) (required_fields : list string)
    (path : string) : exc (list string) :=
  target ← schema_descend schema (split_dot path);
  match target with
  | None => Ok required_fields
  | Some current =>
      properties ← dict_get current "properties" empty_dict;
      missing_fields properties required_fields
  end.

Definition check_infrastructure_cluster (crd : value) (report : ContractReport)
  : exc ContractReport :=
  crd_name ← metadata_field crd "name" "unknown";
  schema ← get_crd_schema crd;
  if negb (truthy schema) then
    Ok (add_violation report "error" "Schema" crd_name
          "No OpenAPI schema found in CRD" "")
  else
    missing_spec ← check_schema_fields schema
                     INFRASTRUCTURE_CLUSTER_required_spec_fields "spec";
    let report1 :=
      fold_left (fun r field_name =>
        add_violation r "error" "Spec" crd_name
          ("Missing required spec field: " +:+ field_name)
          ("Contract requires spec." +:+ field_name))
        missing_spec report in
    missing_status ← check_schema_fields schema
                       INFRASTRUCTURE_CLUSTER_required_status_fields "status";
    let report2 :=
      fold_left (fun r field_name =>
        add_violation r "error" "Status" crd_name
          ("Missing required status field: " +:+ field_name)
          ("Contract requires status." +:+ field_name))
        missing_status report1 in
    properties ← dict_get schema "properties" empty_dict;
    status ← dict_get properties "status" empty_dict;
    status_props ← dict_get status "properties" empty_dict;
    has_conditions ← str_in "conditions" status_props;
    Ok (if negb has_conditions then
          add_violation report2 "warning" "Conditions" crd_name
            "No conditions field in status"
            "Conditions recommended for observability"
        else report2).

(** ** lint_cluster_templates.py *)

Inductive Severity : Type := ERROR | WARNING | INFO.

#[global] Instance Severity_eq_dec : EqDecision Severity.
Proof. solve_decision. Defined.

Record LintIssue : Type := mkLintIssue {
  li_severity : Severity;
  li_message : string;
  li_file : string;
  li_line : option Z;
  li_suggestion : option string
}.

Record LintResult : Type := mkLintResult {
  lr_file : string;
  lr_issues : list LintIssue
}.

Definition has_errors (r : LintResult) : bool :=
  existsb (fun i => bool_decide (li_severity i = ERROR)) (lr_issues r).

Definition has_warnings (r : LintResult) : bool :=
  existsb (fun i => bool_decide (li_severity i = WARNING)) (lr_issues r).

(** [CAPI_API_VERSIONS]: per version, its ["deprecated"] flag and its
    ["replacement"], when it has one. *)
Definition CAPI_API_VERSIONS : list (string * (bool * option string)) :=
  [ ("cluster.x-k8s.io/v1alpha3", (true, Some "v1beta1"));
    ("cluster.x-k8s.io/v1alpha4", (true, Some "v1beta1"));
    ("cluster.x-k8s.io/v1beta1", (false, None)) ].

(** [CAPI_KINDS]: per kind, its ["required_spec"] list. *)
Definition CAPI_KINDS : list (string * list string) :=
  [ ("Cluster", ["infrastructureRef"; "controlPlaneRef"]);
    ("Machine", ["clusterName"; "bootstrap"; "infrastructureRef"]);
    ("MachineDeployment", ["clusterName"; "template"]);
    ("MachineSet", ["clusterName"; "template"]);
    ("ClusterClass", ["infrastructure"; "controlPlane"]);
    ("MachineHealthCheck", ["clusterName"; "selector"; "unhealthyConditions"]);
    ("MachinePool", ["clusterName"; "template"]) ].

(** The [DEPRECATED_FIELDS] of the linter: per kind, the field paths with
    their (since, message). *)
Definition LINT_DEPRECATED_FIELDS : list (string * list (string * (string * string))) :=
  [ ("Cluster",
      [ ("spec.paused",
          ("v1.4.0", "Use spec.topology.controlPlane/workers for managed clusters")) ]);
    ("Machine",
      [ ("spec.version",
          ("v1.5.0", "Version is now inherited from control plane or topology")) ]) ].

Definition lint_error (msg file_path : string) (start_line : Z) : LintIssue :=
  mkLintIssue ERROR msg file_path (Some start_line) None.

(** The required top-level fields. *)
Definition lint_toplevel (doc : value) (file_path : string) (start_line : Z)
  : exc (list LintIssue) :=
  has_api ← str_in "apiVersion" doc;
  has_kind ← str_in "kind" doc;
  has_meta ← str_in "metadata" doc;
  name_issue ←
    (if (has_meta : bool) then
       metadata ← dict_get doc "metadata" empty_dict;
       has_name ← str_in "name" metadata;
       Ok (if (has_name : bool) then []
           else [lint_error "Missing required field: metadata.name"
                   file_path start_line])
     else Ok [lint_error "Missing required field: metadata"
                file_path start_line]);
  Ok ((if (has_api : bool) then []
       else [lint_error "Missing required field: apiVersion" file_path start_line])
      ++ (if (has_kind : bool) then []
          else [lint_error "Missing required field: kind" file_path start_line])
      ++ name_issue).

Definition lint_api_version (doc : value) (file_path : string) (start_line : Z)
  : exc (list LintIssue) :=
  api_version ← dict_get doc "apiVersion" (VStr "");
  version_info ← table_find CAPI_API_VERSIONS api_version;
  Ok (match version_info with
      | Some (true, replacement) =>
          [mkLintIssue WARNING
             ("Deprecated API version: " +:+ py_str api_version)
             file_path (Some start_line)
             (Some ("Use cluster.x-k8s.io/" +:+ default "v1beta1" replacement))]
      | _ => []
      end).

(** [kind == s] for a string literal [s]. *)
Definition py_eq_str (v : value) (s : string) : bool :=
  match v with
  | VStr t => String.eqb t s
  | _ => false
  end.

(** One turn of the required-field loop of [lint_document]. *)
Definition lint_required_step (kind spec : value) (file_path : string)
    (start_line : Z) (required_field : string) (issues : list LintIssue)
  : exc (list LintIssue) :=
  topology_based ←
    (if py_eq_str kind "Cluster" then str_in "topology" spec else Ok false);
  if (topology_based : bool) &&
     existsb (String.eqb required_field) ["infrastructureRef"; "controlPlaneRef"]
  then Ok issues
  else
    present ← str_in required_field spec;
    Ok (if (present : bool) then issues
        else issues ++
             [lint_error ("Missing required spec field for " +:+ py_str kind
                          +:+ ": " +:+ required_field)
                file_path start_line]).

Definition lint_required_spec (doc : value) (file_path : string) (start_line : Z)
  : exc (list LintIssue) :=
  kind ← dict_get doc "kind" (VStr "");
  kind_info ← table_find CAPI_KINDS kind;
  match kind_info with
  | None => Ok []
  | Some required_spec =>
      spec ← dict_get doc "spec" empty_dict;
      for_each required_spec
        (lint_required_step kind spec file_path start_line) []
  end.

(** The walk to a deprecated field: [found] stays true while [current]
    is a mapping that has the next part as a key. *)
Fixpoint lint_navigate (current : value) (parts : list string)
  : exc (option value) :=
  match parts with
  | [] => Ok (Some current)
  | part :: rest =>
      if isinstance_dict current then
        present ← str_in part current;
        if (present : bool) then
          next ← getitem current part;
          lint_navigate next rest
        else Ok None
      else Ok None
  end.

Definition lint_deprecated_step (doc : value) (file_path : string)
    (start_line : Z) (rule : string * (string * string))
    (issues : list LintIssue) : exc (list LintIssue) :=
  let '(field_path, (since, msg)) := rule in
  found ← lint_navigate doc (split_dot field_path);
  Ok (match found with
      | Some _ =>
          issues ++
          [mkLintIssue WARNING
             ("Deprecated field '" +:+ field_path +:+ "' (since " +:+ since +:+ ")")
             file_path (Some start_line) (Some msg)]
      | None => issues
      end).

Definition lint_deprecated (doc : value) (file_path : string) (start_line : Z)
  : exc (list LintIssue) :=
  kind ← dict_get doc "kind" (VStr "");
  rules ← table_find LINT_DEPRECATED_FIELDS kind;
  match rules with
  | None => Ok []
  | Some rs => for_each rs (lint_deprecated_step doc file_path start_line) []
  end.

Definition lint_document (doc : value) (file_path : string) (start_line : Z)
  : exc (list LintIssue) :=
  i1 ← lint_toplevel doc file_path start_line;
  i2 ← lint_api_version doc file_path start_line;
  i3 ← lint_required_spec doc file_path start_line;
  i4 ← lint_deprecated doc file_path start_line;
  Ok (i1 ++ i2 ++ i3 ++ i4).

(** ** validate_manifests.py *)

(** [REQUIRED_FIELDS]: per kind, its ["spec"] list. *)
Definition REQUIRED_FIELDS : list (string * list string) :=
  [ ("Cluster", ["infrastructureRef"]);
    ("Machine", ["clusterName"; "bootstrap"; "infrastructureRef"]);
    ("MachineDeployment", ["clusterName"; "selector"; "template"]);
    ("MachineSet", ["clusterName"; "selector"; "template"]);
    ("MachineHealthCheck", ["clusterName"; "selector"]);
    ("ClusterClass", ["infrastructure"; "controlPlane"; "workers"]);
    ("KubeadmConfig", []);
    ("KubeadmControlPlane", ["version"]) ].

Record ValidationError : Type := mkValidationError {
  ve_path : string;
  ve_message : string;
  ve_severity : string
}.

(** [ValidationError(path, message)] with the default severity. *)
Definition verror (path msg : string) : ValidationError :=
  mkValidationError path msg "error".

(** [if not obj.get(key): errors.append(err)] *)
Definition require_truthy (obj : value) (key : string) (err : ValidationError)
  : exc (list ValidationError) :=
  v ← dict_get obj key VNone;
  Ok (if truthy v then [] else [err]).

Definition _validate_cluster_spec (spec : value) : exc (list ValidationError) :=
  infra_ref ← dict_get spec "infrastructureRef" empty_dict;
  e1 ← (if truthy infra_ref then
          k ← require_truthy infra_ref "kind"
                (verror "spec.infrastructureRef.kind" "Missing kind in infrastructureRef");
          n ← require_truthy infra_ref "name"
                (verror "spec.infrastructureRef.name" "Missing name in infrastructureRef");
          Ok (k ++ n)
        else Ok []);
  cp_ref ← dict_get spec "controlPlaneRef" empty_dict;
  e2 ← (if truthy cp_ref then
          require_truthy cp_ref "kind"
            (verror "spec.controlPlaneRef.kind" "Missing kind in controlPlaneRef")
        else Ok []);
  Ok (e1 ++ e2).

Definition _validate_machine_spec (spec : value) : exc (list ValidationError) :=
  bootstrap ← dict_get spec "bootstrap" empty_dict;
  if truthy bootstrap then
    config_ref ← dict_get bootstrap "configRef" VNone;
    if truthy config_ref then Ok []
    else
      secret ← dict_get bootstrap "dataSecretName" VNone;
      Ok (if truthy secret then []
          else [verror "spec.bootstrap"
                  "Must have either configRef or dataSecretName"])
  else Ok [].

Definition _validate_machine_deployment_spec (spec : value)
  : exc (list ValidationError) :=
  template ← dict_get spec "template" empty_dict;
  if truthy template then
    template_spec ← dict_get template "spec" empty_dict;
    b ← require_truthy template_spec "bootstrap"
          (verror "spec.template.spec.bootstrap" "Missing bootstrap in template");
    i ← require_truthy template_spec "infrastructureRef"
          (verror "spec.template.spec.infrastructureRef"
             "Missing infrastructureRef in template");
    Ok (b ++ i)
  else Ok [].

Definition _validate_cluster_class_spec (spec : value)
  : exc (list ValidationError) :=
  infra ← dict_get spec "infrastructure" empty_dict;
  e1 ← (if truthy infra then
          require_truthy infra "ref"
            (verror "spec.infrastructure.ref" "Missing ref in infrastructure")
        else Ok []);
  cp ← dict_get spec "controlPlane" empty_dict;
  e2 ← (if truthy cp then
          require_truthy cp "ref"
            (verror "spec.controlPlane.ref" "Missing ref in controlPlane")
        else Ok []);
  Ok (e1 ++ e2).

(** The [if kind == ...: ... elif ...] chain that ends [validate_spec]. *)
Definition kind_specific_validations (kind spec : value)
  : exc (list ValidationError) :=
  if py_eq_str kind "Cluster" then _validate_cluster_spec spec
  else if py_eq_str kind "Machine" then _validate_machine_spec spec
  else if py_eq_str kind "MachineDeployment"
       then _validate_machine_deployment_spec spec
  else if py_eq_str kind "ClusterClass" then _validate_cluster_class_spec spec
  else Ok [].

(** One turn of the required-field loop of [validate_spec]. *)
Definition required_field_step (spec : value) (field : string)
    (errors : list ValidationError) : exc (list ValidationError) :=
  present ← str_in field spec;
  Ok (if (present : bool) then errors
      else errors ++ [verror ("spec." +:+ field)
                        ("Missing required field: " +:+ field)]).

Definition validate_spec (doc : value) : exc (list ValidationError) :=
  kind ← dict_get doc "kind" (VStr "");
  spec ← dict_get doc "spec" empty_dict;
  if negb (truthy spec) then Ok [verror "spec" "Missing spec field"]
  else
    entry ← table_find REQUIRED_FIELDS kind;
    errors ← match entry with
             | None => Ok []
             | Some required => for_each required (required_field_step spec) []
             end;
    extra ← kind_specific_validations kind spec;
    Ok (errors ++ extra).

(** *** Exit codes *)

Definition count_ve (sev : string) (errors : list ValidationError) : nat :=
  length (filter (fun e => ve_severity e = sev) errors).

(** The end of [main] of [validate_manifests.py], from the errors
    [validate_file] returned for each file found: no file is an error,
    then the totals over the files decide. *)
Definition validate_main_exit (strict : bool)
    (per_file : list (list ValidationError)) : Z :=
  match per_file with
  | [] => 1
  | _ =>
      let total_errors :=
        fold_left (fun t errors => (t + count_ve "error" errors)%nat) per_file 0%nat in
      let total_warnings :=
        fold_left (fun t errors => (t + count_ve "warning" errors)%nat) per_file 0%nat in
      if (0 <? total_errors)%nat then 1
      else if strict && (0 <? total_warnings)%nat then 1
      else 0
  end.

(** The end of [main] of [lint_cluster_templates.py], from the results
    of the files linted. *)
Definition lint_main_exit (strict : bool) (results : list LintResult) : Z :=
  match results with
  | [] => 1
  | _ =>
      if existsb has_errors results then 1
      else if strict && existsb has_warnings results then 1
      else 0
  end.

(** The end of [main] of [migration_checker.py]: [requested] says
    whether one of --live, --file and --dir was given. *)
Definition migration_main_exit (requested : bool)
    (all_issues : list MigrationIssue) : Z :=
  if match all_issues with [] => negb requested | _ => false end then 0
  else
    match filter (fun i => mi_severity i = "warning") all_issues with
    | [] => 0
    | _ => 1
    end.

(** ** Fetching resources with kubectl *)

(** What [subprocess.run(cmd, capture_output=True, text=True,
    timeout=30)] does: the command completes with a return code and its
    standard output, or the call raises ([TimeoutExpired] after the
    timeout, [OSError] when the program cannot be started). *)
Inductive proc_result : Type :=
  | Completed (returncode : Z) (stdout : string)
  | RunRaised (e : exn).

(** The outside world of one run: what [shutil.which("kubectl")] finds,
    what each command does, and the JSON parser ([None] for a
    [JSONDecodeError]). *)
Variable which_kubectl : option string.
Variable subprocess_run : list string -> proc_result.
Variable json_loads : string -> option value.

(** [shutil.which("kubectl")] when the result is truthy ([if not kubectl]
    also rejects an empty path). *)
Definition find_kubectl : option string :=
  match which_kubectl with
  | Some path => if String.eqb path "" then None else Some path
  | None => None
  end.

(** [try: body except (TimeoutExpired, JSONDecodeError): handler] *)
Definition except_timeout_or_json {A} (body : exc A) (handler : A) : exc A :=
  match body with
  | Raise TimeoutExpired | Raise JSONDecodeError => Ok handler
  | other => other
  end.

(** [subprocess.run] followed by the return-code test and [json.loads]:
    [Ok None] stands for the non-zero return code. *)
Definition run_and_parse (cmd : list string) : exc (option value) :=
  match subprocess_run cmd with
  | RunRaised e => Raise e
  | Completed returncode stdout =>
      if negb (returncode =? 0) then Ok None
      else match json_loads stdout with
           | Some data => Ok (Some data)
           | None => Raise JSONDecodeError
           end
  end.

Definition kubectl_json_cmd (kubectl resource_type : string)
    (namespace : option string) (all_namespaces : bool) : list string :=
  [kubectl; "get"; resource_type; "-o"; "json"] ++
  (if all_namespaces then ["--all-namespaces"]
   else match namespace with
        | Some ns => if String.eqb ns "" then [] else ["-n"; ns]
        | None => []
        end).

(** [run_kubectl_json] of [audit_security.py]; the result is the Python
    value returned (a list on every path that does not raise, unless
    ["items"] holds something else). *)
Definition run_kubectl_json (resource_type : string) (namespace : option string)
    (all_namespaces : bool) : exc value :=
  match find_kubectl with
  | None => Ok empty_list
  | Some kubectl =>
      except_timeout_or_json
        (parsed ← run_and_parse
                    (kubectl_json_cmd kubectl resource_type namespace all_namespaces);
         match parsed with
         | None => Ok empty_list
         | Some data =>
             items ← dict_get data "items" empty_list;
             single ←
               (if negb (truthy items) then
                  and_then (str_in "kind" data)
                    (kind ← dict_get data "kind" (VStr "");
                     not_ (str_in "List" kind))
                else Ok false);
             Ok (if (single : bool) then VList [data] else items)
         end)
        empty_list
  end.

(** The command line of [analyze_live_resources]. *)
Definition live_cmd (kubectl resource_type : string) (namespace : option string)
  : list string :=
  [kubectl; "get"; resource_type; "-o"; "json"] ++
  match namespace with
  | Some ns => if String.eqb ns "" then ["--all-namespaces"] else ["-n"; ns]
  | None => ["--all-namespaces"]
  end.

(** The analysis of one item of a resource list. *)
Definition analyze_item (resource_type : string) (item : value)
  : exc (list MigrationIssue) :=
  name ← metadata_field item "name" "unknown";
  ns ← metadata_field item "namespace" "default";
  analyze_document item
    (resource_type +:+ "/" +:+ py_str ns +:+ "/" +:+ py_str name).

(** The loop over the items inside the [try]: [all_issues] is extended
    item by item, so what was gathered before an exception stays. *)
Fixpoint analyze_items (resource_type : string) (items : list value)
    (all_issues : list MigrationIssue) : list MigrationIssue * option exn :=
  match items with
  | [] => (all_issues, None)
  | item :: rest =>
      match analyze_item resource_type item with
      | Ok issues => analyze_items resource_type rest (all_issues ++ issues)
      | Raise e => (all_issues, Some e)
      end
  end.

(** One turn of the loop over the resource types.  The [except] clause
    lists [Exception], so every exception raised inside the [try] ends
    this turn only. *)
Definition analyze_resource_type (kubectl : string) (namespace : option string)
    (resource_type : string) (all_issues : list MigrationIssue)
  : list MigrationIssue :=
  match run_and_parse (live_cmd kubectl resource_type namespace) with
  | Raise _ => all_issues
  | Ok None => all_issues
  | Ok (Some data) =>
      match (items ← dict_get data "items" empty_list; py_iter items) with
      | Raise _ => all_issues
      | Ok items => (analyze_items resource_type items all_issues).1
      end
  end.

Definition live_resource_types : list string :=
  [ "clusters.cluster.x-k8s.io";
    "machines.cluster.x-k8s.io";
    "machinesets.cluster.x-k8s.io";
    "machinedeployments.cluster.x-k8s.io";
    "machinepools.cluster.x-k8s.io";
    "kubeadmconfigs.bootstrap.cluster.x-k8s.io";
    "kubeadmcontrolplanes.controlplane.cluster.x-k8s.io" ].

(** The loop of [analyze_live_resources] over a list of resource types. *)
Definition analyze_resource_types (kubectl : string) (namespace : option string)
    (resource_types : list string) (all_issues : list MigrationIssue)
  : list MigrationIssue :=
  fold_left (fun acc rt => analyze_resource_type kubectl namespace rt acc)
            resource_types all_issues.

Definition analyze_live_resources (namespace : option string)
  : list MigrationIssue :=
  match find_kubectl with
  | None => []
  | Some kubectl => analyze_resource_types kubectl namespace live_resource_types []
  end.

(** ** The other checks of audit_security.py *)

(** The loop of [check_pss_configuration] that looks for the
    [podSecurityStandard] variable: the value of the first variable of
    that name ([{}] when it has no value), [None] when there is none. *)
Fixpoint find_pss_var (variables : list value) : exc value :=
  match variables with
  | [] => Ok VNone
  | var :: rest =>
      n ← dict_get var "name" VNone;
      if py_eq_str n "podSecurityStandard"
      then dict_get var "value" empty_dict
      else find_pss_var rest
  end.

Definition check_pss_configuration (cluster : value) (report : AuditReport)
  : exc AuditReport :=
  spec ← dict_get cluster "spec" empty_dict;
  topology ← dict_get spec "topology" empty_dict;
  variables ← dict_get topology "variables" empty_list;
  res ← resource_name "Cluster" cluster;
  vars ← py_iter variables;
  pss_var ← find_pss_var vars;
  if negb (truthy pss_var) then
    Ok (add report "medium" "Pod Security" res
          "No podSecurityStandard variable configured"
          "Set podSecurityStandard variable with enforce level")
  else
    enforce ← dict_get pss_var "enforce" (VStr "");
    let report1 :=
      if negb (truthy enforce) || py_eq_str enforce "privileged" then
        add report "high" "Pod Security" res
          ("PSS enforce level is '" +:+
           py_str (if truthy enforce then enforce else VStr "not set") +:+
           "' (should be baseline or restricted)")
          "Set podSecurityStandard.enforce to 'baseline' or 'restricted'"
      else if py_eq_str enforce "baseline" then
        add report "low" "Pod Security" res
          "PSS enforce level is 'baseline' (consider 'restricted' for production)"
          "Consider 'restricted' level for higher security"
      else report in
    audit ← dict_get pss_var "audit" (VStr "");
    Ok (if negb (truthy audit) then
          add report1 "low" "Pod Security" res
            "PSS audit level not configured"
            "Set podSecurityStandard.audit for violation logging"
        else report1).

(** [v is True] *)
Definition is_True (v : value) : bool :=
  match v with VBool true => true | _ => false end.

Definition check_kubeadm_security (kcp : value) (report : AuditReport)
  : exc AuditReport :=
  res ← resource_name "KubeadmControlPlane" kcp;
  spec ← dict_get kcp "spec" empty_dict;
  kcs ← dict_get spec "kubeadmConfigSpec" empty_dict;
  cluster_config ← dict_get kcs "clusterConfiguration" empty_dict;
  api_server ← dict_get cluster_config "apiServer" empty_dict;
  extra_args ← dict_get api_server "extraArgs" empty_dict;
  has_encryption ← str_in "encryption-provider-config" extra_args;
  let report1 :=
    if negb has_encryption then
      add report "medium" "Encryption" res
        "etcd encryption at rest not configured"
        "Configure encryption-provider-config for secret encryption"
    else report in
  has_audit ← str_in "audit-policy-file" extra_args;
  let report2 :=
    if negb has_audit then
      add report1 "medium" "Audit" res
        "Kubernetes audit policy not configured"
        "Configure audit-policy-file for API audit logging"
    else report1 in
  auth_mode ← dict_get extra_args "authorization-mode" (VStr "");
  has_rbac ← str_in "RBAC" auth_mode;
  let report3 :=
    if negb has_rbac then
      add report2 "high" "Authorization" res
        "RBAC not explicitly enabled in authorization-mode"
        "Ensure authorization-mode includes RBAC"
    else report2 in
  anonymous ← dict_get extra_args "anonymous-auth" VNone;
  let report4 :=
    if py_eq_str anonymous "true" then
      add report3 "high" "Authentication" res
        "Anonymous authentication is enabled"
        "Set anonymous-auth=false"
    else report3 in
  kubelet_args ← dict_get cluster_config "kubeletConfiguration" empty_dict;
  tls ← dict_get kubelet_args "serverTLSBootstrap" VNone;
  Ok (if negb (is_True tls) then
        add report4 "low" "TLS" res
          "Kubelet server TLS bootstrap not enabled"
          "Enable serverTLSBootstrap for automatic certificate management"
      else report4).

Definition check_machine_security (machine : value) (report : AuditReport)
  : exc AuditReport :=
  res ← resource_name "Machine" machine;
  spec ← dict_get machine "spec" empty_dict;
  bootstrap ← dict_get spec "bootstrap" empty_dict;
  has_secret ← str_in "dataSecretName" bootstrap;
  Ok (if negb has_secret then
        add report "low" "Secrets" res
          "Bootstrap data secret reference not found"
          "Ensure bootstrap data is stored in Secret"
      else report).

Section Lowercase.

(** [s.lower()], which follows the Unicode tables. *)
Variable str_lower : string -> string.

(** [v.lower()]: only strings have the method. *)
Definition py_lower (v : value) : exc string :=
  match v with
  | VStr s => Ok (str_lower s)
  | _ => Raise AttributeError
  end.

(** One turn of the loop of [check_secret_exposure]. *)
Definition secret_exposure_step (secret : value) (report : AuditReport)
  : exc AuditReport :=
  name ← metadata_field secret "name" "";
  namespace ← metadata_field secret "namespace" "default";
  let res := "Secret/" +:+ py_str namespace +:+ "/" +:+ py_str name in
  secret_type ← dict_get secret "type" (VStr "");
  lowered ← py_lower name;
  if substring_of "kubeconfig" lowered then
    metadata ← dict_get secret "metadata" empty_dict;
    labels ← dict_get metadata "labels" empty_dict;
    owner ← dict_get labels "cluster.x-k8s.io/cluster-name" VNone;
    Ok (if negb (truthy owner) then
          add report "medium" "Secrets" res
            "Kubeconfig secret without cluster label (may be orphaned)"
            "Verify secret ownership and clean up if orphaned"
        else report)
  else Ok report.

Definition check_secret_exposure (secrets : list value) (report : AuditReport)
  : exc AuditReport :=
  for_each secrets secret_exposure_step report.

(** [detect_provider_type] of [check_provider_contract.py]. *)
Definition detect_provider_type (crd_name : value) : exc string :=
  lowered ← py_lower crd_name;
  Ok (if substring_of "cluster" lowered && substring_of "infrastructure" lowered
      then "infrastructure-cluster"
      else if substring_of "machine" lowered && substring_of "infrastructure" lowered
      then "infrastructure-machine"
      else if substring_of "bootstrap" lowered then "bootstrap"
      else if substring_of "controlplane" lowered then "controlplane"
      else "unknown").

End Lowercase.

(** The end of [main] of [audit_security.py]: without kubectl the exit
    code is 1, without a cluster 0, otherwise 1 when a report has a
    finding of high severity. *)
Definition audit_main_exit (kubectl_found : bool) (reports : list AuditReport) : Z :=
  if negb kubectl_found then 1
  else match reports with
       | [] => 0
       | _ => if existsb (fun r => (0 <? high_count r)%nat) reports then 1 else 0
       end.

(** ** The other checks of check_provider_contract.py *)

Definition CONTROL_PLANE_required_spec_fields : list string :=
  ["version"; "replicas"].
Definition CONTROL_PLANE_required_status_fields : list string :=
  ["ready"; "initialized"; "replicas"; "readyReplicas"; "updatedReplicas"].

(** [schema.get("properties", {}).get(part, {}).get("properties", {})] *)
Definition schema_properties (schema : value) (part : string) : exc value :=
  properties ← dict_get schema "properties" empty_dict;
  sub ← dict_get properties part empty_dict;
  dict_get sub "properties" empty_dict.

(** [if key not in props: report.add_violation("error", ...)] *)
Definition require_property (props : value) (key : string)
    (cat : string) (crd_name : value) (msg req : string)
    (report : ContractReport) : exc ContractReport :=
  present ← str_in key props;
  Ok (if (present : bool) then report
      else add_violation report "error" cat crd_name msg req).

Definition check_infrastructure_machine (crd : value) (report : ContractReport)
  : exc ContractReport :=
  crd_name ← metadata_field crd "name" "unknown";
  schema ← get_crd_schema crd;
  if negb (truthy schema) then
    Ok (add_violation report "error" "Schema" crd_name
          "No OpenAPI schema found in CRD" "")
  else
    spec_props ← schema_properties schema "spec";
    report1 ← require_property spec_props "providerID" "Spec" crd_name
                "Missing providerID field in spec"
                "Contract requires spec.providerID for node correlation" report;
    status_props ← schema_properties schema "status";
    report2 ← require_property status_props "ready" "Status" crd_name
                "Missing ready field in status" "" report1;
    require_property status_props "addresses" "Status" crd_name
      "Missing addresses field in status"
      "Contract requires status.addresses for node registration" report2.

Definition check_bootstrap_config (crd : value) (report : ContractReport)
  : exc ContractReport :=
  crd_name ← metadata_field crd "name" "unknown";
  schema ← get_crd_schema crd;
  if negb (truthy schema) then
    Ok (add_violation report "error" "Schema" crd_name
          "No OpenAPI schema found in CRD" "")
  else
    status_props ← schema_properties schema "status";
    report1 ← require_property status_props "ready" "Status" crd_name
                "Missing ready field in status" "" report;
    require_property status_props "dataSecretName" "Status" crd_name
      "Missing dataSecretName field in status"
      "Contract requires status.dataSecretName pointing to bootstrap data Secret"
      report1.

Definition check_control_plane (crd : value) (report : ContractReport)
  : exc ContractReport :=
  crd_name ← metadata_field crd "name" "unknown";
  schema ← get_crd_schema crd;
  if negb (truthy schema) then
    Ok (add_violation report "error" "Schema" crd_name
          "No OpenAPI schema found in CRD" "")
  else
    spec_props ← schema_properties schema "spec";
    report1 ← for_each CONTROL_PLANE_required_spec_fields
                (fun field_name =>
                   require_property spec_props field_name "Spec" crd_name
                     ("Missing required spec field: " +:+ field_name) "")
                report;
    status_props ← schema_properties schema "status";
    for_each CONTROL_PLANE_required_status_fields
      (fun field_name =>
         require_property status_props field_name "Status" crd_name
           ("Missing required status field: " +:+ field_name) "")
      report1.

(** The end of [main] of [check_provider_contract.py]. *)
Definition contract_main_exit (kubectl_found : bool)
    (reports : list ContractReport) : Z :=
  if negb kubectl_found then 1
  else match reports with
       | [] => 0
       | _ => if existsb (fun r => negb (is_compliant r)) reports then 1 else 0
       end.

(** ** The other validations of validate_manifests.py *)

Definition CAPI_RESOURCES : list (string * string) :=
  [ ("Cluster", "cluster.x-k8s.io");
    ("Machine", "cluster.x-k8s.io");
    ("MachineSet", "cluster.x-k8s.io");
    ("MachineDeployment", "cluster.x-k8s.io");
    ("MachinePool", "cluster.x-k8s.io");
    ("MachineHealthCheck", "cluster.x-k8s.io");
    ("ClusterClass", "cluster.x-k8s.io");
    ("ClusterResourceSet", "addons.cluster.x-k8s.io");
    ("ClusterResourceSetBinding", "addons.cluster.x-k8s.io");
    ("KubeadmConfig", "bootstrap.cluster.x-k8s.io");
    ("KubeadmConfigTemplate", "bootstrap.cluster.x-k8s.io");
    ("KubeadmControlPlane", "controlplane.cluster.x-k8s.io");
    ("KubeadmControlPlaneTemplate", "controlplane.cluster.x-k8s.io");
    ("IPAddress", "ipam.cluster.x-k8s.io");
    ("IPAddressClaim", "ipam.cluster.x-k8s.io");
    ("ExtensionConfig", "runtime.cluster.x-k8s.io") ].

(** [v.startswith(prefix)]: only strings have the method. *)
Definition py_startswith (v : value) (prefix : string) : exc bool :=
  match v with
  | VStr s => Ok (is_prefix prefix s)
  | _ => Raise AttributeError
  end.

Definition validate_api_version (doc : value) : exc (list ValidationError) :=
  api_version ← dict_get doc "apiVersion" (VStr "");
  if negb (truthy api_version) then
    Ok [verror "apiVersion" "Missing apiVersion field"]
  else
    kind ← dict_get doc "kind" (VStr "");
    expected ← table_find CAPI_RESOURCES kind;
    e1 ← match expected with
         | Some expected_group =>
             starts ← py_startswith api_version expected_group;
             Ok (if (starts : bool) then []
                 else [mkValidationError "apiVersion"
                         ("Expected group '" +:+ expected_group +:+ "', got '"
                          +:+ py_str api_version +:+ "'")
                         "warning"])
         | None => Ok []
         end;
    alpha ← str_in "v1alpha" api_version;
    Ok (e1 ++
        if (alpha : bool) then
          [mkValidationError "apiVersion"
             ("v1alpha API versions are deprecated: " +:+ py_str api_version)
             "warning"]
        else []).

Definition validate_metadata (doc : value) : exc (list ValidationError) :=
  metadata ← dict_get doc "metadata" empty_dict;
  if negb (truthy metadata) then
    Ok [verror "metadata" "Missing metadata field"]
  else
    e1 ← require_truthy metadata "name"
           (verror "metadata.name" "Missing name field");
    kind ← dict_get doc "kind" (VStr "");
    labels ← dict_get metadata "labels" empty_dict;
    if match kind with
       | VStr k => existsb (String.eqb k)
                     ["Machine"; "MachineSet"; "MachineDeployment"; "MachinePool"]
       | _ => false
       end
    then
      labelled ← str_in "cluster.x-k8s.io/cluster-name" labels;
      if (labelled : bool) then Ok e1
      else
        spec ← dict_get doc "spec" empty_dict;
        spec_cluster ← dict_get spec "clusterName" (VStr "");
        Ok (e1 ++
            if truthy spec_cluster then []
            else [mkValidationError "metadata.labels"
                    "Missing cluster.x-k8s.io/cluster-name label" "warning"])
    else Ok e1.

Definition validate_document (doc : value) (file_path : string)
  : exc (list ValidationError) :=
  if negb (isinstance_dict doc) then
    Ok [verror file_path "Document is not a valid YAML mapping"]
  else
    kind ← dict_get doc "kind" (VStr "");
    e1 ← validate_api_version doc;
    e2 ← validate_metadata doc;
    e3 ← validate_spec doc;
    Ok ((if truthy kind then [] else [verror "kind" "Missing kind field"])
        ++ e1 ++ e2 ++ e3).

(** ** Notions of the specification *)

(** Field-path resolution as the specification words it: the keys are
    traversed in order; a missing key or a value that is not a mapping
    where a key is still to be looked up gives "absent" ([None] here),
    otherwise the stored value is returned, whatever it is. *)
Fixpoint spec_resolve (doc : value) (keys : list string) : option value :=
  match keys with
  | [] => Some doc
  | key :: rest =>
      match doc with
      | VDict m =>
          match m !! key with
          | Some v => spec_resolve v rest
          | None => None
          end
      | _ => None
      end
  end.

(** [doc] and every value met along [keys] is a mapping, as far as the
    keys are present. *)
Fixpoint mappings_along (doc : value) (keys : list string) : bool :=
  match doc with
  | VDict m =>
      match keys with
      | [] => true
      | key :: rest =>
          match m !! key with
          | Some v => mappings_along v rest
          | None => true
          end
      end
  | _ => false
  end.

(** Values that can be looked up in a rule table. *)
Definition hashable (v : value) : bool :=
  match v with
  | VList _ | VDict _ => false
  | _ => true
  end.

(** What one deprecated-field rule of the migration checker contributes,
    in terms of the resolution of its path. *)
Definition deprecated_field_issues (doc : value) (file_path : string)
    (rule : string * (string * string)) : list MigrationIssue :=
  if is_none (default VNone (spec_resolve doc (split_dot rule.1))) then []
  else [mkMigrationIssue file_path rule.1 rule.2.1 rule.2.2 "warning"].

(** The path of the control-plane replica count. *)
Definition replicas_path : list string :=
  ["spec"; "topology"; "controlPlane"; "replicas"].

(** The label the checks give a resource whose [metadata] is a mapping
    or absent. *)
Definition resource_label (kind : string) (obj : value) : string :=
  kind +:+ "/" +:+
  py_str (default (VStr "default") (spec_resolve obj ["metadata"; "namespace"]))
  +:+ "/" +:+
  py_str (default (VStr "unknown") (spec_resolve obj ["metadata"; "name"])).

(** The violation that refers to [status.ready]. *)
Definition refers_to_status_ready (v : ContractViolation) : Prop :=
  cv_requirement v = "Contract requires status.ready".

#[global] Instance refers_to_status_ready_dec v : Decision (refers_to_status_ready v).
Proof. unfold refers_to_status_ready. apply _. Defined.

(** The policy of the specification: non-zero when there is an error,
    or, in strict mode, a warning. *)
Definition spec_exit_policy (strict : bool) (errors warnings : nat) : Z :=
  if (0 <? errors)%nat || (strict && (0 <? warnings)%nat) then 1 else 0.

(** The number of issues of a severity, for the linter and for the
    migration checker. *)
Definition count_li (sev : Severity) (issues : list LintIssue) : nat :=
  length (filter (fun i => li_severity i = sev) issues).

Definition count_mi (sev : string) (issues : list MigrationIssue) : nat :=
  length (filter (fun i => mi_severity i = sev) issues).

(** The failures of a fetch the specification names: the command
    exits with a non-zero code, it times out, or its output is not
    JSON. *)
Definition fetch_failed (r : proc_result) : bool :=
  match r with
  | RunRaised TimeoutExpired => true
  | RunRaised _ => false
  | Completed returncode stdout =>
      negb (returncode =? 0) ||
      match json_loads stdout with None => true | Some _ => false end
  end.


(** Whether the linter leaves a required field of a Cluster out because
    the spec has a [topology]. *)
Definition topology_optional (kind : string) (doc : value) (field : string) : bool :=
  String.eqb kind "Cluster" &&
  match spec_resolve doc ["spec"; "topology"] with Some _ => true | None => false end &&
  existsb (String.eqb field) ["infrastructureRef"; "controlPlaneRef"].

(** Whether [field] is a key of the document's [spec]. *)
Definition in_spec (doc : value) (field : string) : bool :=
  match spec_resolve doc ["spec"; field] with Some _ => true | None => false end.

(** ** Notions used by the further properties *)

(** The two severities of the migration checker. *)
Definition warning_or_info (i : MigrationIssue) : Prop :=
  mi_severity i = "warning" \/ mi_severity i = "info".

(** [report'] is [report] with findings appended, none of them of high
    severity. *)
Definition appends_no_high (report report' : AuditReport) : Prop :=
  cluster_name report' = cluster_name report /\
  exists more,
    findings report' = findings report ++ more /\
    Forall (fun f => severity f <> "high") more.

(** The path of the API server's extra arguments in a
    KubeadmControlPlane, and of its cluster configuration. *)
Definition cluster_configuration_path : list string :=
  ["spec"; "kubeadmConfigSpec"; "clusterConfiguration"].

Definition extra_args_path : list string :=
  cluster_configuration_path ++ ["apiServer"; "extraArgs"].

(** A variable that is a mapping with another name than
    [podSecurityStandard]. *)
Definition other_variable (var : value) : bool :=
  match var with
  | VDict m => negb (py_eq_str (default VNone (m !! "name")) "podSecurityStandard")
  | _ => false
  end.

(** A secret whose metadata is a mapping with a string name and a
    non-empty [cluster.x-k8s.io/cluster-name] label. *)
Definition owned_secret (secret : value) : bool :=
  mappings_along secret ["metadata"; "labels"] &&
  isinstance_str (default (VStr "") (spec_resolve secret ["metadata"; "name"])) &&
  truthy (default VNone
            (spec_resolve secret
               ["metadata"; "labels"; "cluster.x-k8s.io/cluster-name"])).

(** Whether [field] is a key of [properties.<part>.properties] in a
    schema. *)
Definition schema_has (schema : value) (part field : string) : bool :=
  match spec_resolve schema ["properties"; part; "properties"; field] with
  | Some _ => true
  | None => false
  end.

(** A version that is a mapping and is not served. *)
Definition unserved (version : value) : bool :=
  match version with
  | VDict m => negb (truthy (default VNone (m !! "served")))
  | _ => false
  end.

(** The severity of every error of a list is ["warning"]. *)
Definition only_warnings (errors : list ValidationError) : Prop :=
  Forall (fun e => ve_severity e = "warning") errors.

(** What [validate_document] accepts as the [controlPlaneRef] of a
    Cluster: none, an empty or otherwise false value, or a mapping with
    a [kind]. *)
Definition control_plane_ref_accepted (sm : gmap string value) : bool :=
  match sm !! "controlPlaneRef" with
  | None => true
  | Some (VDict cm) =>
      bool_decide (cm = ∅) || truthy (default VNone (cm !! "kind"))
  | Some v => negb (truthy v)
  end.

(** ** Example documents *)

Definition doc_ready_false : value :=
  VDict {[ "status" := VDict {[ "ready" := VBool false ]} ]}.
Definition doc_ready_null : value :=
  VDict {[ "status" := VDict {[ "ready" := VNone ]} ]}.
Definition doc_ready_missing : value :=
  VDict {[ "status" := VDict ∅ ]}.

Definition cluster_with_rollout (rollout_after : value) : gmap string value :=
  {[ "apiVersion" := VStr "cluster.x-k8s.io/v1beta1";
     "kind" := VStr "Cluster";
     "spec" := VDict {[ "topology" := VDict {[ "rolloutAfter" := rollout_after ]} ]} ]}.

Definition cluster_with_replicas (replicas : value) : value :=
  VDict {[ "metadata" := VDict {[ "name" := VStr "c1"; "namespace" := VStr "prod" ]};
           "spec" := VDict {[ "topology" :=
             VDict {[ "controlPlane" := VDict {[ "replicas" := replicas ]} ]} ]} ]}.

Definition cluster_bare : value :=
  VDict {[ "metadata" := VDict {[ "name" := VStr "c1" ]} ]}.

Definition crd_with_schema (schema : value) : value :=
  VDict {[ "metadata" := VDict {[ "name" := VStr "fooclusters.infrastructure.cluster.x-k8s.io" ]};
           "spec" := VDict {[ "versions" := VList
             [ VDict {[ "served" := VBool true;
                        "schema" := VDict {[ "openAPIV3Schema" := schema ]} ]} ] ]} ]}.

Definition schema_without_ready : value :=
  VDict {[ "type" := VStr "object";
           "properties" := VDict {[ "status" := VDict {[ "type" := VStr "object" ]} ]} ]}.

Definition topology_cluster_manifest : gmap string value :=
  {[ "apiVersion" := VStr "cluster.x-k8s.io/v1beta1";
     "kind" := VStr "Cluster";
     "metadata" := VDict {[ "name" := VStr "c1"; "namespace" := VStr "prod" ]};
     "spec" := VDict {[ "topology" := VDict {[ "class" := VStr "quick-start" ]} ]} ]}.

Definition machine_spec : gmap string value :=
  {[ "clusterName" := VStr "c1" ]}.

Definition machine_manifest : gmap string value :=
  {[ "apiVersion" := VStr "cluster.x-k8s.io/v1beta1";
     "kind" := VStr "Machine";
     "metadata" := VDict {[ "name" := VStr "m1"; "namespace" := VStr "prod" ]};
     "spec" := VDict machine_spec ]}.


(** A world in which kubectl is installed and only the fetch of the
    machines fails, with a non-zero return code. *)
Definition example_run (cmd : list string) : proc_result :=
  if bool_decide ("machines.cluster.x-k8s.io" ∈ cmd) then Completed 1 ""
  else Completed 0 "{}".

(** A parser that knows the empty object only. *)
Definition example_json_loads (text : string) : option value :=
  if String.eqb text "{}" then Some (VDict ∅) else None.

(** A list answer of kubectl, and a world in which every fetch gives
    it. *)
Definition cluster_list : gmap string value :=
  {[ "kind" := VStr "ClusterList"; "items" := VList [cluster_bare] ]}.

Definition example_run_list (cmd : list string) : proc_result :=
  Completed 0 "list".

Definition example_json_loads_list (text : string) : option value :=
  if String.eqb text "list" then Some (VDict cluster_list) else None.

(** A KubeadmControlPlane without RBAC and with anonymous requests. *)
Definition kcp_insecure : value :=
  VDict {[ "metadata" := VDict {[ "name" := VStr "kcp1" ]};
           "spec" := VDict {[ "kubeadmConfigSpec" := VDict {[
             "clusterConfiguration" := VDict {[
               "apiServer" := VDict {[ "extraArgs" := VDict {[
                 "authorization-mode" := VStr "Node";
                 "anonymous-auth" := VStr "true" ]} ]} ]} ]} ]} ]}.

Definition pss_privileged : gmap string value :=
  {[ "enforce" := VStr "privileged" ]}.

Definition pss_variables : list value :=
  [ VDict {[ "name" := VStr "region"; "value" := VStr "eu" ]};
    VDict {[ "name" := VStr "podSecurityStandard";
             "value" := VDict pss_privileged ]} ].

Definition cluster_with_pss : value :=
  VDict {[ "metadata" := VDict {[ "name" := VStr "c1" ]};
           "spec" := VDict {[ "topology" :=
             VDict {[ "variables" := VList pss_variables ]} ]} ]}.

Definition kubeconfig_secret : value :=
  VDict {[ "metadata" := VDict {[
             "name" := VStr "c1-kubeconfig";
             "labels" := VDict {[ "cluster.x-k8s.io/cluster-name" := VStr "c1" ]} ]};
           "type" := VStr "cluster.x-k8s.io/secret" ]}.

Definition high_report : AuditReport :=
  mkAuditReport "prod/c1"
    [mkFinding "high" "Authorization" "KubeadmControlPlane/prod/kcp1"
       "RBAC authorization not enabled" "Enable RBAC"].

Definition crd_unserved : value :=
  VDict {[ "metadata" := VDict {[ "name" := VStr "fooclusters.infrastructure.cluster.x-k8s.io" ]};
           "spec" := VDict {[ "versions" := VList
             [ VDict {[ "served" := VBool false;
                        "schema" := VDict {[ "openAPIV3Schema" := schema_without_ready ]} ]} ] ]} ]}.

Definition numbered_manifest : gmap string value :=
  {[ "apiVersion" := VInt 1; "kind" := VStr "Cluster" ]}.

Definition infrastructure_ref : gmap string value :=
  {[ "kind" := VStr "DockerCluster"; "name" := VStr "c1" ]}.

Definition cluster_spec : gmap string value :=
  {[ "infrastructureRef" := VDict infrastructure_ref ]}.

Definition cluster_metadata : gmap string value :=
  {[ "name" := VStr "c1"; "namespace" := VStr "prod" ]}.

Definition cluster_manifest : gmap string value :=
  {[ "apiVersion" := VStr "cluster.x-k8s.io/v1beta1";
     "kind" := VStr "Cluster";
     "metadata" := VDict cluster_metadata;
     "spec" := VDict cluster_spec ]}.

Definition paused_null_cluster : gmap string value :=
  {[ "kind" := VStr "Cluster"; "spec" := VDict {[ "paused" := VNone ]} ]}.

(** ** Field-path resolution *)

(** Closes a goal from a hypothesis that equates two different string
    constants, or that denies the equality of two equal ones. *)
Ltac closed_string_facts :=
  match goal with
  | H : @eq string _ _ |- _ => vm_compute in H; discriminate H
  | H : not (@eq string _ _) |- _ => apply H; vm_compute; reflexivity
  end.

Lemma bind_Ok {A B} (a : A) (f : A -> exc B) : (Ok a ≫= f) = f a.
Proof. reflexivity. Qed.

Lemma get_nested_loop_None keys : get_nested_loop VNone keys = Ok VNone.
Proof. destruct keys; reflexivity. Qed.

Lemma get_nested_loop_resolve keys : forall doc,
  get_nested_loop doc keys = Ok (default VNone (spec_resolve doc keys)).
Proof.
  induction keys as [|key rest IH]; intros doc; [reflexivity|].
  destruct doc as [| | | | |m]; try reflexivity.
  cbn [get_nested_loop isinstance_dict dict_get spec_resolve].
  rewrite bind_Ok. destruct (m !! key) as [v|]; cbn [from_option id].
  - apply IH.
  - apply get_nested_loop_None.
Qed.

Lemma lint_navigate_resolve keys : forall doc,
  lint_navigate doc keys = Ok (spec_resolve doc keys).
Proof.
  induction keys as [|key rest IH]; intros doc; [reflexivity|].
  destruct doc as [| | | | |m]; try reflexivity.
  cbn [lint_navigate isinstance_dict str_in getitem spec_resolve].
  rewrite bind_Ok. destruct (m !! key) as [v|] eqn:Hk.
  - rewrite bool_decide_eq_true_2 by eauto. rewrite bind_Ok. apply IH.
  - rewrite bool_decide_eq_false_2; [reflexivity|].
    intros [v Hv]; discriminate.
Qed.



(** C1 (amended).  [get_nested] returns the stored value when every key of
    the path is present and [None] when resolution is absent; a result
    that is not [None] is always the stored value of a path whose keys
    are all present.  [false] stored under [status.ready] is returned as
    it is, is not [None], and a required-field test on [ready] in that
    [status] mapping reports nothing. *)
Theorem get_nested_resolves_stored_value :
  (forall (doc : value) (path : string),
     (forall v, spec_resolve doc (split_dot path) = Some v ->
                get_nested doc path = Ok v) /\
     (spec_resolve doc (split_dot path) = None -> get_nested doc path = Ok VNone) /\
     (forall v, get_nested doc path = Ok v -> is_none v = false ->
                spec_resolve doc (split_dot path) = Some v)) /\
  (let status : value := VDict {[ "ready" := VBool false ]} in
   let doc : value := VDict {[ "status" := status ]} in
   get_nested doc "status.ready" = Ok (VBool false) /\
   is_none (VBool false) = false /\
   required_field_step status "ready" [] = Ok []).
Proof.
  split.
  - intros doc path. unfold get_nested.
    rewrite get_nested_loop_resolve.
    destruct (spec_resolve doc (split_dot path)) as [w|]; cbn [from_option id].
    + split; [|split].
      * intros v [= ->]. reflexivity.
      * discriminate.
      * intros v [= ->] _. reflexivity.
    + split; [|split].
      * discriminate.
      * reflexivity.
      * intros v [= <-]. discriminate.
  - vm_compute. repeat split.
Qed.


(** ** Loops that append *)

Lemma for_each_appends {A B : Type} (body : A -> list B -> exc (list B))
    (g : A -> list B) (xs : list A) :
  (forall x acc, body x acc = Ok (acc ++ g x)) ->
  forall acc, for_each xs body acc = Ok (acc ++ concat (map g xs)).
Proof.
  intros Hbody. induction xs as [|x xs IH]; intros acc; cbn [for_each map concat].
  - rewrite app_nil_r. reflexivity.
  - rewrite Hbody, bind_Ok, IH, app_assoc. reflexivity.
Qed.

(** ** The deprecated-field check of the migration checker *)

Lemma deprecated_field_step_appends doc file_path rule issues :
  deprecated_field_step doc file_path rule issues =
  Ok (issues ++ deprecated_field_issues doc file_path rule).
Proof.
  destruct rule as [field [reason action]].
  unfold deprecated_field_step, deprecated_field_issues, get_nested.
  rewrite get_nested_loop_resolve, bind_Ok. cbn [fst snd].
  destruct (is_none _); cbn [negb]; [rewrite app_nil_r|]; reflexivity.
Qed.

Lemma check_deprecated_fields_Cluster m file_path :
  m !! "kind" = Some (VStr "Cluster") ->
  check_deprecated_fields (VDict m) file_path =
  Ok (concat (map (deprecated_field_issues (VDict m) file_path)
        (default [] (assoc "Cluster" DEPRECATED_FIELDS)))).
Proof.
  intros Hkind. unfold check_deprecated_fields. cbn [dict_get].
  rewrite Hkind. cbn [from_option id]. rewrite bind_Ok. cbn [table_find].
  rewrite bind_Ok.
  change (assoc "Cluster" DEPRECATED_FIELDS) with
    (Some (default [] (assoc "Cluster" DEPRECATED_FIELDS))).
  cbv iota.
  rewrite (for_each_appends _ (deprecated_field_issues (VDict m) file_path)).
  - reflexivity.
  - intros; apply deprecated_field_step_appends.
Qed.

(** C5 (amended).  On a Cluster document the deprecated-field check
    returns, and reports [spec.topology.rolloutAfter] exactly once, as a
    warning with the action "Remove this field", when the field is
    present with a value other than null; it reports nothing for that
    field when the field is absent or null. *)
Theorem rollout_after_reported_once (m : gmap string value) (file_path : string) :
  m !! "kind" = Some (VStr "Cluster") ->
  exists issues,
    check_deprecated_fields (VDict m) file_path = Ok issues /\
    filter (fun i => mi_field i = "spec.topology.rolloutAfter") issues =
    match spec_resolve (VDict m) ["spec"; "topology"; "rolloutAfter"] with
    | Some v =>
        if is_none v then []
        else [mkMigrationIssue file_path "spec.topology.rolloutAfter"
                "Never implemented, removed in v1beta2"
                "Remove this field" "warning"]
    | None => []
    end.
Proof.
  intros Hkind. eexists. split; [apply check_deprecated_fields_Cluster, Hkind|].
  change (default [] (assoc "Cluster" DEPRECATED_FIELDS)) with
    [ ("spec.topology.rolloutAfter",
        ("Never implemented, removed in v1beta2", "Remove this field"));
      ("spec.topology.class",
        ("Renamed to spec.topology.classRef.name",
         "Move to spec.topology.classRef.name"));
      ("spec.topology.classNamespace",
        ("Renamed to spec.topology.classRef.namespace",
         "Move to spec.topology.classRef.namespace"));
      ("status.failureReason",
        ("Moved to status.deprecated.v1beta1.failureReason",
         "Update status handling code"));
      ("status.failureMessage",
        ("Moved to status.deprecated.v1beta1.failureMessage",
         "Update status handling code")) ].
  cbn [map concat]. unfold deprecated_field_issues. cbn [fst snd].
  change (split_dot "spec.topology.rolloutAfter")
    with ["spec"; "topology"; "rolloutAfter"].
  generalize (spec_resolve (VDict m) (split_dot "spec.topology.class")).
  generalize (spec_resolve (VDict m) (split_dot "spec.topology.classNamespace")).
  generalize (spec_resolve (VDict m) (split_dot "status.failureReason")).
  generalize (spec_resolve (VDict m) (split_dot "status.failureMessage")).
  generalize (spec_resolve (VDict m) ["spec"; "topology"; "rolloutAfter"]).
  intros r1 r5 r4 r3 r2.
  destruct r1 as [v1|]; cbn [from_option id] in *;
    destruct (is_none v1) eqn:E1 || idtac;
    destruct (is_none (default VNone r2));
    destruct (is_none (default VNone r3));
    destruct (is_none (default VNone r4));
    destruct (is_none (default VNone r5));
    vm_compute; reflexivity.
Qed.

(** ** The replica-count check *)

Lemma dict_get_empty key dflt : dict_get empty_dict key dflt = Ok dflt.
Proof. unfold dict_get, empty_dict. rewrite lookup_empty. reflexivity. Qed.

Lemma metadata_field_resolve obj field dflt :
  mappings_along obj ["metadata"] = true ->
  metadata_field obj field dflt =
  Ok (default (VStr dflt) (spec_resolve obj ["metadata"; field])).
Proof.
  destruct obj as [| | | | |m]; try discriminate.
  unfold metadata_field. cbn [mappings_along spec_resolve dict_get].
  rewrite bind_Ok.
  destruct (m !! "metadata") as [[| | | | |md]|]; try discriminate; intros _;
    cbn [from_option id].
  - cbn [dict_get]. destruct (md !! field); reflexivity.
  - apply dict_get_empty.
Qed.

Lemma resource_name_label kind obj :
  mappings_along obj ["metadata"] = true ->
  resource_name kind obj = Ok (resource_label kind obj).
Proof.
  intros H. unfold resource_name.
  rewrite !(metadata_field_resolve _ _ _ H), !bind_Ok. reflexivity.
Qed.


Lemma control_plane_replicas_default cluster :
  mappings_along cluster ["spec"; "topology"; "controlPlane"] = true ->
  control_plane_replicas cluster =
  Ok (default (VInt 1) (spec_resolve cluster replicas_path)).
Proof.
  destruct cluster as [| | | | |m]; try discriminate.
  unfold control_plane_replicas, replicas_path.
  cbn [mappings_along spec_resolve dict_get]. rewrite bind_Ok.
  destruct (m !! "spec") as [[| | | | |sp]|]; try discriminate;
    cbn [from_option id mappings_along dict_get];
    [|intros _; rewrite !dict_get_empty, !bind_Ok; apply dict_get_empty].
  rewrite bind_Ok.
  destruct (sp !! "topology") as [[| | | | |tp]|]; try discriminate;
    cbn [from_option id mappings_along dict_get];
    [|intros _; rewrite !dict_get_empty, !bind_Ok; apply dict_get_empty].
  rewrite bind_Ok.
  destruct (tp !! "controlPlane") as [[| | | | |cp]|]; try discriminate;
    cbn [from_option id mappings_along dict_get];
    [|intros _; apply dict_get_empty].
  intros _. destruct (cp !! "replicas"); reflexivity.
Qed.


Lemma resolve_replicas_shape cluster v :
  spec_resolve cluster replicas_path = Some v ->
  mappings_along cluster ["spec"; "topology"; "controlPlane"] = true.
Proof.
  destruct cluster as [| | | | |m]; try discriminate.
  unfold replicas_path. cbn [spec_resolve mappings_along].
  destruct (m !! "spec") as [[| | | | |sp]|]; try discriminate.
  destruct (sp !! "topology") as [[| | | | |tp]|]; try discriminate.
  destruct (tp !! "controlPlane") as [[| | | | |cp]|]; try discriminate.
  reflexivity.
Qed.

(** [check_replicas] once the label and the count are known. *)
Lemma check_replicas_unfold cluster report :
  mappings_along cluster ["metadata"] = true ->
  mappings_along cluster ["spec"; "topology"; "controlPlane"] = true ->
  check_replicas cluster report =
  let res := resource_label "Cluster" cluster in
  let cp_replicas := default (VInt 1) (spec_resolve cluster replicas_path) in
  below ← py_lt_int cp_replicas 3;
  let report1 :=
    if (below : bool) then
      add report
        (if py_eq_int cp_replicas 1 then "medium" else "low")
        "Availability" res
        ("Control plane has " +:+ py_str cp_replicas +:+
         " replica(s) (recommend 3 for HA)")
        "Use 3 control plane replicas for production HA"
    else report in
  even ← py_mod_is_zero cp_replicas 2;
  Ok (if (even : bool) then
        add report1 "low" "Availability" res
          ("Control plane has even number of replicas (" +:+
           py_str cp_replicas +:+ ")")
          "Use odd number of replicas for proper etcd quorum"
      else report1).
Proof.
  intros Hmeta Hshape. unfold check_replicas.
  rewrite (resource_name_label _ _ Hmeta), bind_Ok.
  rewrite (control_plane_replicas_default _ Hshape), bind_Ok.
  reflexivity.
Qed.

(** C3.  For a Cluster document whose
    [spec.topology.controlPlane.replicas] is the integer [n]: with
    [n = 1] the check appends exactly one finding, of medium severity,
    recommending 3 replicas; with [n = 2] it appends a low-severity
    below-3 finding and then a low-severity even-replica finding; with
    [n = 3] it leaves the report as it is. *)
Theorem replica_count_findings (cluster : value) (report : AuditReport) (n : Z) :
  mappings_along cluster ["metadata"] = true ->
  spec_resolve cluster replicas_path = Some (VInt n) ->
  let res := resource_label "Cluster" cluster in
  (n = 1 ->
   check_replicas cluster report =
   Ok (add report "medium" "Availability" res
         "Control plane has 1 replica(s) (recommend 3 for HA)"
         "Use 3 control plane replicas for production HA")) /\
  (n = 2 ->
   check_replicas cluster report =
   Ok (add (add report "low" "Availability" res
              "Control plane has 2 replica(s) (recommend 3 for HA)"
              "Use 3 control plane replicas for production HA")
         "low" "Availability" res
         "Control plane has even number of replicas (2)"
         "Use odd number of replicas for proper etcd quorum")) /\
  (n = 3 -> check_replicas cluster report = Ok report).
Proof.
  intros Hmeta Hn res.
  rewrite (check_replicas_unfold _ _ Hmeta (resolve_replicas_shape _ _ Hn)).
  rewrite Hn. cbn [from_option id].
  split_and!; intros ->; reflexivity.
Qed.

Lemma add_findings report sev cat res msg rec :
  findings (add report sev cat res msg rec) =
  findings report ++ [mkFinding sev cat res msg rec].
Proof. reflexivity. Qed.




(** ** Severity counts *)

Lemma count_severity_app s fs gs :
  count_severity s (fs ++ gs) = (count_severity s fs + count_severity s gs)%nat.
Proof. unfold count_severity. rewrite filter_app, length_app. reflexivity. Qed.

Lemma count_severity_one s f :
  count_severity s [f] = if decide (severity f = s) then 1%nat else 0%nat.
Proof.
  unfold count_severity. rewrite filter_cons, filter_nil.
  case_decide; reflexivity.
Qed.

(** C2 (amended).  Each count a report exposes is the number of its
    findings of that severity, recomputed from the list: appending a
    finding raises the count of its severity by one and leaves the
    others as they are.  An AuditReport exposes high, medium and low
    only, so the three counts sum to the number of findings that have
    one of these severities: the findings of any other severity (info)
    make up the difference to the total.  A ContractReport exposes
    [error_count] only, the number of its error-severity violations. *)
Theorem severity_counts_follow_findings :
  (forall report : AuditReport,
     (high_count report + medium_count report + low_count report +
      length (filter (fun f => severity f <> "high" /\ severity f <> "medium" /\
                               severity f <> "low") (findings report)))%nat
     = length (findings report)) /\
  (forall report sev cat res msg rec,
     let report' := add report sev cat res msg rec in
     high_count report' =
       (high_count report + if decide (sev = "high") then 1 else 0)%nat /\
     medium_count report' =
       (medium_count report + if decide (sev = "medium") then 1 else 0)%nat /\
     low_count report' =
       (low_count report + if decide (sev = "low") then 1 else 0)%nat /\
     length (findings report') = S (length (findings report))) /\
  (forall p t crds, error_count (mkContractReport p t [] crds) = 0%nat) /\
  (forall report sev cat crd msg req,
     let report' := add_violation report sev cat crd msg req in
     error_count report' =
       (error_count report + if decide (sev = "error") then 1 else 0)%nat /\
     length (violations report') = S (length (violations report))).
Proof.
  clear repr_container has_alpha which_kubectl subprocess_run json_loads.
  split_and!.
  - intros [name fs]. unfold high_count, medium_count, low_count, count_severity.
    cbn [findings]. induction fs as [|f fs IH]; [reflexivity|].
    rewrite !filter_cons. cbn [length]. rewrite <- IH.
    repeat case_decide; cbn [length]; try lia;
      try congruence; exfalso; tauto.
  - intros report sev cat res msg rec report'. subst report'.
    unfold high_count, medium_count, low_count.
    rewrite add_findings, !count_severity_app, !count_severity_one, length_app.
    cbn [severity length]. split_and!; lia.
  - reflexivity.
  - intros report sev cat crd msg req report'. subst report'.
    unfold error_count, add_violation. cbn [violations].
    rewrite filter_app, !length_app, filter_cons, filter_nil.
    cbn [cv_severity length]. case_decide; cbn [length]; split; lia.
Qed.

(** ** The contract check on CRD schemas *)

Lemma mappings_along_empty keys : mappings_along empty_dict keys = true.
Proof.
  destruct keys as [|key rest]; [reflexivity|].
  unfold empty_dict. cbn [mappings_along]. rewrite lookup_empty. reflexivity.
Qed.

Lemma resolve_empty key rest : spec_resolve empty_dict (key :: rest) = None.
Proof. unfold empty_dict. cbn [spec_resolve]. rewrite lookup_empty. reflexivity. Qed.

(** One [.get(key, {})] along a path of mappings. *)
Lemma dict_get_along v key keys :
  mappings_along v (key :: keys) = true ->
  exists m',
    dict_get v key empty_dict = Ok (VDict m') /\
    mappings_along (VDict m') keys = true /\
    forall k rest, spec_resolve v (key :: k :: rest) = spec_resolve (VDict m') (k :: rest).
Proof.
  destruct v as [| | | | |m]; try discriminate.
  cbn [mappings_along dict_get spec_resolve].
  destruct (m !! key) as [[| | | | |m']|] eqn:Hk;
    cbn [from_option id]; intros H; try (destruct keys; discriminate).
  - exists m'. auto.
  - exists ∅. cbn [from_option id]. split; [reflexivity|].
    split; [apply mappings_along_empty|].
    intros k rest. rewrite lookup_empty. reflexivity.
Qed.

Lemma str_in_dict m key :
  str_in key (VDict m) = Ok (bool_decide (is_Some (m !! key))).
Proof. reflexivity. Qed.

Lemma is_Some_lookup_resolve m key :
  bool_decide (is_Some (m !! key)) =
  match spec_resolve (VDict m) [key] with Some _ => true | None => false end.
Proof.
  cbn [spec_resolve]. destruct (m !! key) eqn:Hk.
  - apply bool_decide_eq_true_2. eauto.
  - apply bool_decide_eq_false_2. intros [v Hv]. discriminate.
Qed.

(** [check_schema_fields] for one required field under a one-part path:
    the field is missing exactly when
    [properties.<part>.properties.<field>] is absent. *)
Lemma check_schema_fields_single schema part field :
  split_dot part = [part] ->
  String.eqb part "" = false ->
  split_dot field = [field] ->
  mappings_along schema ["properties"; part; "properties"] = true ->
  check_schema_fields schema [field] part =
  Ok (match spec_resolve schema ["properties"; part; "properties"; field] with
      | Some _ => []
      | None => [field]
      end).
Proof.
  intros Hpart Hne Hfield Hshape.
  unfold check_schema_fields. rewrite Hpart.
  cbn [schema_descend]. rewrite Hne. cbn [negb].
  destruct (dict_get_along _ _ _ Hshape) as (pm & -> & Hshape1 & Hres1).
  rewrite bind_Ok, Hres1, str_in_dict, bind_Ok.
  cbn [mappings_along spec_resolve] in Hshape1 |- *.
  destruct (pm !! part) as [st|] eqn:Hst.
  - rewrite bool_decide_eq_true_2 by eauto.
    cbn [getitem]. rewrite Hst, !bind_Ok.
    destruct (dict_get_along st "properties" [] Hshape1) as (spm & -> & _ & Hres2).
    rewrite bind_Ok. cbn [missing_fields]. rewrite Hfield. cbn [hd].
    rewrite str_in_dict, !bind_Ok, is_Some_lookup_resolve.
    destruct st as [| | | | |stm]; try discriminate.
    specialize (Hres2 field []). cbn [spec_resolve] in Hres2 |- *.
    rewrite Hres2.
    destruct (spm !! field); reflexivity.
  - rewrite bool_decide_eq_false_2; [reflexivity|].
    intros [v Hv]; discriminate.
Qed.

Lemma violations_add_violation report sev cat crd msg req :
  violations (add_violation report sev cat crd msg req) =
  violations report ++ [mkContractViolation sev cat crd msg req].
Proof. reflexivity. Qed.

(** C7 (amended).  For an infrastructure-cluster CRD whose served schema
    is a non-empty mapping (with mappings under [properties], [spec] and
    [status] where these are present), the check returns and adds exactly
    one violation that refers to [status.ready], of severity error, when
    [ready] is not a key of [status.properties], and adds none when it is
    one. *)
Theorem status_ready_violation (crd schema : value) (report : ContractReport) :
  mappings_along crd ["metadata"] = true ->
  get_crd_schema crd = Ok schema ->
  truthy schema = true ->
  mappings_along schema ["properties"; "spec"; "properties"] = true ->
  mappings_along schema ["properties"; "status"; "properties"] = true ->
  exists report',
    check_infrastructure_cluster crd report = Ok report' /\
    filter refers_to_status_ready (violations report') =
    filter refers_to_status_ready (violations report) ++
    match spec_resolve schema ["properties"; "status"; "properties"; "ready"] with
    | Some _ => []
    | None =>
        [mkContractViolation "error" "Status"
           (default (VStr "unknown") (spec_resolve crd ["metadata"; "name"]))
           "Missing required status field: ready"
           "Contract requires status.ready"]
    end.
Proof.
  intros Hmeta Hschema Htruthy Hspec Hstatus.
  unfold check_infrastructure_cluster.
  rewrite (metadata_field_resolve _ _ _ Hmeta), bind_Ok, Hschema, bind_Ok.
  rewrite Htruthy. cbn [negb].
  unfold INFRASTRUCTURE_CLUSTER_required_spec_fields,
         INFRASTRUCTURE_CLUSTER_required_status_fields.
  rewrite (check_schema_fields_single schema "spec" "controlPlaneEndpoint")
    by (reflexivity || assumption).
  rewrite bind_Ok.
  rewrite (check_schema_fields_single schema "status" "ready")
    by (reflexivity || assumption).
  rewrite bind_Ok.
  destruct (dict_get_along _ _ _ Hstatus) as (pm & -> & H1 & _). rewrite bind_Ok.
  destruct (dict_get_along _ _ _ H1) as (stm & -> & H2 & _). rewrite bind_Ok.
  destruct (dict_get_along _ _ _ H2) as (spm & -> & _ & _). rewrite bind_Ok.
  rewrite str_in_dict, bind_Ok.
  eexists. split; [reflexivity|].
  destruct (spec_resolve schema ["properties"; "spec"; "properties"; "controlPlaneEndpoint"]);
    destruct (spec_resolve schema ["properties"; "status"; "properties"; "ready"]);
    destruct (bool_decide (is_Some (spm !! "conditions")));
    cbn [fold_left negb];
    rewrite ?violations_add_violation, ?filter_app, ?filter_cons, ?filter_nil;
    unfold refers_to_status_ready; cbn [cv_requirement String.append];
    repeat case_decide;
    try (exfalso; closed_string_facts; fail);
    rewrite ?app_nil_r, <- ?app_assoc; reflexivity.
Qed.

(** ** Exit codes *)

Lemma fold_left_count_ve sev per_file : forall t,
  fold_left (fun t errors => (t + count_ve sev errors)%nat) per_file t =
  (t + count_ve sev (concat per_file))%nat.
Proof.
  induction per_file as [|errors rest IH]; intros t; cbn [fold_left concat].
  - unfold count_ve. cbn. lia.
  - rewrite IH. unfold count_ve. rewrite filter_app, length_app. lia.
Qed.

Lemma existsb_severity sev issues :
  existsb (fun i => bool_decide (li_severity i = sev)) issues =
  (0 <? count_li sev issues)%nat.
Proof.
  unfold count_li. induction issues as [|i rest IH]; [reflexivity|].
  cbn [existsb]. rewrite filter_cons, IH.
  destruct (decide (li_severity i = sev)) as [Heq|Hne].
  - rewrite bool_decide_eq_true_2 by assumption. reflexivity.
  - rewrite bool_decide_eq_false_2 by assumption. reflexivity.
Qed.

Lemma existsb_results sev results :
  existsb (fun r => existsb (fun i => bool_decide (li_severity i = sev))
                      (lr_issues r)) results =
  (0 <? count_li sev (concat (map lr_issues results)))%nat.
Proof.
  induction results as [|r rest IH]; [reflexivity|].
  cbn [existsb map concat]. rewrite IH, existsb_severity.
  unfold count_li. rewrite filter_app, length_app.
  destruct (length (filter _ (lr_issues r))); [reflexivity|].
  reflexivity.
Qed.

(** C6 (amended).  [validate_manifests.py] and
    [lint_cluster_templates.py], once there is at least one file, exit
    with the code of the policy: 1 when there is an error-severity
    finding or, in strict mode, a warning-severity one, and 0 otherwise.
    [migration_checker.py] has no strict mode and no error severity: it
    exits with 1 exactly when there is a warning-severity issue, which is
    the policy in strict mode with no error.  Each exit code is thus a
    function of the severity counts and of the strict flag. *)
Theorem exit_code_follows_counts :
  (forall strict per_file,
     per_file <> [] ->
     validate_main_exit strict per_file =
     spec_exit_policy strict (count_ve "error" (concat per_file))
                        (count_ve "warning" (concat per_file))) /\
  (forall strict results,
     results <> [] ->
     lint_main_exit strict results =
     spec_exit_policy strict (count_li ERROR (concat (map lr_issues results)))
                        (count_li WARNING (concat (map lr_issues results)))) /\
  (forall requested all_issues,
     migration_main_exit requested all_issues =
     spec_exit_policy true 0 (count_mi "warning" all_issues)) /\
  (forall strict errors warnings,
     (spec_exit_policy strict errors warnings = 0 <->
      errors = 0%nat /\ (strict = false \/ warnings = 0%nat)) /\
     (spec_exit_policy strict errors warnings = 1 <->
      (0 < errors)%nat \/ (strict = true /\ (0 < warnings)%nat))).
Proof.
  split_and!.
  - intros strict per_file Hne. unfold validate_main_exit, spec_exit_policy.
    destruct per_file as [|e rest]; [congruence|].
    rewrite !fold_left_count_ve. cbn [Nat.add].
    destruct (0 <? _)%nat; [reflexivity|].
    destruct (strict && _); reflexivity.
  - intros strict results Hne. unfold lint_main_exit, spec_exit_policy.
    destruct results as [|r rest]; [congruence|].
    unfold has_errors, has_warnings. rewrite !existsb_results.
    destruct (0 <? _)%nat; [reflexivity|].
    destruct (strict && _); reflexivity.
  - intros requested all_issues. unfold migration_main_exit, spec_exit_policy, count_mi.
    destruct all_issues as [|i rest].
    + destruct requested; reflexivity.
    + cbv iota. destruct (filter _ (i :: rest)); reflexivity.
  - intros strict errors warnings. unfold spec_exit_policy.
    destruct (0 <? errors)%nat eqn:He; destruct strict;
      destruct (0 <? warnings)%nat eqn:Hw; cbn [orb andb];
      rewrite ?Nat.ltb_lt, ?Nat.ltb_ge in *;
      split; split; intros; try discriminate; try lia;
      intuition (try discriminate; try lia).
Qed.

(** ** Fetching resources *)

Lemma analyze_resource_type_failed kubectl namespace resource_type all_issues :
  fetch_failed (subprocess_run (live_cmd kubectl resource_type namespace)) = true ->
  analyze_resource_type kubectl namespace resource_type all_issues = all_issues.
Proof.
  unfold analyze_resource_type, run_and_parse, fetch_failed.
  destruct (subprocess_run _) as [rc out|e].
  - destruct (negb (rc =? 0)); [reflexivity|].
    destruct (json_loads out); [discriminate|reflexivity].
  - reflexivity.
Qed.

(** C8.  A fetch made when kubectl is missing, or whose command exits
    with a non-zero code, times out or prints something that is not
    JSON, returns the empty list and raises nothing.  In the live
    analysis such a resource type contributes no issue and the loop goes
    on: the result is the one of the run over the other resource types;
    without kubectl the analysis returns no issue. *)
Theorem failed_fetch_yields_no_items :
  (forall resource_type namespace all_namespaces,
     (find_kubectl = None ->
      run_kubectl_json resource_type namespace all_namespaces = Ok empty_list) /\
     (forall kubectl,
        find_kubectl = Some kubectl ->
        fetch_failed (subprocess_run
          (kubectl_json_cmd kubectl resource_type namespace all_namespaces)) = true ->
        run_kubectl_json resource_type namespace all_namespaces = Ok empty_list)) /\
  (forall kubectl namespace resource_type,
     fetch_failed (subprocess_run (live_cmd kubectl resource_type namespace)) = true ->
     forall before after all_issues,
       analyze_resource_types kubectl namespace
         (before ++ resource_type :: after) all_issues =
       analyze_resource_types kubectl namespace (before ++ after) all_issues) /\
  (forall namespace,
     find_kubectl = None -> analyze_live_resources namespace = []).
Proof.
  split_and!.
  - intros resource_type namespace all_namespaces. split.
    + intros Hnone. unfold run_kubectl_json. rewrite Hnone. reflexivity.
    + intros kubectl Hsome Hfail. unfold run_kubectl_json. rewrite Hsome.
      unfold run_and_parse, fetch_failed in *.
      destruct (subprocess_run _) as [rc out|e].
      * destruct (negb (rc =? 0)); [reflexivity|].
        destruct (json_loads out); [discriminate|reflexivity].
      * destruct e; try discriminate. reflexivity.
  - intros kubectl namespace resource_type Hfail before after all_issues.
    unfold analyze_resource_types.
    rewrite !fold_left_app. cbn [fold_left].
    rewrite (analyze_resource_type_failed _ _ _ _ Hfail). reflexivity.
  - intros namespace Hnone. unfold analyze_live_resources.
    rewrite Hnone. reflexivity.
Qed.

(** ** Required fields *)









Lemma bind_Ok_inv {A B} (m : exc A) (f : A -> exc B) b :
  (m ≫= f) = Ok b -> exists a, m = Ok a /\ f a = Ok b.
Proof. destruct m as [a|e]; [eauto|discriminate]. Qed.

Lemma require_truthy_inv obj key err l :
  require_truthy obj key err = Ok l -> l = [] \/ l = [err].
Proof.
  unfold require_truthy. intros H.
  apply bind_Ok_inv in H as (v & _ & H).
  destruct (truthy v); injection H as <-; auto.
Qed.

(** Takes apart a hypothesis that says a monadic computation returned. *)
Ltac invert_returned :=
  repeat match goal with
  | H : (_ ≫= _) = Ok _ |- _ =>
      let a := fresh "a" in let Ha := fresh "Ha" in
      apply bind_Ok_inv in H as (a & Ha & H)
  | H : require_truthy _ _ _ = Ok _ |- _ =>
      apply require_truthy_inv in H as [-> | ->]
  | H : (if ?c then _ else _) = Ok _ |- _ => destruct c
  | H : Ok _ = Ok _ |- _ => injection H as <-
  | H : Raise _ = Ok _ |- _ => discriminate H
  end.


Lemma required_field_step_appends sm field errors :
  required_field_step (VDict sm) field errors =
  Ok (errors ++
      if negb (bool_decide (is_Some (sm !! field)))
      then [verror ("spec." +:+ field) ("Missing required field: " +:+ field)]
      else []).
Proof.
  unfold required_field_step. rewrite str_in_dict, bind_Ok.
  destruct (bool_decide _); cbn [negb]; [rewrite app_nil_r|]; reflexivity.
Qed.

Lemma truthy_dict m : m <> ∅ -> truthy (VDict m) = true.
Proof.
  intros H. cbn [truthy]. rewrite bool_decide_eq_false_2 by assumption.
  reflexivity.
Qed.


(** *** The linter *)

Lemma append_assoc_r a : forall b c, (a +:+ b) +:+ c = a +:+ (b +:+ c).
Proof.
  induction a as [|x a IH]; intros b c; [reflexivity|].
  change ((String x a +:+ b) +:+ c) with (String x ((a +:+ b) +:+ c)).
  rewrite IH. reflexivity.
Qed.

Lemma Forall_concat_map {A B : Type} (Q : B -> Prop) (g : A -> list B) xs :
  (forall x, Forall Q (g x)) -> Forall Q (concat (map g xs)).
Proof.
  intros Hg. induction xs as [|x xs IH]; cbn [map concat].
  - apply Forall_nil_2.
  - apply Forall_app_2; [apply Hg|apply IH].
Qed.




Lemma lint_required_step_appends kind sm file_path start_line field issues :
  lint_required_step (VStr kind) (VDict sm) file_path start_line field issues =
  Ok (issues ++
      if negb ((String.eqb kind "Cluster" &&
                bool_decide (is_Some (sm !! "topology")) &&
                existsb (String.eqb field) ["infrastructureRef"; "controlPlaneRef"])
               || bool_decide (is_Some (sm !! field)))
      then [lint_error ("Missing required spec field for " +:+ kind +:+ ": " +:+ field)
              file_path start_line]
      else []).
Proof.
  unfold lint_required_step.
  cbn [py_eq_str py_str str_in mbind exc_bind].
  destruct (String.eqb kind "Cluster"); cbn [andb orb mbind exc_bind];
    destruct (bool_decide (is_Some (sm !! "topology")));
    destruct (existsb (String.eqb field) ["infrastructureRef"; "controlPlaneRef"]);
    cbn [andb orb negb];
    destruct (bool_decide (is_Some (sm !! field))); cbn [negb];
    rewrite ?app_nil_r; reflexivity.
Qed.



(** ** More on the migration checker *)

Lemma split_dot_not_nil s : split_dot s <> [].
Proof.
  destruct s as [|c s]; cbn [split_dot]; [discriminate|].
  destruct (Ascii.eqb c "."); [discriminate|].
  destruct (split_dot s); discriminate.
Qed.

Lemma split_dot_append a b :
  split_dot (a +:+ "." +:+ b) = split_dot a ++ split_dot b.
Proof.
  induction a as [|c a IH].
  - reflexivity.
  - change (String c a +:+ "." +:+ b) with (String c (a +:+ "." +:+ b)).
    cbn [split_dot]. rewrite IH.
    destruct (Ascii.eqb c "."); [reflexivity|].
    pose proof (split_dot_not_nil a) as Hne.
    destruct (split_dot a) as [|w ws]; [congruence|reflexivity].
Qed.

Lemma get_nested_loop_app keys1 : forall doc keys2,
  get_nested_loop doc (keys1 ++ keys2) =
  (v ← get_nested_loop doc keys1; get_nested_loop v keys2).
Proof.
  induction keys1 as [|key rest IH]; intros doc keys2; [reflexivity|].
  cbn [app get_nested_loop].
  destruct doc as [| | | | |m]; cbn [isinstance_dict];
    try (rewrite bind_Ok, get_nested_loop_None; reflexivity).
  cbn [dict_get]. rewrite !bind_Ok. apply IH.
Qed.

(** X1.  Looking up the path [a.b] is looking up [a] and then [b] in
    what was found. *)
Theorem get_nested_composes (doc : value) (a b : string) :
  get_nested doc (a +:+ "." +:+ b) = (v ← get_nested doc a; get_nested v b).
Proof.
  unfold get_nested. rewrite split_dot_append. apply get_nested_loop_app.
Qed.

Lemma for_each_extends {A B : Type} (body : A -> list B -> exc (list B)) xs :
  (forall x acc, exists more, body x acc = Ok (acc ++ more)) ->
  forall acc, exists more, for_each xs body acc = Ok (acc ++ more).
Proof.
  intros Hbody. induction xs as [|x xs IH]; intros acc; cbn [for_each].
  - exists []. rewrite app_nil_r. reflexivity.
  - destruct (Hbody x acc) as [m1 ->]. rewrite bind_Ok.
    destruct (IH (acc ++ m1)) as [m2 ->]. exists (m1 ++ m2).
    rewrite app_assoc. reflexivity.
Qed.

Lemma object_reference_step_extends doc file_path ref_path issues :
  exists more,
    object_reference_step doc file_path ref_path issues = Ok (issues ++ more).
Proof.
  unfold object_reference_step, get_nested.
  rewrite get_nested_loop_resolve, bind_Ok.
  destruct (default VNone (spec_resolve doc (split_dot ref_path)))
    as [| | | | |rm]; cbn [truthy isinstance_dict andb];
    rewrite ?andb_false_r;
    try (exists []; rewrite app_nil_r;
         repeat match goal with |- context [if ?c then _ else _] => destruct c end;
         reflexivity).
  destruct (negb (bool_decide (rm = ∅)));
    [|exists []; rewrite app_nil_r; reflexivity].
  unfold object_reference_issues, and_then, not_.
  rewrite !str_in_dict, !bind_Ok.
  destruct (bool_decide (is_Some (rm !! "apiVersion")));
    rewrite ?bind_Ok;
    destruct (bool_decide (is_Some (rm !! "apiGroup"))); cbn [negb];
    rewrite ?bind_Ok;
    destruct (bool_decide (is_Some (rm !! "namespace")));
    rewrite <- ?app_assoc; eauto; exists []; rewrite app_nil_r; reflexivity.
Qed.

Lemma duration_field_step_extends doc file_path rule issues :
  exists more,
    duration_field_step doc file_path rule issues = Ok (issues ++ more).
Proof.
  destruct rule as [old_path new_path].
  unfold duration_field_step, get_nested.
  rewrite get_nested_loop_resolve, bind_Ok.
  destruct (_ && _); eauto. exists []. rewrite app_nil_r. reflexivity.
Qed.

Lemma check_deprecated_fields_returns m file_path :
  hashable (default (VStr "") (m !! "kind")) = true ->
  exists issues, check_deprecated_fields (VDict m) file_path = Ok issues.
Proof.
  intros Hkind. unfold check_deprecated_fields. cbn [dict_get]. rewrite bind_Ok.
  destruct (default (VStr "") (m !! "kind")) as [| | |k| |];
    try discriminate; cbn [table_find]; rewrite bind_Ok;
    try (eexists; reflexivity).
  destruct (assoc k DEPRECATED_FIELDS) as [rules|]; [|eexists; reflexivity].
  rewrite (for_each_appends _ (deprecated_field_issues (VDict m) file_path))
    by (intros; apply deprecated_field_step_appends).
  eexists; reflexivity.
Qed.

Lemma check_api_version_returns m file_path :
  isinstance_str (default (VStr "") (m !! "apiVersion")) = true ->
  exists issues, check_api_version (VDict m) file_path = Ok issues.
Proof.
  intros Hstr. unfold check_api_version. cbn [dict_get]. rewrite bind_Ok.
  destruct (default (VStr "") (m !! "apiVersion")) as [| | |v| |];
    try discriminate.
  cbn [str_in]. rewrite bind_Ok.
  destruct (substring_of "v1beta1" v); [eexists; reflexivity|].
  rewrite bind_Ok. eexists; reflexivity.
Qed.

(** X2.  The object-reference and duration checks return on every
    document, whatever its shape.  The whole analysis of a document
    returns on every mapping whose [apiVersion] is a string (or absent)
    and whose [kind] can be hashed, and raises [AttributeError] on a
    document that is not a mapping. *)
Theorem analyze_document_returns :
  (forall doc file_path,
     (exists issues, check_object_references doc file_path = Ok issues) /\
     (exists issues, check_duration_fields doc file_path = Ok issues)) /\
  (forall (m : gmap string value) file_path,
     isinstance_str (default (VStr "") (m !! "apiVersion")) = true ->
     hashable (default (VStr "") (m !! "kind")) = true ->
     exists issues, analyze_document (VDict m) file_path = Ok issues) /\
  (forall doc file_path,
     isinstance_dict doc = false ->
     analyze_document doc file_path = Raise AttributeError).
Proof.
  assert (Hrefs : forall doc file_path,
    exists issues, check_object_references doc file_path = Ok issues).
  { intros doc fp. unfold check_object_references.
    destruct (for_each_extends (object_reference_step doc fp) OBJECT_REF_FIELDS
                (fun x acc => object_reference_step_extends doc fp x acc) [])
      as [more ->]. eauto. }
  assert (Hdur : forall doc file_path,
    exists issues, check_duration_fields doc file_path = Ok issues).
  { intros doc fp. unfold check_duration_fields.
    destruct (for_each_extends (duration_field_step doc fp)
                duration_fields
                (fun x acc => duration_field_step_extends doc fp x acc) [])
      as [more ->]. eauto. }
  split_and!.
  - intros doc fp. split; [apply Hrefs|apply Hdur].
  - intros m fp Hapi Hkind. unfold analyze_document.
    destruct (check_api_version_returns m fp Hapi) as [i1 ->].
    destruct (check_deprecated_fields_returns m fp Hkind) as [i2 ->].
    destruct (Hrefs (VDict m) fp) as [i3 ->].
    destruct (Hdur (VDict m) fp) as [i4 ->].
    rewrite !bind_Ok. eauto.
  - intros doc fp Hdoc. unfold analyze_document, check_api_version.
    destruct doc; try discriminate; reflexivity.
Qed.

(** A property of the accumulator that each turn of a loop keeps is
    kept by the loop. *)
Lemma for_each_invariant {A S : Type} (P : S -> Prop)
    (body : A -> S -> exc S) xs :
  (forall x s s', P s -> body x s = Ok s' -> P s') ->
  forall s s', P s -> for_each xs body s = Ok s' -> P s'.
Proof.
  intros Hbody. induction xs as [|x xs IH]; intros s s' Hs Hrun;
    cbn [for_each] in Hrun.
  - injection Hrun as <-. exact Hs.
  - apply bind_Ok_inv in Hrun as (s1 & H1 & Hrun).
    eapply IH; [|exact Hrun]. eapply Hbody; eassumption.
Qed.

Lemma count_mi_partition issues :
  Forall warning_or_info issues ->
  (count_mi "warning" issues + count_mi "info" issues)%nat = length issues.
Proof.
  unfold count_mi. induction 1 as [|i l Hi _ IH]; [reflexivity|].
  rewrite !filter_cons. cbn [length]. rewrite <- IH.
  destruct Hi as [Hi|Hi]; repeat case_decide; cbn [length]; try lia;
    exfalso; congruence.
Qed.

(** X3.  Every issue the analysis of a document produces is a warning or
    an info, so the two counts of the summary add up to its total. *)
Theorem migration_summary_adds_up (doc : value) (file_path : string)
    (issues : list MigrationIssue) :
  analyze_document doc file_path = Ok issues ->
  Forall warning_or_info issues /\
  (count_mi "warning" issues + count_mi "info" issues)%nat = length issues.
Proof.
  intros Hrun.
  assert (Hall : Forall warning_or_info issues).
  { unfold analyze_document in Hrun.
    apply bind_Ok_inv in Hrun as (i1 & H1 & Hrun).
    apply bind_Ok_inv in Hrun as (i2 & H2 & Hrun).
    apply bind_Ok_inv in Hrun as (i3 & H3 & Hrun).
    apply bind_Ok_inv in Hrun as (i4 & H4 & Hrun).
    injection Hrun as <-.
    repeat apply Forall_app_2.
    - unfold check_api_version in H1. invert_returned;
        repeat match goal with |- context [if ?c then _ else _] => destruct c end;
        repeat constructor.
    - unfold check_deprecated_fields in H2.
      apply bind_Ok_inv in H2 as (kind & _ & H2).
      apply bind_Ok_inv in H2 as (entry & _ & H2).
      destruct entry as [rules|]; [|injection H2 as <-; constructor].
      revert H2. apply for_each_invariant; [|constructor].
      intros rule s s' Hs Hstep. rewrite deprecated_field_step_appends in Hstep.
      injection Hstep as <-. apply Forall_app_2; [exact Hs|].
      unfold deprecated_field_issues. destruct (is_none _); repeat constructor.
    - unfold check_object_references in H3. revert H3.
      apply for_each_invariant; [|constructor].
      intros ref_path s s' Hs Hstep.
      unfold object_reference_step, object_reference_issues in Hstep.
      invert_returned; try exact Hs;
        repeat match goal with |- context [if ?c then _ else _] => destruct c end;
        repeat (apply Forall_app_2; [|repeat constructor]); exact Hs.
    - unfold check_duration_fields in H4. revert H4.
      apply for_each_invariant; [|constructor].
      intros [old_path new_path] s s' Hs Hstep.
      unfold duration_field_step in Hstep. invert_returned.
      destruct (_ && _); [|exact Hs].
      apply Forall_app_2; [exact Hs|repeat constructor]. }
  split; [exact Hall|apply count_mi_partition, Hall].
Qed.

Lemma analyze_items_extends resource_type items : forall all_issues,
  exists more,
    (analyze_items resource_type items all_issues).1 = all_issues ++ more.
Proof.
  induction items as [|item rest IH]; intros acc; cbn [analyze_items].
  - exists []. rewrite app_nil_r. reflexivity.
  - destruct (analyze_item resource_type item) as [issues|e].
    + destruct (IH (acc ++ issues)) as [more ->]. exists (issues ++ more).
      rewrite app_assoc. reflexivity.
    + exists []. rewrite app_nil_r. reflexivity.
Qed.

Lemma analyze_resource_type_extends kubectl namespace resource_type all_issues :
  exists more,
    analyze_resource_type kubectl namespace resource_type all_issues =
    all_issues ++ more.
Proof.
  unfold analyze_resource_type.
  destruct (run_and_parse _) as [[data|]|e];
    try (exists []; rewrite app_nil_r; reflexivity).
  destruct (_ ≫= _) as [items|e];
    [apply analyze_items_extends|exists []; rewrite app_nil_r; reflexivity].
Qed.

(** X4.  The live analysis never loses an issue it has gathered: the
    result of the loop over the resource types begins with the issues
    it started from.  An item whose analysis raises ends the loop over
    the items of its resource type: the items after it are not
    analysed. *)
Theorem live_analysis_keeps_gathered_issues :
  (forall kubectl namespace resource_types all_issues,
     exists more,
       analyze_resource_types kubectl namespace resource_types all_issues =
       all_issues ++ more) /\
  (forall resource_type item e,
     analyze_item resource_type item = Raise e ->
     forall before after all_issues,
       analyze_items resource_type (before ++ item :: after) all_issues =
       analyze_items resource_type (before ++ [item]) all_issues).
Proof.
  split.
  - intros kubectl namespace resource_types.
    unfold analyze_resource_types.
    induction resource_types as [|rt rest IH]; intros acc; cbn [fold_left].
    + exists []. rewrite app_nil_r. reflexivity.
    + destruct (analyze_resource_type_extends kubectl namespace rt acc)
        as [m1 ->].
      destruct (IH (acc ++ m1)) as [m2 ->]. exists (m1 ++ m2).
      rewrite app_assoc. reflexivity.
  - intros resource_type item e Hraise before after.
    induction before as [|b before IH]; intros acc; cbn [app analyze_items].
    + rewrite Hraise. reflexivity.
    + destruct (analyze_item resource_type b); [apply IH|reflexivity].
Qed.

(** X5.  What a fetch that succeeds returns: the [items] of a list
    wrapper when there are some; the object itself, as a one-element
    list, when it has no items and a [kind] that is a string without
    ["List"]; the (empty) items otherwise. *)
Theorem run_kubectl_json_items (kubectl resource_type : string)
    (namespace : option string) (all_namespaces : bool)
    (stdout : string) (data : gmap string value) :
  find_kubectl = Some kubectl ->
  subprocess_run (kubectl_json_cmd kubectl resource_type namespace all_namespaces)
    = Completed 0 stdout ->
  json_loads stdout = Some (VDict data) ->
  let items := default empty_list (data !! "items") in
  (truthy items = true ->
   run_kubectl_json resource_type namespace all_namespaces = Ok items) /\
  (truthy items = false ->
   forall kind, data !! "kind" = Some (VStr kind) ->
     run_kubectl_json resource_type namespace all_namespaces =
     Ok (if substring_of "List" kind then items else VList [VDict data])) /\
  (truthy items = false -> data !! "kind" = None ->
   run_kubectl_json resource_type namespace all_namespaces = Ok items).
Proof.
  intros Hk Hrun Hjson items. subst items.
  unfold run_kubectl_json, run_and_parse. rewrite Hk, Hrun, Hjson.
  cbn [Z.eqb negb]. unfold dict_get. rewrite !bind_Ok.
  split_and!.
  - intros ->. cbn [negb]. rewrite bind_Ok. reflexivity.
  - intros -> kind Hkind. cbn [negb]. unfold and_then, not_.
    rewrite str_in_dict, Hkind, bool_decide_eq_true_2, bind_Ok by eauto.
    cbn [from_option id str_in]. rewrite !bind_Ok.
    destruct (substring_of "List" kind); reflexivity.
  - intros -> Hkind. cbn [negb]. unfold and_then.
    rewrite str_in_dict, Hkind, bool_decide_eq_false_2, !bind_Ok;
      [reflexivity|].
    intros [v Hv]; discriminate.
Qed.

(** ** More on the security audit *)

Lemma appends_no_high_refl report : appends_no_high report report.
Proof.
  split; [reflexivity|]. exists []. rewrite app_nil_r. split; constructor.
Qed.

Lemma appends_no_high_add report report1 sev cat res msg rec :
  sev <> "high" ->
  appends_no_high report report1 ->
  appends_no_high report (add report1 sev cat res msg rec).
Proof.
  intros Hsev (Hname & more & Hmore & Hall). split; [exact Hname|].
  exists (more ++ [mkFinding sev cat res msg rec]).
  rewrite add_findings, Hmore, app_assoc. split; [reflexivity|].
  apply Forall_app_2; [exact Hall|]. constructor; [exact Hsev|constructor].
Qed.

Lemma appends_no_high_count report report' :
  appends_no_high report report' -> high_count report' = high_count report.
Proof.
  intros (_ & more & Hmore & Hall). unfold high_count.
  rewrite Hmore, count_severity_app.
  assert (Hzero : count_severity "high" more = 0%nat).
  { clear Hmore. unfold count_severity.
    induction Hall as [|f l Hf _ IH]; [reflexivity|].
    rewrite filter_cons. case_decide; [contradiction|exact IH]. }
  rewrite Hzero. lia.
Qed.

(** Closes a goal [appends_no_high report r] where [r] is [report] under
    conditional additions of findings of given severities. *)
Ltac solve_appends_no_high :=
  repeat match goal with
         | |- context [if ?c then _ else _] => destruct c
         end;
  repeat first [ assumption
               | apply appends_no_high_refl
               | apply appends_no_high_add; [discriminate|] ].

(** X6.  The network, replica, machine and secret checks only append to
    the report, and nothing of high severity: the high count, which
    alone decides the exit code of the audit, is the one before the
    check. *)
Theorem checks_without_high_findings (report report' : AuditReport) :
  (forall cluster,
     check_network_security cluster report = Ok report' ->
     appends_no_high report report' /\ high_count report' = high_count report) /\
  (forall cluster,
     check_replicas cluster report = Ok report' ->
     appends_no_high report report' /\ high_count report' = high_count report) /\
  (forall machine,
     check_machine_security machine report = Ok report' ->
     appends_no_high report report' /\ high_count report' = high_count report) /\
  (forall str_lower secrets,
     check_secret_exposure str_lower secrets report = Ok report' ->
     appends_no_high report report' /\ high_count report' = high_count report).
Proof.
  assert (Hcount : forall r r', appends_no_high r r' ->
            appends_no_high r r' /\ high_count r' = high_count r)
    by (intros r r' H; split; [exact H|apply appends_no_high_count, H]).
  split_and!.
  - intros cluster Hrun. apply Hcount.
    unfold check_network_security in Hrun. invert_returned;
      solve_appends_no_high.
  - intros cluster Hrun. apply Hcount.
    unfold check_replicas in Hrun. invert_returned;
      solve_appends_no_high.
  - intros machine Hrun. apply Hcount.
    unfold check_machine_security in Hrun. invert_returned;
      solve_appends_no_high.
  - intros str_lower secrets Hrun. apply Hcount.
    unfold check_secret_exposure in Hrun. revert Hrun.
    apply (for_each_invariant (appends_no_high report));
      [|apply appends_no_high_refl].
    intros secret s s' Hs Hstep. unfold secret_exposure_step in Hstep.
    invert_returned; solve_appends_no_high.
Qed.

Lemma mappings_along_get v key keys v' :
  mappings_along v (key :: keys) = true ->
  dict_get v key empty_dict = Ok v' ->
  mappings_along v' keys = true.
Proof.
  intros H Hget. destruct (dict_get_along _ _ _ H) as (m' & E & H' & _).
  rewrite E in Hget. injection Hget as <-. exact H'.
Qed.

Lemma high_count_add report sev cat res msg rec :
  high_count (add report sev cat res msg rec) =
  (high_count report + if String.eqb sev "high" then 1 else 0)%nat.
Proof.
  unfold high_count. rewrite add_findings, count_severity_app, count_severity_one.
  cbn [severity]. destruct (String.eqb_spec sev "high");
    case_decide; congruence.
Qed.

(** X7.  On a KubeadmControlPlane whose configuration levels are
    mappings where present and whose [authorization-mode] is a string
    (or absent), the check returns, and the high count grows by one
    when the authorization mode does not contain ["RBAC"] and by one
    when [anonymous-auth] is the string ["true"]; encryption, audit
    policy and kubelet TLS never add to it. *)
Theorem kubeadm_high_findings (kcp : value) (report : AuditReport)
    (auth_mode : string) :
  mappings_along kcp ["metadata"] = true ->
  mappings_along kcp extra_args_path = true ->
  mappings_along kcp (cluster_configuration_path ++ ["kubeletConfiguration"]) = true ->
  default (VStr "") (spec_resolve kcp (extra_args_path ++ ["authorization-mode"]))
    = VStr auth_mode ->
  exists report',
    check_kubeadm_security kcp report = Ok report' /\
    high_count report' =
    (high_count report
     + (if substring_of "RBAC" auth_mode then 0 else 1)
     + (if py_eq_str
             (default VNone (spec_resolve kcp (extra_args_path ++ ["anonymous-auth"])))
             "true"
        then 1 else 0))%nat.
Proof.
  unfold extra_args_path, cluster_configuration_path. cbn [app].
  intros Hmeta Hargs Hkubelet Hauth.
  unfold check_kubeadm_security.
  rewrite (resource_name_label _ _ Hmeta), bind_Ok.
  destruct (dict_get_along _ _ _ Hargs) as (m1 & E1 & A1 & R1).
  rewrite E1, bind_Ok.
  pose proof (mappings_along_get _ _ _ _ Hkubelet E1) as K1.
  destruct (dict_get_along _ _ _ A1) as (m2 & E2 & A2 & R2).
  rewrite E2, bind_Ok.
  pose proof (mappings_along_get _ _ _ _ K1 E2) as K2.
  destruct (dict_get_along _ _ _ A2) as (m3 & E3 & A3 & R3).
  rewrite E3, bind_Ok.
  pose proof (mappings_along_get _ _ _ _ K2 E3) as K3.
  destruct (dict_get_along _ _ _ A3) as (m4 & E4 & A4 & R4).
  rewrite E4, bind_Ok.
  destruct (dict_get_along _ _ _ A4) as (ea & E5 & _ & R5).
  rewrite E5, bind_Ok.
  destruct (dict_get_along _ _ _ K3) as (km & E6 & _ & _).
  rewrite E6.
  rewrite !str_in_dict, !bind_Ok.
  rewrite R1, R2, R3, R4, R5 in Hauth |- *.
  cbn [spec_resolve dict_get] in Hauth |- *.
  assert (Hauth' : default (VStr "") (ea !! "authorization-mode") = VStr auth_mode)
    by (destruct (ea !! "authorization-mode"); exact Hauth).
  rewrite !bind_Ok, Hauth'. cbn [str_in]. rewrite !bind_Ok.
  assert (Hanon : default VNone (ea !! "anonymous-auth") =
                  default VNone match ea !! "anonymous-auth" with
                                | Some v => Some v
                                | None => None
                                end)
    by (destruct (ea !! "anonymous-auth"); reflexivity).
  rewrite <- Hanon.
  eexists. split; [reflexivity|].
  destruct (bool_decide (is_Some (ea !! "encryption-provider-config")));
    destruct (bool_decide (is_Some (ea !! "audit-policy-file")));
    destruct (substring_of "RBAC" auth_mode);
    destruct (py_eq_str (default VNone (ea !! "anonymous-auth")) "true");
    destruct (is_True (default VNone (km !! "serverTLSBootstrap")));
    cbn [negb]; rewrite ?high_count_add; cbn [String.eqb Ascii.eqb Bool.eqb];
    lia.
Qed.

Lemma dict_get_dict m key dflt :
  dict_get (VDict m) key dflt = Ok (default dflt (m !! key)).
Proof. reflexivity. Qed.

Lemma find_pss_var_first before : forall vm after,
  Forall (fun var => other_variable var = true) before ->
  vm !! "name" = Some (VStr "podSecurityStandard") ->
  find_pss_var (before ++ VDict vm :: after) =
  Ok (default empty_dict (vm !! "value")).
Proof.
  induction before as [|var before IH]; intros vm after Hbefore Hname;
    cbn [app find_pss_var].
  - rewrite (dict_get_dict vm "name"), Hname. cbn [from_option id].
    rewrite bind_Ok. reflexivity.
  - apply Forall_cons_1 in Hbefore as [Hvar Hbefore].
    destruct var as [| | | | |m]; try discriminate.
    cbn [other_variable] in Hvar. rewrite (dict_get_dict m "name"), bind_Ok.
    apply negb_true_iff in Hvar. rewrite Hvar. apply IH; assumption.
Qed.

(** X8.  The Pod Security check takes the first variable named
    [podSecurityStandard] and does not look at the ones after it.
    Without such a variable, or with an empty value, it files the one
    medium finding and stops.  With a non-empty mapping as value it
    returns, and the high count grows by one exactly when [enforce] is
    not set, empty or ["privileged"]. *)
Theorem pss_findings :
  (forall before vm after,
     Forall (fun var => other_variable var = true) before ->
     vm !! "name" = Some (VStr "podSecurityStandard") ->
     find_pss_var (before ++ VDict vm :: after) =
     Ok (default empty_dict (vm !! "value"))) /\
  (forall cluster report vars pss_var,
     mappings_along cluster ["metadata"] = true ->
     mappings_along cluster ["spec"; "topology"] = true ->
     default empty_list (spec_resolve cluster ["spec"; "topology"; "variables"])
       = VList vars ->
     find_pss_var vars = Ok pss_var ->
     (truthy pss_var = false ->
      check_pss_configuration cluster report =
      Ok (add report "medium" "Pod Security" (resource_label "Cluster" cluster)
            "No podSecurityStandard variable configured"
            "Set podSecurityStandard variable with enforce level")) /\
     (forall pv,
        pss_var = VDict pv -> pv <> ∅ ->
        exists report',
          check_pss_configuration cluster report = Ok report' /\
          high_count report' =
          (high_count report +
           let enforce := default (VStr "") (pv !! "enforce") in
           if negb (truthy enforce) || py_eq_str enforce "privileged"
           then 1 else 0)%nat)).
Proof.
  split; [intros; apply find_pss_var_first; assumption|].
  intros cluster report vars pss_var Hmeta Hshape Hvars Hfind.
  assert (Hstart : forall K : value -> exc AuditReport,
    (spec ← dict_get cluster "spec" empty_dict;
     topology ← dict_get spec "topology" empty_dict;
     variables ← dict_get topology "variables" empty_list;
     K variables) = K (VList vars)).
  { intros K.
    destruct (dict_get_along _ _ _ Hshape) as (m1 & -> & A1 & R1).
    rewrite bind_Ok.
    destruct (dict_get_along _ _ _ A1) as (m2 & -> & _ & R2).
    rewrite bind_Ok. rewrite R1, R2 in Hvars. cbn [spec_resolve] in Hvars.
    cbn [dict_get]. rewrite bind_Ok. f_equal.
    destruct (m2 !! "variables"); exact Hvars. }
  unfold check_pss_configuration. rewrite Hstart.
  rewrite (resource_name_label _ _ Hmeta), bind_Ok. cbn [py_iter].
  rewrite bind_Ok, Hfind, bind_Ok.
  split.
  - intros ->. reflexivity.
  - intros pv -> Hne. rewrite (truthy_dict _ Hne). cbn [negb dict_get].
    rewrite !bind_Ok. eexists. split; [reflexivity|].
    cbv zeta.
    destruct (negb (truthy (default (VStr "") (pv !! "enforce")))
              || py_eq_str (default (VStr "") (pv !! "enforce")) "privileged");
      destruct (py_eq_str (default (VStr "") (pv !! "enforce")) "baseline");
      destruct (negb (truthy (default (VStr "") (pv !! "audit"))));
      rewrite ?high_count_add; cbn [String.eqb Ascii.eqb Bool.eqb]; lia.
Qed.

(** X9.  The secret check reports nothing on secrets that carry a
    non-empty cluster-name label, whatever their names. *)
Theorem labelled_secrets_not_reported (str_lower : string -> string)
    (secrets : list value) (report : AuditReport) :
  Forall (fun secret => owned_secret secret = true) secrets ->
  check_secret_exposure str_lower secrets report = Ok report.
Proof.
  unfold check_secret_exposure.
  induction 1 as [|secret rest Hsecret _ IH]; [reflexivity|].
  cbn [for_each].
  assert (Hstep : secret_exposure_step str_lower secret report = Ok report).
  { unfold owned_secret in Hsecret.
    apply andb_true_iff in Hsecret as [Hsecret Hlabel].
    apply andb_true_iff in Hsecret as [Hshape Hname].
    assert (Hmeta : mappings_along secret ["metadata"] = true).
    { destruct secret as [| | | | |sm]; try discriminate.
      cbn [mappings_along] in Hshape |- *.
      destruct (sm !! "metadata") as [[| | | | |md]|]; try discriminate;
        reflexivity. }
    unfold secret_exposure_step.
    rewrite !(metadata_field_resolve _ _ _ Hmeta), !bind_Ok.
    destruct (dict_get_along _ _ _ Hshape) as (md & E1 & A1 & R1).
    assert (Htype : exists t, dict_get secret "type" (VStr "") = Ok t).
    { destruct secret; try discriminate. cbn [dict_get]. eauto. }
    destruct Htype as [t ->]. rewrite bind_Ok.
    destruct (default (VStr "") (spec_resolve secret ["metadata"; "name"]))
      as [| | |name| |]; try discriminate.
    cbn [py_lower]. rewrite bind_Ok.
    destruct (substring_of "kubeconfig" (str_lower name)); [|reflexivity].
    rewrite E1, bind_Ok.
    destruct (dict_get_along _ _ _ A1) as (lm & -> & _ & R2).
    rewrite bind_Ok. cbn [dict_get]. rewrite bind_Ok.
    rewrite R1, R2 in Hlabel. cbn [spec_resolve] in Hlabel.
    assert (Hlabel' : truthy (default VNone
              (lm !! "cluster.x-k8s.io/cluster-name")) = true)
      by (destruct (lm !! "cluster.x-k8s.io/cluster-name"); exact Hlabel).
    rewrite Hlabel'. reflexivity. }
  rewrite Hstep, bind_Ok. exact IH.
Qed.

Lemma existsb_high_count reports :
  existsb (fun r => (0 <? high_count r)%nat) reports = true <->
  exists r f, r ∈ reports /\ f ∈ findings r /\ severity f = "high".
Proof.
  rewrite existsb_exists. split.
  - intros (r & Hin & Hpos). apply Nat.ltb_lt in Hpos.
    unfold high_count, count_severity in Hpos.
    destruct (filter _ (findings r)) as [|f l] eqn:Hf; [cbn in Hpos; lia|].
    assert (Hmem : f ∈ filter (fun f => severity f = "high") (findings r))
      by (rewrite Hf; apply elem_of_cons; auto).
    apply list_elem_of_filter in Hmem as [Hsev Hmem].
    exists r, f. split; [apply list_elem_of_In, Hin|auto].
  - intros (r & f & Hr & Hf & Hsev). exists r.
    split; [apply list_elem_of_In, Hr|]. apply Nat.ltb_lt.
    unfold high_count, count_severity.
    assert (Hmem : f ∈ filter (fun f => severity f = "high") (findings r))
      by (apply list_elem_of_filter; auto).
    destruct (filter _ (findings r)); [inversion Hmem|cbn; lia].
Qed.

Lemma existsb_not_compliant reports :
  existsb (fun r => negb (is_compliant r)) reports = true <->
  exists r v, r ∈ reports /\ v ∈ violations r /\ cv_severity v = "error".
Proof.
  rewrite existsb_exists. split.
  - intros (r & Hin & Hbad). unfold is_compliant, error_count in Hbad.
    apply negb_true_iff, Nat.eqb_neq in Hbad.
    destruct (filter _ (violations r)) as [|v l] eqn:Hv; [cbn in Hbad; lia|].
    assert (Hmem : v ∈ filter (fun v => cv_severity v = "error") (violations r))
      by (rewrite Hv; apply elem_of_cons; auto).
    apply list_elem_of_filter in Hmem as [Hsev Hmem].
    exists r, v. split; [apply list_elem_of_In, Hin|auto].
  - intros (r & v & Hr & Hv & Hsev). exists r.
    split; [apply list_elem_of_In, Hr|].
    unfold is_compliant, error_count. apply negb_true_iff, Nat.eqb_neq.
    assert (Hmem : v ∈ filter (fun v => cv_severity v = "error") (violations r))
      by (apply list_elem_of_filter; auto).
    destruct (filter _ (violations r)); [inversion Hmem|cbn; lia].
Qed.

(** X10.  With kubectl at hand the audit exits with 1 exactly when some
    report holds a finding of high severity, and the contract check
    exactly when some report holds a violation of severity error;
    findings and violations of other severities never change the exit
    code.  Without kubectl both exit with 1. *)
Theorem audit_and_contract_exit_codes :
  (forall reports,
     (audit_main_exit true reports = 1 <->
      exists r f, r ∈ reports /\ f ∈ findings r /\ severity f = "high") /\
     (audit_main_exit true reports = 0 \/ audit_main_exit true reports = 1)) /\
  (forall reports,
     (contract_main_exit true reports = 1 <->
      exists r v, r ∈ reports /\ v ∈ violations r /\ cv_severity v = "error") /\
     (contract_main_exit true reports = 0 \/ contract_main_exit true reports = 1)) /\
  (forall reports, audit_main_exit false reports = 1) /\
  (forall reports, contract_main_exit false reports = 1).
Proof.
  split_and!; try reflexivity.
  - intros reports. unfold audit_main_exit. cbn [negb].
    rewrite <- existsb_high_count.
    destruct reports as [|r rest]; [split; [split; discriminate|auto]|].
    destruct (existsb _ (r :: rest)); split; auto; split; auto; discriminate.
  - intros reports. unfold contract_main_exit. cbn [negb].
    rewrite <- existsb_not_compliant.
    destruct reports as [|r rest]; [split; [split; discriminate|auto]|].
    destruct (existsb _ (r :: rest)); split; auto; split; auto; discriminate.
Qed.

(** ** More on the contract check *)

Lemma is_prefix_split p : forall s,
  is_prefix p s = true <-> exists q, s = p +:+ q.
Proof.
  induction p as [|c p IH]; intros s.
  - split; [intros _; exists s; reflexivity|reflexivity].
  - destruct s as [|d s]; cbn [is_prefix].
    + split; [discriminate|intros [q Hq]; discriminate].
    + destruct (Ascii.eqb_spec c d) as [->|Hne].
      * rewrite IH. split; intros [q Hq]; exists q.
        -- rewrite Hq. reflexivity.
        -- change (String d p +:+ q) with (String d (p +:+ q)) in Hq.
           injection Hq as Hq. exact Hq.
      * split; [discriminate|]. intros [q Hq].
        change (String c p +:+ q) with (String c (p +:+ q)) in Hq.
        injection Hq as Hc _. congruence.
Qed.

Lemma substring_of_split needle : forall hay,
  substring_of needle hay = true <-> exists p q, hay = p +:+ needle +:+ q.
Proof.
  induction hay as [|c hay IH].
  - cbn [substring_of]. rewrite orb_false_r, is_prefix_split. split.
    + intros [q Hq]. exists "", q. exact Hq.
    + intros (p & q & H). destruct p as [|d p]; [exists q; exact H|].
      discriminate.
  - cbn [substring_of]. rewrite orb_true_iff, is_prefix_split, IH. split.
    + intros [[q Hq]|(p & q & H)].
      * exists "", q. exact Hq.
      * exists (String c p), q. rewrite H. reflexivity.
    + intros (p & q & H). destruct p as [|d p].
      * left. exists q. exact H.
      * right. change (String d p +:+ needle +:+ q)
          with (String d (p +:+ needle +:+ q)) in H.
        injection H as _ H. exists p, q. exact H.
Qed.

Lemma substring_of_trans a b c :
  substring_of a b = true -> substring_of b c = true -> substring_of a c = true.
Proof.
  rewrite !substring_of_split. intros (p1 & q1 & ->) (p2 & q2 & ->).
  exists (p2 +:+ p1), (q1 +:+ q2). rewrite !append_assoc_r. reflexivity.
Qed.

(** X11.  The provider type is read off the lower-cased CRD name, and
    ["cluster"] is looked for first: a name that holds the API group
    [infrastructure.cluster.x-k8s.io] is always an
    ["infrastructure-cluster"], also when it names machines, and the
    answer ["infrastructure-machine"] is given only for names without
    ["cluster"].  A name that is not a string raises. *)
Theorem detect_provider_type_prefers_cluster (str_lower : string -> string) :
  (forall name,
     substring_of "infrastructure.cluster.x-k8s.io" (str_lower name) = true ->
     detect_provider_type str_lower (VStr name) = Ok "infrastructure-cluster") /\
  (forall name,
     detect_provider_type str_lower (VStr name) = Ok "infrastructure-machine" ->
     substring_of "cluster" (str_lower name) = false /\
     substring_of "machine" (str_lower name) = true) /\
  (forall name,
     isinstance_str name = false ->
     detect_provider_type str_lower name = Raise AttributeError).
Proof.
  split_and!.
  - intros name Hgroup. unfold detect_provider_type. cbn [py_lower].
    rewrite bind_Ok.
    rewrite (substring_of_trans "cluster" "infrastructure.cluster.x-k8s.io"
               _ eq_refl Hgroup).
    rewrite (substring_of_trans "infrastructure" "infrastructure.cluster.x-k8s.io"
               _ eq_refl Hgroup).
    reflexivity.
  - intros name. unfold detect_provider_type. cbn [py_lower]. rewrite bind_Ok.
    destruct (substring_of "cluster" (str_lower name));
      destruct (substring_of "infrastructure" (str_lower name));
      destruct (substring_of "machine" (str_lower name));
      destruct (substring_of "bootstrap" (str_lower name));
      destruct (substring_of "controlplane" (str_lower name));
      cbn [andb]; intros H; try (injection H as H; vm_compute in H; discriminate H);
      auto.
  - intros name Hname. destruct name; try discriminate; reflexivity.
Qed.

(** X12.  [check_schema_fields] never reports a field that was not
    required and keeps the order of the requirements: when it returns,
    the missing fields are a sublist of the required ones. *)
Theorem check_schema_fields_sublist (schema : value)
    (required_fields : list string) (path : string) (missing : list string) :
  check_schema_fields schema required_fields path = Ok missing ->
  sublist missing required_fields.
Proof.
  unfold check_schema_fields. intros H.
  apply bind_Ok_inv in H as (target & _ & H).
  destruct target as [current|]; [|injection H as <-; reflexivity].
  apply bind_Ok_inv in H as (properties & _ & H).
  revert missing H. induction required_fields as [|f rest IH]; intros missing H;
    cbn [missing_fields] in H.
  - injection H as <-. constructor.
  - apply bind_Ok_inv in H as (present & _ & H).
    apply bind_Ok_inv in H as (missing' & Hrest & H).
    injection H as <-. specialize (IH _ Hrest).
    destruct present; [apply sublist_cons|apply sublist_skip]; exact IH.
Qed.

Lemma is_compliant_add_violation report sev cat crd msg req :
  is_compliant (add_violation report sev cat crd msg req) =
  is_compliant report && negb (String.eqb sev "error").
Proof.
  unfold is_compliant, error_count, add_violation. cbn [violations].
  rewrite filter_app, length_app, filter_cons, filter_nil. cbn [cv_severity].
  destruct (String.eqb_spec sev "error"); case_decide; try congruence;
    cbn [length negb].
  - rewrite andb_false_r. apply Nat.eqb_neq. lia.
  - rewrite andb_true_r, Nat.add_0_r. reflexivity.
Qed.

Lemma schema_properties_along schema part :
  mappings_along schema ["properties"; part; "properties"] = true ->
  exists pm,
    schema_properties schema part = Ok (VDict pm) /\
    forall field,
      bool_decide (is_Some (pm !! field)) = schema_has schema part field.
Proof.
  intros H. unfold schema_properties, schema_has.
  destruct (dict_get_along _ _ _ H) as (m1 & -> & A1 & R1). rewrite bind_Ok.
  destruct (dict_get_along _ _ _ A1) as (m2 & -> & A2 & R2). rewrite bind_Ok.
  destruct (dict_get_along _ _ _ A2) as (m3 & -> & _ & R3).
  exists m3. split; [reflexivity|]. intros field.
  rewrite R1, R2, R3. apply is_Some_lookup_resolve.
Qed.

Lemma require_property_dict pm key cat crd_name msg req report :
  require_property (VDict pm) key cat crd_name msg req report =
  Ok (if bool_decide (is_Some (pm !! key)) then report
      else add_violation report "error" cat crd_name msg req).
Proof. reflexivity. Qed.

Lemma require_loop pm cat crd_name (msg : string -> string) fields : forall report,
  exists report',
    for_each fields
      (fun f => require_property (VDict pm) f cat crd_name (msg f) "") report
    = Ok report' /\
    violations report' =
    violations report ++
    concat (map (fun f => if bool_decide (is_Some (pm !! f)) then []
                          else [mkContractViolation "error" cat crd_name (msg f) ""])
                fields) /\
    is_compliant report' =
    is_compliant report &&
    forallb (fun f => bool_decide (is_Some (pm !! f))) fields.
Proof.
  induction fields as [|f rest IH]; intros report; cbn [for_each map concat forallb].
  - exists report. rewrite app_nil_r, andb_true_r. auto.
  - rewrite require_property_dict, bind_Ok.
    destruct (bool_decide (is_Some (pm !! f))).
    + destruct (IH report) as (r' & -> & Hv & Hc). exists r'. auto.
    + destruct (IH (add_violation report "error" cat crd_name (msg f) ""))
        as (r' & -> & Hv & Hc). exists r'. split; [reflexivity|].
      rewrite Hv, Hc, violations_add_violation, is_compliant_add_violation.
      rewrite <- app_assoc. cbn [String.eqb Ascii.eqb Bool.eqb negb andb app].
      rewrite andb_false_r. auto.
Qed.

Lemma map_pointwise {A B : Type} (f g : A -> B) l :
  (forall x, f x = g x) -> map f l = map g l.
Proof.
  intros H. induction l as [|x l IH]; [reflexivity|].
  cbn [map]. rewrite H, IH. reflexivity.
Qed.

Lemma forallb_pointwise {A : Type} (f g : A -> bool) l :
  (forall x, f x = g x) -> forallb f l = forallb g l.
Proof.
  intros H. induction l as [|x l IH]; [reflexivity|].
  cbn [forallb]. rewrite H, IH. reflexivity.
Qed.

(** X13.  On a control-plane CRD whose served schema is a non-empty
    mapping (with mappings under [properties], [spec] and [status] where
    present) the check returns and adds one error per required field
    that is missing, the spec fields first, each list in the order of
    the contract; the report stays compliant exactly when it was and no
    required field is missing. *)
Theorem control_plane_violations (crd schema : value) (report : ContractReport) :
  mappings_along crd ["metadata"] = true ->
  get_crd_schema crd = Ok schema ->
  truthy schema = true ->
  mappings_along schema ["properties"; "spec"; "properties"] = true ->
  mappings_along schema ["properties"; "status"; "properties"] = true ->
  let crd_name := default (VStr "unknown") (spec_resolve crd ["metadata"; "name"]) in
  exists report',
    check_control_plane crd report = Ok report' /\
    violations report' =
    violations report ++
    concat (map (fun f => if schema_has schema "spec" f then []
                          else [mkContractViolation "error" "Spec" crd_name
                                  ("Missing required spec field: " +:+ f) ""])
                CONTROL_PLANE_required_spec_fields) ++
    concat (map (fun f => if schema_has schema "status" f then []
                          else [mkContractViolation "error" "Status" crd_name
                                  ("Missing required status field: " +:+ f) ""])
                CONTROL_PLANE_required_status_fields) /\
    is_compliant report' =
    is_compliant report &&
    forallb (schema_has schema "spec") CONTROL_PLANE_required_spec_fields &&
    forallb (schema_has schema "status") CONTROL_PLANE_required_status_fields.
Proof.
  intros Hmeta Hschema Htruthy Hspec Hstatus crd_name.
  unfold check_control_plane.
  rewrite (metadata_field_resolve _ _ _ Hmeta), bind_Ok, Hschema, bind_Ok.
  rewrite Htruthy. cbn [negb]. fold crd_name.
  destruct (schema_properties_along _ _ Hspec) as (spm & -> & Hs).
  destruct (schema_properties_along _ _ Hstatus) as (stm & -> & Ht).
  rewrite bind_Ok.
  destruct (require_loop spm "Spec" crd_name
              (fun f => "Missing required spec field: " +:+ f)
              CONTROL_PLANE_required_spec_fields report)
    as (r1 & -> & Hv1 & Hc1).
  rewrite !bind_Ok.
  destruct (require_loop stm "Status" crd_name
              (fun f => "Missing required status field: " +:+ f)
              CONTROL_PLANE_required_status_fields r1)
    as (r2 & -> & Hv2 & Hc2).
  exists r2. split; [reflexivity|]. split.
  - rewrite Hv2, Hv1, <- app_assoc. f_equal. f_equal; f_equal.
    + apply map_pointwise. intros f. rewrite Hs. reflexivity.
    + apply map_pointwise. intros f. rewrite Ht. reflexivity.
  - rewrite Hc2, Hc1. f_equal; [f_equal|].
    + apply forallb_pointwise. intros f. apply Hs.
    + apply forallb_pointwise. intros f. apply Ht.
Qed.

Lemma truthy_empty_dict : truthy empty_dict = false.
Proof.
  unfold truthy, empty_dict. rewrite bool_decide_eq_true_2; reflexivity.
Qed.

(** X14.  On a CRD whose served schema is a non-empty mapping (with
    mappings under [properties], [spec] and [status] where present) the
    three checks return, and the report stays compliant exactly when it
    was and every required field of the contract is there:
    [spec.controlPlaneEndpoint] and [status.ready] for an infrastructure
    cluster (a missing [conditions] is a warning and changes nothing),
    [spec.providerID], [status.ready] and [status.addresses] for an
    infrastructure machine, [status.ready] and [status.dataSecretName]
    for a bootstrap configuration. *)
Theorem compliance_follows_required_fields (crd schema : value)
    (report : ContractReport) :
  mappings_along crd ["metadata"] = true ->
  get_crd_schema crd = Ok schema ->
  truthy schema = true ->
  mappings_along schema ["properties"; "spec"; "properties"] = true ->
  mappings_along schema ["properties"; "status"; "properties"] = true ->
  (exists report',
     check_infrastructure_cluster crd report = Ok report' /\
     is_compliant report' =
     is_compliant report && schema_has schema "spec" "controlPlaneEndpoint"
     && schema_has schema "status" "ready") /\
  (exists report',
     check_infrastructure_machine crd report = Ok report' /\
     is_compliant report' =
     is_compliant report && schema_has schema "spec" "providerID"
     && schema_has schema "status" "ready"
     && schema_has schema "status" "addresses") /\
  (exists report',
     check_bootstrap_config crd report = Ok report' /\
     is_compliant report' =
     is_compliant report && schema_has schema "status" "ready"
     && schema_has schema "status" "dataSecretName").
Proof.
  intros Hmeta Hschema Htruthy Hspec Hstatus.
  destruct (schema_properties_along _ _ Hspec) as (spm & Es & Hs).
  destruct (schema_properties_along _ _ Hstatus) as (stm & Et & Ht).
  split_and!.
  - unfold check_infrastructure_cluster.
    rewrite (metadata_field_resolve _ _ _ Hmeta), bind_Ok, Hschema, bind_Ok.
    rewrite Htruthy. cbn [negb].
    unfold INFRASTRUCTURE_CLUSTER_required_spec_fields,
           INFRASTRUCTURE_CLUSTER_required_status_fields.
    rewrite (check_schema_fields_single schema "spec" "controlPlaneEndpoint")
      by (reflexivity || assumption).
    rewrite bind_Ok.
    rewrite (check_schema_fields_single schema "status" "ready")
      by (reflexivity || assumption).
    rewrite bind_Ok.
    unfold schema_properties in Et.
    apply bind_Ok_inv in Et as (p1 & -> & Et). rewrite bind_Ok.
    apply bind_Ok_inv in Et as (p2 & -> & Et). rewrite bind_Ok.
    rewrite Et, bind_Ok, str_in_dict, bind_Ok.
    eexists. split; [reflexivity|]. unfold schema_has.
    destruct (spec_resolve schema
                ["properties"; "spec"; "properties"; "controlPlaneEndpoint"]);
      destruct (spec_resolve schema
                  ["properties"; "status"; "properties"; "ready"]);
      destruct (bool_decide (is_Some (stm !! "conditions")));
      cbn [fold_left negb]; rewrite ?is_compliant_add_violation;
      cbn [String.eqb Ascii.eqb Bool.eqb negb];
      rewrite ?andb_true_r, ?andb_false_r; reflexivity.
  - unfold check_infrastructure_machine.
    rewrite (metadata_field_resolve _ _ _ Hmeta), bind_Ok, Hschema, bind_Ok.
    rewrite Htruthy. cbn [negb].
    rewrite Es, bind_Ok, require_property_dict, bind_Ok, Et, bind_Ok.
    repeat (rewrite require_property_dict || rewrite bind_Ok).
    rewrite !Hs, !Ht.
    eexists. split; [reflexivity|].
    destruct (schema_has schema "spec" "providerID");
      destruct (schema_has schema "status" "ready");
      destruct (schema_has schema "status" "addresses");
      rewrite ?is_compliant_add_violation;
      cbn [String.eqb Ascii.eqb Bool.eqb negb];
      rewrite ?andb_true_r, ?andb_false_r; reflexivity.
  - unfold check_bootstrap_config.
    rewrite (metadata_field_resolve _ _ _ Hmeta), bind_Ok, Hschema, bind_Ok.
    rewrite Htruthy. cbn [negb].
    rewrite Et, bind_Ok.
    repeat (rewrite require_property_dict || rewrite bind_Ok).
    rewrite !Ht.
    eexists. split; [reflexivity|].
    destruct (schema_has schema "status" "ready");
      destruct (schema_has schema "status" "dataSecretName");
      rewrite ?is_compliant_add_violation;
      cbn [String.eqb Ascii.eqb Bool.eqb negb];
      rewrite ?andb_true_r, ?andb_false_r; reflexivity.
Qed.

Lemma first_served_schema_unserved versions :
  Forall (fun version => unserved version = true) versions ->
  first_served_schema versions = Ok empty_dict.
Proof.
  induction 1 as [|version rest Hv _ IH]; [reflexivity|].
  destruct version as [| | | | |m]; try discriminate.
  cbn [first_served_schema unserved] in *.
  rewrite (dict_get_dict m "served"), bind_Ok.
  apply negb_true_iff in Hv. rewrite Hv. exact IH.
Qed.

(** X15.  A CRD none of whose versions is served has no schema for the
    checks: each of the four adds the single error "No OpenAPI schema
    found in CRD" and nothing else, and the report is not compliant. *)
Theorem unserved_crd_has_no_schema (crd : value) (versions : list value)
    (report : ContractReport) :
  mappings_along crd ["metadata"] = true ->
  mappings_along crd ["spec"] = true ->
  default empty_list (spec_resolve crd ["spec"; "versions"]) = VList versions ->
  Forall (fun version => unserved version = true) versions ->
  let report' :=
    add_violation report "error" "Schema"
      (default (VStr "unknown") (spec_resolve crd ["metadata"; "name"]))
      "No OpenAPI schema found in CRD" "" in
  get_crd_schema crd = Ok empty_dict /\
  check_infrastructure_cluster crd report = Ok report' /\
  check_infrastructure_machine crd report = Ok report' /\
  check_bootstrap_config crd report = Ok report' /\
  check_control_plane crd report = Ok report' /\
  is_compliant report' = false.
Proof.
  intros Hmeta Hspec Hversions Hunserved report'.
  assert (Hschema : get_crd_schema crd = Ok empty_dict).
  { unfold get_crd_schema.
    destruct (dict_get_along _ _ _ Hspec) as (sm & -> & _ & R1).
    rewrite bind_Ok, (dict_get_dict sm "versions"), bind_Ok.
    rewrite R1 in Hversions. cbn [spec_resolve] in Hversions.
    assert (Hv : default empty_list (sm !! "versions") = VList versions)
      by (destruct (sm !! "versions"); exact Hversions).
    rewrite Hv. cbn [py_iter]. rewrite bind_Ok.
    apply first_served_schema_unserved, Hunserved. }
  split_and!; try exact Hschema.
  - unfold check_infrastructure_cluster.
    rewrite (metadata_field_resolve _ _ _ Hmeta), bind_Ok, Hschema, bind_Ok.
    rewrite truthy_empty_dict. reflexivity.
  - unfold check_infrastructure_machine.
    rewrite (metadata_field_resolve _ _ _ Hmeta), bind_Ok, Hschema, bind_Ok.
    rewrite truthy_empty_dict. reflexivity.
  - unfold check_bootstrap_config.
    rewrite (metadata_field_resolve _ _ _ Hmeta), bind_Ok, Hschema, bind_Ok.
    rewrite truthy_empty_dict. reflexivity.
  - unfold check_control_plane.
    rewrite (metadata_field_resolve _ _ _ Hmeta), bind_Ok, Hschema, bind_Ok.
    rewrite truthy_empty_dict. reflexivity.
  - subst report'. rewrite is_compliant_add_violation.
    apply andb_false_r.
Qed.

(** ** More on the validator *)

Lemma lookup_Some_non_empty (m : gmap string value) key v :
  m !! key = Some v -> m <> ∅.
Proof. intros H ->. rewrite lookup_empty in H. discriminate. Qed.

Lemma truthy_default_Some (m : gmap string value) key :
  truthy (default VNone (m !! key)) = true -> exists v, m !! key = Some v.
Proof. destruct (m !! key); [eauto|discriminate]. Qed.

Lemma only_warnings_no_error errors :
  only_warnings errors -> count_ve "error" errors = 0%nat.
Proof.
  unfold count_ve. induction 1 as [|e l He _ IH]; [reflexivity|].
  rewrite filter_cons. case_decide; [|exact IH].
  exfalso. congruence.
Qed.

Lemma validate_api_version_string (m : gmap string value) s :
  m !! "apiVersion" = Some (VStr s) -> s <> "" ->
  hashable (default (VStr "") (m !! "kind")) = true ->
  exists errors,
    validate_api_version (VDict m) = Ok errors /\
    only_warnings errors /\ (length errors <= 2)%nat.
Proof.
  intros Hapi Hne Hkind. unfold validate_api_version.
  rewrite (dict_get_dict m "apiVersion"), bind_Ok, Hapi.
  cbn [from_option id truthy].
  destruct (String.eqb_spec s "") as [->|_]; [congruence|]. cbn [negb].
  rewrite (dict_get_dict m "kind"), bind_Ok.
  destruct (default (VStr "") (m !! "kind")) as [| | |k| |];
    try discriminate; cbn [table_find]; rewrite bind_Ok;
    try (rewrite bind_Ok; cbn [str_in]; rewrite bind_Ok;
         eexists; split; [reflexivity|];
         destruct (substring_of "v1alpha" s); cbn [app length];
         split; try lia; repeat constructor).
  destruct (assoc k CAPI_RESOURCES) as [group|].
  - cbn [py_startswith]. rewrite !bind_Ok. cbn [str_in]. rewrite bind_Ok.
    eexists; split; [reflexivity|].
    destruct (is_prefix group s); destruct (substring_of "v1alpha" s);
      cbn [app length]; split; try lia; repeat constructor.
  - rewrite bind_Ok. cbn [str_in]. rewrite bind_Ok.
    eexists; split; [reflexivity|].
    destruct (substring_of "v1alpha" s); cbn [app length];
      split; try lia; repeat constructor.
Qed.

(** X16.  The validation of [apiVersion]: a missing or empty one is the
    single error "Missing apiVersion field"; a non-empty string gives at
    most two findings, warnings both, so that the API version alone
    never fails a validation that is not strict; a non-zero number as
    [apiVersion] of a known kind raises [AttributeError]. *)
Theorem validate_api_version_findings (m : gmap string value) :
  (truthy (default (VStr "") (m !! "apiVersion")) = false ->
   validate_api_version (VDict m) =
   Ok [mkValidationError "apiVersion" "Missing apiVersion field" "error"]) /\
  (forall s,
     m !! "apiVersion" = Some (VStr s) -> s <> "" ->
     hashable (default (VStr "") (m !! "kind")) = true ->
     exists errors,
       validate_api_version (VDict m) = Ok errors /\
       only_warnings errors /\
       count_ve "error" errors = 0%nat /\
       (length errors <= 2)%nat) /\
  (forall n kind group,
     m !! "apiVersion" = Some (VInt n) -> n <> 0 ->
     m !! "kind" = Some (VStr kind) ->
     assoc kind CAPI_RESOURCES = Some group ->
     validate_api_version (VDict m) = Raise AttributeError).
Proof.
  split_and!.
  - intros Hfalsy. unfold validate_api_version.
    rewrite (dict_get_dict m "apiVersion"), bind_Ok, Hfalsy. reflexivity.
  - intros s Hapi Hne Hkind.
    destruct (validate_api_version_string m s Hapi Hne Hkind)
      as (errors & Hrun & Hwarn & Hlen).
    exists errors. split_and!; try assumption.
    apply only_warnings_no_error, Hwarn.
  - intros n kind group Hapi Hn Hkind Hgroup. unfold validate_api_version.
    rewrite (dict_get_dict m "apiVersion"), bind_Ok, Hapi.
    cbn [from_option id truthy].
    destruct (Z.eqb_spec n 0) as [|_]; [contradiction|]. cbn [negb].
    rewrite (dict_get_dict m "kind"), bind_Ok, Hkind.
    cbn [from_option id table_find]. rewrite bind_Ok, Hgroup. reflexivity.
Qed.

(** X17.  A document that is not a mapping is answered by the single
    error "Document is not a valid YAML mapping", without raising.  A
    Cluster with a non-empty string [apiVersion], a [metadata.name], and
    a [spec] whose [infrastructureRef] has a [kind] and a [name] and
    whose [controlPlaneRef], if any, has a [kind], has no error,
    whatever else it holds. *)
Theorem validate_document_accepts_cluster :
  (forall doc file_path,
     isinstance_dict doc = false ->
     validate_document doc file_path =
     Ok [mkValidationError file_path "Document is not a valid YAML mapping" "error"]) /\
  (forall (m md sm im : gmap string value) api_version file_path,
     m !! "kind" = Some (VStr "Cluster") ->
     m !! "apiVersion" = Some (VStr api_version) -> api_version <> "" ->
     m !! "metadata" = Some (VDict md) ->
     truthy (default VNone (md !! "name")) = true ->
     m !! "spec" = Some (VDict sm) ->
     sm !! "infrastructureRef" = Some (VDict im) ->
     truthy (default VNone (im !! "kind")) = true ->
     truthy (default VNone (im !! "name")) = true ->
     control_plane_ref_accepted sm = true ->
     exists errors,
       validate_document (VDict m) file_path = Ok errors /\
       count_ve "error" errors = 0%nat).
Proof.
  split.
  - intros doc fp Hdoc. unfold validate_document. rewrite Hdoc. reflexivity.
  - intros m md sm im api fp Hkind Hapi Hne Hmeta Hname Hspec Hinfra Hik Hin Hcp.
    destruct (validate_api_version_string m api Hapi Hne) as (e1 & E1 & W1 & _).
    { rewrite Hkind. reflexivity. }
    pose proof (only_warnings_no_error _ W1) as C1.
    unfold validate_document. cbn [isinstance_dict negb].
    rewrite (dict_get_dict m "kind"), bind_Ok, Hkind, E1, bind_Ok.
    cbn [from_option id truthy String.eqb Ascii.eqb Bool.eqb negb].
    destruct (truthy_default_Some _ _ Hname) as [nv Hnv].
    destruct (truthy_default_Some _ _ Hik) as [kv Hkv].
    assert (E2 : validate_metadata (VDict m) = Ok []).
    { unfold validate_metadata.
      rewrite (dict_get_dict m "metadata"), bind_Ok, Hmeta.
      cbn [from_option id].
      rewrite (truthy_dict _ (lookup_Some_non_empty _ _ _ Hnv)). cbn [negb].
      unfold require_truthy. rewrite (dict_get_dict md "name"), bind_Ok, Hname.
      rewrite bind_Ok, (dict_get_dict m "kind"), bind_Ok, Hkind.
      rewrite (dict_get_dict md "labels"), bind_Ok. reflexivity. }
    assert (E3 : validate_spec (VDict m) = Ok []).
    { unfold validate_spec.
      rewrite (dict_get_dict m "kind"), bind_Ok, Hkind.
      rewrite (dict_get_dict m "spec"), bind_Ok, Hspec.
      cbn [from_option id].
      rewrite (truthy_dict _ (lookup_Some_non_empty _ _ _ Hinfra)).
      cbn [negb table_find]. rewrite bind_Ok.
      change (assoc "Cluster" REQUIRED_FIELDS) with (Some ["infrastructureRef"]).
      cbn [for_each]. rewrite required_field_step_appends, !bind_Ok.
      rewrite bool_decide_eq_true_2 by eauto. cbn [negb app].
      unfold kind_specific_validations. cbn [py_eq_str String.eqb Ascii.eqb Bool.eqb].
      unfold _validate_cluster_spec.
      rewrite (dict_get_dict sm "infrastructureRef"), bind_Ok, Hinfra.
      cbn [from_option id].
      rewrite (truthy_dict _ (lookup_Some_non_empty _ _ _ Hkv)).
      unfold require_truthy.
      rewrite (dict_get_dict im "kind"), bind_Ok, Hik, bind_Ok.
      rewrite (dict_get_dict im "name"), bind_Ok, Hin, !bind_Ok.
      rewrite (dict_get_dict sm "controlPlaneRef"), bind_Ok.
      unfold control_plane_ref_accepted in Hcp.
      destruct (sm !! "controlPlaneRef") as [cp|]; cbn [from_option id].
      - destruct cp as [|b|n|s|l|cm]; cbn [truthy] in Hcp |- *;
          try (apply negb_true_iff in Hcp; rewrite ?Hcp; reflexivity).
        destruct (bool_decide (cm = ∅)); cbn [negb orb] in Hcp |- *;
          [reflexivity|].
        rewrite (dict_get_dict cm "kind"), bind_Ok, Hcp. reflexivity.
      - rewrite truthy_empty_dict. reflexivity. }
    rewrite E2, bind_Ok, E3, bind_Ok. eexists. split; [reflexivity|].
    cbn [app]. rewrite !app_nil_r. exact C1.
Qed.

(** ** More on the linter *)

Lemma count_li_app sev l1 l2 :
  count_li sev (l1 ++ l2) = (count_li sev l1 + count_li sev l2)%nat.
Proof. unfold count_li. rewrite filter_app, length_app. reflexivity. Qed.

Lemma count_li_warnings issues :
  Forall (fun i => li_severity i = WARNING) issues ->
  count_li ERROR issues = 0%nat.
Proof.
  unfold count_li. induction 1 as [|i l Hi _ IH]; [reflexivity|].
  rewrite filter_cons. case_decide; [congruence|exact IH].
Qed.

Lemma lint_toplevel_errors m file_path start_line :
  mappings_along (VDict m) ["metadata"] = true ->
  exists issues,
    lint_toplevel (VDict m) file_path start_line = Ok issues /\
    (count_li ERROR issues = 0%nat <->
     is_Some (m !! "apiVersion") /\ is_Some (m !! "kind") /\
     is_Some (spec_resolve (VDict m) ["metadata"; "name"])).
Proof.
  clear repr_container has_alpha which_kubectl subprocess_run json_loads.
  intros Hmeta. unfold lint_toplevel. rewrite !str_in_dict, !bind_Ok.
  destruct (dict_get_along _ _ _ Hmeta) as (md & -> & _ & R).
  rewrite bind_Ok, str_in_dict, bind_Ok.
  assert (Hname : is_Some (spec_resolve (VDict m) ["metadata"; "name"]) <->
                  is_Some (m !! "metadata") /\ is_Some (md !! "name")).
  { pose proof (R "name" []) as R'. cbn [spec_resolve] in R' |- *.
    destruct (m !! "metadata") as [v|] eqn:Hv.
    - rewrite R'. destruct (md !! "name") as [n|].
      + split; intros _; eauto.
      + split; [intros [x Hx]|intros [_ [x Hx]]]; discriminate.
    - destruct (md !! "name") as [n|]; [discriminate R'|].
      split; [intros [x Hx]|intros [[x Hx] _]]; discriminate. }
  destruct (bool_decide (is_Some (m !! "apiVersion"))) eqn:Ha;
    destruct (bool_decide (is_Some (m !! "kind"))) eqn:Hk;
    destruct (bool_decide (is_Some (m !! "metadata"))) eqn:Hm;
    destruct (bool_decide (is_Some (md !! "name"))) eqn:Hn;
    rewrite ?bind_Ok; (eexists; split; [reflexivity|]); rewrite Hname;
    rewrite ?bool_decide_eq_true, ?bool_decide_eq_false in *;
    (split; [intros Hc; try (vm_compute in Hc; discriminate Hc); tauto
            |intros (? & ? & ? & ?); try contradiction; reflexivity]).
Qed.

Lemma lint_api_version_warnings m file_path start_line :
  hashable (default (VStr "") (m !! "apiVersion")) = true ->
  exists issues,
    lint_api_version (VDict m) file_path start_line = Ok issues /\
    Forall (fun i => li_severity i = WARNING) issues.
Proof.
  intros Hhash. unfold lint_api_version. cbn [dict_get]. rewrite bind_Ok.
  destruct (default (VStr "") (m !! "apiVersion")) as [| | |v| |];
    try discriminate; cbn [table_find]; rewrite bind_Ok;
    (eexists; split; [reflexivity|]); try apply Forall_nil_2.
  destruct (assoc v CAPI_API_VERSIONS) as [[[] replacement]|];
    repeat constructor.
Qed.

Lemma lint_deprecated_result m kind file_path start_line :
  m !! "kind" = Some (VStr kind) ->
  lint_deprecated (VDict m) file_path start_line =
  Ok (concat (map
        (fun rule : string * (string * string) =>
           match spec_resolve (VDict m) (split_dot rule.1) with
           | Some _ =>
               [mkLintIssue WARNING
                  ("Deprecated field '" +:+ rule.1 +:+ "' (since " +:+ rule.2.1
                   +:+ ")")
                  file_path (Some start_line) (Some rule.2.2)]
           | None => []
           end)
        (default [] (assoc kind LINT_DEPRECATED_FIELDS)))).
Proof.
  intros Hkind. unfold lint_deprecated. cbn [dict_get]. rewrite Hkind.
  cbn [from_option id]. rewrite bind_Ok. cbn [table_find]. rewrite bind_Ok.
  destruct (assoc kind LINT_DEPRECATED_FIELDS) as [rules|]; [|reflexivity].
  cbn [from_option id]. erewrite for_each_appends; [reflexivity|].
  intros [field [since msg]] acc. unfold lint_deprecated_step.
  rewrite lint_navigate_resolve, bind_Ok. cbn [fst snd].
  destruct (spec_resolve _ _); [reflexivity|].
  rewrite app_nil_r. reflexivity.
Qed.

Lemma lint_required_spec_result m kind file_path start_line :
  m !! "kind" = Some (VStr kind) ->
  mappings_along (VDict m) ["spec"] = true ->
  lint_required_spec (VDict m) file_path start_line =
  Ok (concat (map
        (fun f =>
           if negb (topology_optional kind (VDict m) f || in_spec (VDict m) f)
           then [lint_error ("Missing required spec field for " +:+ kind +:+ ": "
                             +:+ f) file_path start_line]
           else [])
        (default [] (assoc kind CAPI_KINDS)))).
Proof.
  intros Hkind Hspec. unfold lint_required_spec.
  destruct (dict_get_along _ _ _ Hspec) as (sm & Hsm & _ & Hres).
  rewrite (dict_get_dict m "kind"), bind_Ok, Hkind. cbn [from_option id table_find].
  rewrite bind_Ok.
  destruct (assoc kind CAPI_KINDS) as [required|]; [|reflexivity].
  rewrite Hsm, bind_Ok. cbn [from_option id].
  erewrite for_each_appends
    by (intros; apply lint_required_step_appends).
  cbn [app]. do 2 f_equal. apply map_pointwise. intros f.
  unfold topology_optional, in_spec.
  rewrite !Hres, <- !is_Some_lookup_resolve. reflexivity.
Qed.

Lemma count_required_errors (absent : string -> bool) (mk : string -> LintIssue)
    required :
  (forall f, li_severity (mk f) = ERROR) ->
  count_li ERROR (concat (map (fun f => if absent f then [mk f] else []) required))
    = 0%nat <->
  forallb (fun f => negb (absent f)) required = true.
Proof.
  intros Hmk. induction required as [|f rest IH]; cbn [map concat forallb].
  - split; reflexivity.
  - rewrite count_li_app, andb_true_iff, <- IH.
    destruct (absent f); cbn [negb].
    + unfold count_li at 1. rewrite filter_cons, filter_nil.
      case_decide as Hsev; [|specialize (Hmk f); contradiction].
      cbn [length]. split; [lia|intros [? _]; discriminate].
    + change (count_li ERROR []) with 0%nat. split; [auto|intros [_ H]; exact H].
Qed.

(** X18.  When a document passes the linter: on a mapping with a string
    [kind] (metadata and spec being mappings where present, [apiVersion]
    hashable) the linter returns, and it reports no error exactly when
    [apiVersion] and [metadata.name] are there and every required spec
    field of the kind is in the spec or is one that a [topology] makes
    optional.  Deprecated API versions and fields are warnings and do
    not count. *)
Theorem lint_document_passes (m : gmap string value) (kind file_path : string)
    (start_line : Z) :
  m !! "kind" = Some (VStr kind) ->
  mappings_along (VDict m) ["metadata"] = true ->
  mappings_along (VDict m) ["spec"] = true ->
  hashable (default (VStr "") (m !! "apiVersion")) = true ->
  exists issues,
    lint_document (VDict m) file_path start_line = Ok issues /\
    (count_li ERROR issues = 0%nat <->
     is_Some (m !! "apiVersion") /\
     is_Some (spec_resolve (VDict m) ["metadata"; "name"]) /\
     forallb (fun f => topology_optional kind (VDict m) f || in_spec (VDict m) f)
             (default [] (assoc kind CAPI_KINDS)) = true).
Proof.
  intros Hkind Hmeta Hspec Hhash.
  destruct (lint_toplevel_errors m file_path start_line Hmeta) as (i1 & E1 & C1).
  destruct (lint_api_version_warnings m file_path start_line Hhash)
    as (i2 & E2 & W2).
  unfold lint_document.
  rewrite E1, bind_Ok, E2, bind_Ok.
  rewrite (lint_required_spec_result m kind file_path start_line Hkind Hspec).
  rewrite bind_Ok, (lint_deprecated_result m kind file_path start_line Hkind).
  rewrite bind_Ok. eexists. split; [reflexivity|].
  rewrite !count_li_app, (count_li_warnings i2 W2).
  match goal with
  | |- context [concat (map ?g (default [] (assoc kind LINT_DEPRECATED_FIELDS)))] =>
      rewrite (count_li_warnings
                 (concat (map g (default [] (assoc kind LINT_DEPRECATED_FIELDS)))))
        by (apply Forall_concat_map; intros rule;
            destruct (spec_resolve (VDict m) (split_dot rule.1));
            repeat constructor)
  end.
  pose proof (count_required_errors
    (fun f => negb (topology_optional kind (VDict m) f || in_spec (VDict m) f))
    (fun f => lint_error ("Missing required spec field for " +:+ kind +:+ ": "
                          +:+ f) file_path start_line)
    (default [] (assoc kind CAPI_KINDS)) (fun _ => eq_refl)) as C3.
  assert (Hf : forallb (fun f => negb (negb (topology_optional kind (VDict m) f
                                             || in_spec (VDict m) f)))
                 (default [] (assoc kind CAPI_KINDS)) =
               forallb (fun f => topology_optional kind (VDict m) f
                                 || in_spec (VDict m) f)
                 (default [] (assoc kind CAPI_KINDS)))
    by (apply forallb_pointwise; intros f; apply negb_involutive).
  cbv beta in C3. rewrite Hf in C3. rewrite <- C3.
  assert (Hk : is_Some (m !! "kind")) by eauto.
  split.
  - intros Hc. assert (H1 : count_li ERROR i1 = 0%nat) by lia.
    apply C1 in H1 as (Ha & _ & Hn). split_and!; try assumption. lia.
  - intros (Ha & Hn & H3). rewrite H3.
    assert (H1 : count_li ERROR i1 = 0%nat) by (apply C1; auto).
    lia.
Qed.

(** X19.  The linter reports a deprecated field as soon as its keys are
    there, whatever the value: [spec.paused] of a Cluster and
    [spec.version] of a Machine get one warning each when present, also
    when the value is null or false, and none when absent. *)
Theorem lint_deprecated_reports_present_keys (m : gmap string value)
    (file_path : string) (start_line : Z) :
  (m !! "kind" = Some (VStr "Cluster") ->
   lint_deprecated (VDict m) file_path start_line =
   Ok (match spec_resolve (VDict m) ["spec"; "paused"] with
       | Some _ =>
           [mkLintIssue WARNING "Deprecated field 'spec.paused' (since v1.4.0)"
              file_path (Some start_line)
              (Some "Use spec.topology.controlPlane/workers for managed clusters")]
       | None => []
       end)) /\
  (m !! "kind" = Some (VStr "Machine") ->
   lint_deprecated (VDict m) file_path start_line =
   Ok (match spec_resolve (VDict m) ["spec"; "version"] with
       | Some _ =>
           [mkLintIssue WARNING "Deprecated field 'spec.version' (since v1.5.0)"
              file_path (Some start_line)
              (Some "Version is now inherited from control plane or topology")]
       | None => []
       end)).
Proof.
  split; intros Hkind;
    rewrite (lint_deprecated_result m _ file_path start_line Hkind);
    cbn [assoc String.eqb Ascii.eqb Bool.eqb LINT_DEPRECATED_FIELDS
         from_option id map concat fst snd];
    match goal with
    | |- context [split_dot ?p] =>
        let l := eval vm_compute in (split_dot p) in
        change (split_dot p) with l
    end;
    destruct (spec_resolve _ _); reflexivity.
Qed.

End Scripts.

(** ** Instances and counterexamples *)

(** [status.ready] stored as [false] is resolved to [false]. *)
Lemma get_nested_resolves_stored_value_witness :
  spec_resolve doc_ready_false (split_dot "status.ready") = Some (VBool false) /\
  get_nested doc_ready_false "status.ready" = Ok (VBool false).
Proof.
  assert (H : spec_resolve doc_ready_false (split_dot "status.ready")
              = Some (VBool false)) by (vm_compute; reflexivity).
  split; [exact H|].
  exact (proj1 (proj1 get_nested_resolves_stored_value
                  doc_ready_false "status.ready") (VBool false) H).
Defined.

(** C1, as stated, fails: with [ready] stored as null every key of
    [status.ready] is present, and [get_nested] returns [None], the
    very result it gives when the key is missing. *)
Lemma get_nested_null_is_absent :
  spec_resolve doc_ready_null (split_dot "status.ready") = Some VNone /\
  spec_resolve doc_ready_missing (split_dot "status.ready") = None /\
  get_nested doc_ready_null "status.ready" = Ok VNone /\
  get_nested doc_ready_missing "status.ready" = Ok VNone /\
  ~ (forall doc path,
       get_nested doc path = Ok VNone <-> spec_resolve doc (split_dot path) = None).
Proof.
  split_and!; try (vm_compute; reflexivity).
  intros H.
  assert (Hnone : get_nested doc_ready_null "status.ready" = Ok VNone)
    by (vm_compute; reflexivity).
  apply H in Hnone. vm_compute in Hnone. discriminate Hnone.
Qed.


(** A Cluster with a [rolloutAfter] date gets the one warning. *)
Lemma rollout_after_reported_once_witness :
  cluster_with_rollout (VStr "2030-01-01T00:00:00Z") !! "kind"
    = Some (VStr "Cluster") /\
  exists issues,
    check_deprecated_fields
      (VDict (cluster_with_rollout (VStr "2030-01-01T00:00:00Z"))) "cluster.yaml"
      = Ok issues /\
    filter (fun i => mi_field i = "spec.topology.rolloutAfter") issues =
    [mkMigrationIssue "cluster.yaml" "spec.topology.rolloutAfter"
       "Never implemented, removed in v1beta2" "Remove this field" "warning"].
Proof.
  assert (H : cluster_with_rollout (VStr "2030-01-01T00:00:00Z") !! "kind"
              = Some (VStr "Cluster")) by (vm_compute; reflexivity).
  split; [exact H|].
  destruct (rollout_after_reported_once
              (cluster_with_rollout (VStr "2030-01-01T00:00:00Z"))
              "cluster.yaml" H) as (issues & Hrun & Hfilter).
  exists issues. split; [exact Hrun|].
  rewrite Hfilter. vm_compute. reflexivity.
Defined.

(** C5, as stated, fails: [rolloutAfter] is present, with the value
    null, and the check reports nothing. *)
Lemma rollout_after_null_not_reported :
  spec_resolve (VDict (cluster_with_rollout VNone))
    ["spec"; "topology"; "rolloutAfter"] = Some VNone /\
  check_deprecated_fields (VDict (cluster_with_rollout VNone)) "cluster.yaml"
    = Ok [].
Proof. split; vm_compute; reflexivity. Qed.

(** Two replicas: the below-3 finding, then the even-count finding. *)
Lemma replica_count_findings_witness :
  mappings_along (cluster_with_replicas (VInt 2)) ["metadata"] = true /\
  spec_resolve (cluster_with_replicas (VInt 2)) replicas_path = Some (VInt 2) /\
  check_replicas (fun _ => "") (cluster_with_replicas (VInt 2))
    (mkAuditReport "prod/c1" []) =
  Ok (mkAuditReport "prod/c1"
        [ mkFinding "low" "Availability" "Cluster/prod/c1"
            "Control plane has 2 replica(s) (recommend 3 for HA)"
            "Use 3 control plane replicas for production HA";
          mkFinding "low" "Availability" "Cluster/prod/c1"
            "Control plane has even number of replicas (2)"
            "Use odd number of replicas for proper etcd quorum" ]).
Proof.
  assert (H1 : mappings_along (cluster_with_replicas (VInt 2)) ["metadata"] = true)
    by (vm_compute; reflexivity).
  assert (H2 : spec_resolve (cluster_with_replicas (VInt 2)) replicas_path
               = Some (VInt 2)) by (vm_compute; reflexivity).
  split_and!; try assumption.
  rewrite (proj1 (proj2 (replica_count_findings (fun _ => "")
             (cluster_with_replicas (VInt 2)) (mkAuditReport "prod/c1" []) 2
             H1 H2)) eq_refl).
  vm_compute. reflexivity.
Defined.


(** C2, as stated, fails: the network check on a cluster without
    network settings files two findings of severity info, which none of
    the three counts of the report includes. *)
Lemma info_findings_are_not_counted :
  exists report,
    check_network_security (fun _ => "") cluster_bare
      (mkAuditReport "default/c1" []) = Ok report /\
    length (findings report) = 2%nat /\
    (high_count report + medium_count report + low_count report)%nat = 0%nat.
Proof. eexists. split_and!; vm_compute; reflexivity. Qed.

(** A schema whose [status] has no [properties]: one violation for
    [status.ready]. *)
Lemma status_ready_violation_witness :
  let crd := crd_with_schema schema_without_ready in
  mappings_along crd ["metadata"] = true /\
  get_crd_schema crd = Ok schema_without_ready /\
  truthy schema_without_ready = true /\
  mappings_along schema_without_ready ["properties"; "spec"; "properties"] = true /\
  mappings_along schema_without_ready ["properties"; "status"; "properties"] = true /\
  exists report',
    check_infrastructure_cluster crd (mkContractReport "foo" "infrastructure-cluster" [] [])
      = Ok report' /\
    filter refers_to_status_ready (violations report') =
    [mkContractViolation "error" "Status"
       (VStr "fooclusters.infrastructure.cluster.x-k8s.io")
       "Missing required status field: ready"
       "Contract requires status.ready"].
Proof.
  intros crd.
  assert (H1 : mappings_along crd ["metadata"] = true)
    by (vm_compute; reflexivity).
  assert (H2 : get_crd_schema crd = Ok schema_without_ready)
    by (vm_compute; reflexivity).
  assert (H3 : truthy schema_without_ready = true)
    by (vm_compute; reflexivity).
  assert (H4 : mappings_along schema_without_ready
                 ["properties"; "spec"; "properties"] = true)
    by (vm_compute; reflexivity).
  assert (H5 : mappings_along schema_without_ready
                 ["properties"; "status"; "properties"] = true)
    by (vm_compute; reflexivity).
  split_and!; try assumption.
  destruct (status_ready_violation crd schema_without_ready
              (mkContractReport "foo" "infrastructure-cluster" [] [])
              H1 H2 H3 H4 H5) as (report' & Hrun & Hfilter).
  exists report'. split; [exact Hrun|].
  rewrite Hfilter. vm_compute. reflexivity.
Defined.

(** C7, as stated, fails: the served schema is empty, so it has no
    [ready] under [status.properties], and the only violation the check
    adds is the one for a missing schema, which does not refer to
    [status.ready]. *)
Lemma empty_schema_has_no_status_ready_violation :
  get_crd_schema (crd_with_schema empty_dict) = Ok empty_dict /\
  spec_resolve empty_dict ["properties"; "status"; "properties"; "ready"] = None /\
  check_infrastructure_cluster (crd_with_schema empty_dict)
    (mkContractReport "foo" "infrastructure-cluster" [] []) =
  Ok (mkContractReport "foo" "infrastructure-cluster"
        [mkContractViolation "error" "Schema"
           (VStr "fooclusters.infrastructure.cluster.x-k8s.io")
           "No OpenAPI schema found in CRD" ""]
        []).
Proof. split_and!; vm_compute; reflexivity. Qed.

(** One file with one error, outside strict mode: exit code 1. *)
Lemma exit_code_follows_counts_witness :
  [[verror "spec" "Missing spec field"]] <> [] /\
  validate_main_exit false [[verror "spec" "Missing spec field"]] = 1.
Proof.
  assert (H : [[verror "spec" "Missing spec field"]] <> []) by discriminate.
  split; [exact H|].
  rewrite (proj1 exit_code_follows_counts false
             [[verror "spec" "Missing spec field"]] H).
  vm_compute. reflexivity.
Defined.

(** C6, as stated, fails: the migration checker, which has no strict
    mode, exits with 1 on a run whose only issue is a warning; the
    validator and the linter exit with 1 when there is no file, hence no
    finding at all. *)
Lemma migration_checker_exits_1_on_warning :
  (exists issues,
     analyze_document (fun _ => false)
       (VDict (cluster_with_rollout VNone)) "cluster.yaml" = Ok issues /\
     count_mi "error" issues = 0%nat /\
     count_mi "warning" issues = 1%nat /\
     migration_main_exit true issues = 1) /\
  validate_main_exit false [] = 1 /\
  lint_main_exit false [] = 1.
Proof.
  split_and!; [eexists; split_and!|..]; vm_compute; reflexivity.
Qed.

(** The fetch of the machines fails: the run is the one over the other
    two resource types. *)
Lemma failed_fetch_yields_no_items_witness :
  fetch_failed example_json_loads
    (example_run (live_cmd "/usr/bin/kubectl" "machines.cluster.x-k8s.io" None))
    = true /\
  analyze_resource_types (fun _ => "") (fun _ => false)
    example_run example_json_loads "/usr/bin/kubectl" None
    (["clusters.cluster.x-k8s.io"] ++
     "machines.cluster.x-k8s.io" :: ["machinesets.cluster.x-k8s.io"]) [] =
  analyze_resource_types (fun _ => "") (fun _ => false)
    example_run example_json_loads "/usr/bin/kubectl" None
    (["clusters.cluster.x-k8s.io"] ++ ["machinesets.cluster.x-k8s.io"]) [].
Proof.
  assert (H : fetch_failed example_json_loads
                (example_run (live_cmd "/usr/bin/kubectl"
                                "machines.cluster.x-k8s.io" None)) = true)
    by (vm_compute; reflexivity).
  split; [exact H|].
  exact (proj1 (proj2 (failed_fetch_yields_no_items (fun _ => "") (fun _ => false)
           (Some "/usr/bin/kubectl") example_run example_json_loads))
           "/usr/bin/kubectl" None "machines.cluster.x-k8s.io" H
           ["clusters.cluster.x-k8s.io"] ["machinesets.cluster.x-k8s.io"] []).
Defined.



(** ** Instances of the further properties *)

(** The analysis returns on a Machine manifest and raises on a document
    that is a string. *)
Lemma analyze_document_returns_witness :
  isinstance_str (default (VStr "") (machine_manifest !! "apiVersion")) = true /\
  hashable (default (VStr "") (machine_manifest !! "kind")) = true /\
  (exists issues,
     analyze_document (fun _ => false) (VDict machine_manifest) "machine.yaml"
       = Ok issues) /\
  isinstance_dict (VStr "text") = false /\
  analyze_document (fun _ => false) (VStr "text") "notes.yaml"
    = Raise AttributeError.
Proof.
  assert (H1 : isinstance_str (default (VStr "") (machine_manifest !! "apiVersion"))
               = true) by (vm_compute; reflexivity).
  assert (H2 : hashable (default (VStr "") (machine_manifest !! "kind")) = true)
    by (vm_compute; reflexivity).
  assert (H3 : isinstance_dict (VStr "text") = false) by reflexivity.
  split_and!; try assumption.
  - exact (proj1 (proj2 (analyze_document_returns (fun _ => false)))
             machine_manifest "machine.yaml" H1 H2).
  - exact (proj2 (proj2 (analyze_document_returns (fun _ => false)))
             (VStr "text") "notes.yaml" H3).
Defined.

(** The issues of a Cluster with a [rolloutAfter] date are warnings and
    infos. *)
Lemma migration_summary_adds_up_witness :
  exists issues,
    analyze_document (fun _ => false)
      (VDict (cluster_with_rollout (VStr "2030-01-01T00:00:00Z"))) "cluster.yaml"
      = Ok issues /\
    Forall warning_or_info issues /\
    (count_mi "warning" issues + count_mi "info" issues)%nat = length issues.
Proof.
  eexists. split; [vm_compute; reflexivity|].
  apply (migration_summary_adds_up (fun _ => false)
           (VDict (cluster_with_rollout (VStr "2030-01-01T00:00:00Z")))
           "cluster.yaml").
  vm_compute. reflexivity.
Defined.

(** An item that is a string raises, and the manifest after it is not
    looked at. *)
Lemma live_analysis_keeps_gathered_issues_witness :
  analyze_item (fun _ => "") (fun _ => false) "clusters.cluster.x-k8s.io"
    (VStr "text") = Raise AttributeError /\
  analyze_items (fun _ => "") (fun _ => false) "clusters.cluster.x-k8s.io"
    ([VDict machine_manifest] ++ VStr "text" :: [VDict machine_manifest]) [] =
  analyze_items (fun _ => "") (fun _ => false) "clusters.cluster.x-k8s.io"
    ([VDict machine_manifest] ++ [VStr "text"]) [].
Proof.
  assert (H : analyze_item (fun _ => "") (fun _ => false)
                "clusters.cluster.x-k8s.io" (VStr "text") = Raise AttributeError)
    by (vm_compute; reflexivity).
  split; [exact H|].
  exact (proj2 (live_analysis_keeps_gathered_issues (fun _ => "") (fun _ => false)
                  example_run example_json_loads)
           "clusters.cluster.x-k8s.io" (VStr "text") AttributeError H
           [VDict machine_manifest] [VDict machine_manifest] []).
Defined.

(** A list answer: its items are returned. *)
Lemma run_kubectl_json_items_witness :
  find_kubectl (Some "/usr/bin/kubectl") = Some "/usr/bin/kubectl" /\
  example_run_list
    (kubectl_json_cmd "/usr/bin/kubectl" "clusters.cluster.x-k8s.io" None true)
    = Completed 0 "list" /\
  example_json_loads_list "list" = Some (VDict cluster_list) /\
  truthy (default empty_list (cluster_list !! "items")) = true /\
  run_kubectl_json (Some "/usr/bin/kubectl") example_run_list
    example_json_loads_list "clusters.cluster.x-k8s.io" None true =
  Ok (VList [cluster_bare]).
Proof.
  assert (H1 : find_kubectl (Some "/usr/bin/kubectl") = Some "/usr/bin/kubectl")
    by reflexivity.
  assert (H2 : example_run_list
                 (kubectl_json_cmd "/usr/bin/kubectl" "clusters.cluster.x-k8s.io"
                    None true) = Completed 0 "list") by reflexivity.
  assert (H3 : example_json_loads_list "list" = Some (VDict cluster_list))
    by reflexivity.
  assert (H4 : truthy (default empty_list (cluster_list !! "items")) = true)
    by (vm_compute; reflexivity).
  split_and!; try assumption.
  rewrite (proj1 (run_kubectl_json_items (Some "/usr/bin/kubectl") example_run_list
                    example_json_loads_list "/usr/bin/kubectl"
                    "clusters.cluster.x-k8s.io" None true "list" cluster_list
                    H1 H2 H3) H4).
  vm_compute. reflexivity.
Defined.

(** The network check on a bare cluster files its findings, none of
    them high. *)
Lemma checks_without_high_findings_witness :
  exists report',
    check_network_security (fun _ => "") cluster_bare
      (mkAuditReport "default/c1" []) = Ok report' /\
    appends_no_high (mkAuditReport "default/c1" []) report' /\
    high_count report' = high_count (mkAuditReport "default/c1" []).
Proof.
  eexists. split; [vm_compute; reflexivity|].
  apply (proj1 (checks_without_high_findings (fun _ => "")
                  (mkAuditReport "default/c1" []) _) cluster_bare).
  vm_compute. reflexivity.
Defined.

(** Authorization mode [Node] and anonymous requests allowed: two
    findings of high severity. *)
Lemma kubeadm_high_findings_witness :
  mappings_along kcp_insecure ["metadata"] = true /\
  mappings_along kcp_insecure extra_args_path = true /\
  mappings_along kcp_insecure
    (cluster_configuration_path ++ ["kubeletConfiguration"]) = true /\
  default (VStr "")
    (spec_resolve kcp_insecure (extra_args_path ++ ["authorization-mode"]))
    = VStr "Node" /\
  exists report',
    check_kubeadm_security (fun _ => "") kcp_insecure
      (mkAuditReport "default/c1" []) = Ok report' /\
    high_count report' = 2%nat.
Proof.
  assert (H1 : mappings_along kcp_insecure ["metadata"] = true)
    by (vm_compute; reflexivity).
  assert (H2 : mappings_along kcp_insecure extra_args_path = true)
    by (vm_compute; reflexivity).
  assert (H3 : mappings_along kcp_insecure
                 (cluster_configuration_path ++ ["kubeletConfiguration"]) = true)
    by (vm_compute; reflexivity).
  assert (H4 : default (VStr "")
                 (spec_resolve kcp_insecure
                    (extra_args_path ++ ["authorization-mode"])) = VStr "Node")
    by (vm_compute; reflexivity).
  split_and!; try assumption.
  destruct (kubeadm_high_findings (fun _ => "") kcp_insecure
              (mkAuditReport "default/c1" []) "Node" H1 H2 H3 H4)
    as (report' & Hrun & Hcount).
  exists report'. split; [exact Hrun|].
  rewrite Hcount. vm_compute. reflexivity.
Defined.

(** The second variable is the Pod Security one and enforces
    [privileged]: one finding of high severity. *)
Lemma pss_findings_witness :
  mappings_along cluster_with_pss ["metadata"] = true /\
  mappings_along cluster_with_pss ["spec"; "topology"] = true /\
  default empty_list
    (spec_resolve cluster_with_pss ["spec"; "topology"; "variables"])
    = VList pss_variables /\
  find_pss_var pss_variables = Ok (VDict pss_privileged) /\
  pss_privileged <> ∅ /\
  exists report',
    check_pss_configuration (fun _ => "") cluster_with_pss
      (mkAuditReport "default/c1" []) = Ok report' /\
    high_count report' = 1%nat.
Proof.
  assert (H1 : mappings_along cluster_with_pss ["metadata"] = true)
    by (vm_compute; reflexivity).
  assert (H2 : mappings_along cluster_with_pss ["spec"; "topology"] = true)
    by (vm_compute; reflexivity).
  assert (H3 : default empty_list
                 (spec_resolve cluster_with_pss ["spec"; "topology"; "variables"])
               = VList pss_variables) by (vm_compute; reflexivity).
  assert (H4 : find_pss_var pss_variables = Ok (VDict pss_privileged))
    by (vm_compute; reflexivity).
  assert (H5 : pss_privileged <> ∅) by apply insert_non_empty.
  split_and!; try assumption.
  destruct (proj2 (proj2 (pss_findings (fun _ => "")) cluster_with_pss
                     (mkAuditReport "default/c1" []) pss_variables
                     (VDict pss_privileged) H1 H2 H3 H4)
              pss_privileged eq_refl H5)
    as (report' & Hrun & Hcount).
  exists report'. split; [exact Hrun|].
  rewrite Hcount. vm_compute. reflexivity.
Defined.

(** A kubeconfig secret with a cluster-name label is not reported. *)
Lemma labelled_secrets_not_reported_witness :
  Forall (fun secret => owned_secret secret = true) [kubeconfig_secret] /\
  check_secret_exposure (fun _ => "") (fun s => s) [kubeconfig_secret]
    (mkAuditReport "default/c1" []) = Ok (mkAuditReport "default/c1" []).
Proof.
  assert (H : Forall (fun secret => owned_secret secret = true) [kubeconfig_secret])
    by (constructor; [vm_compute; reflexivity|constructor]).
  split; [exact H|].
  exact (labelled_secrets_not_reported (fun _ => "") (fun s => s)
           [kubeconfig_secret] (mkAuditReport "default/c1" []) H).
Defined.

(** One report with a finding of high severity: the audit exits with
    1. *)
Lemma audit_and_contract_exit_codes_witness :
  audit_main_exit true [high_report] = 1.
Proof.
  apply (proj1 (proj1 audit_and_contract_exit_codes [high_report])).
  exists high_report,
    (mkFinding "high" "Authorization" "KubeadmControlPlane/prod/kcp1"
       "RBAC authorization not enabled" "Enable RBAC").
  split_and!; [apply list_elem_of_here|apply list_elem_of_here|reflexivity].
Defined.

(** The CRD of the machines of an infrastructure provider is taken for
    an infrastructure cluster. *)
Lemma detect_provider_type_prefers_cluster_witness :
  substring_of "infrastructure.cluster.x-k8s.io"
    "dockermachines.infrastructure.cluster.x-k8s.io" = true /\
  detect_provider_type (fun s => s)
    (VStr "dockermachines.infrastructure.cluster.x-k8s.io")
    = Ok "infrastructure-cluster".
Proof.
  assert (H : substring_of "infrastructure.cluster.x-k8s.io"
                "dockermachines.infrastructure.cluster.x-k8s.io" = true)
    by (vm_compute; reflexivity).
  split; [exact H|].
  exact (proj1 (detect_provider_type_prefers_cluster (fun s => s))
           "dockermachines.infrastructure.cluster.x-k8s.io" H).
Defined.

(** Of [ready] and [conditions], both missing from a [status] without
    properties, both are reported, in this order. *)
Lemma check_schema_fields_sublist_witness :
  check_schema_fields schema_without_ready ["ready"; "conditions"] "status"
    = Ok ["ready"; "conditions"] /\
  sublist ["ready"; "conditions"] ["ready"; "conditions"].
Proof.
  assert (H : check_schema_fields schema_without_ready ["ready"; "conditions"]
                "status" = Ok ["ready"; "conditions"])
    by (vm_compute; reflexivity).
  split; [exact H|].
  exact (check_schema_fields_sublist schema_without_ready ["ready"; "conditions"]
           "status" ["ready"; "conditions"] H).
Defined.

(** A control-plane CRD whose schema has no spec and no status
    properties is not compliant: seven errors. *)
Lemma control_plane_violations_witness :
  let crd := crd_with_schema schema_without_ready in
  mappings_along crd ["metadata"] = true /\
  get_crd_schema crd = Ok schema_without_ready /\
  truthy schema_without_ready = true /\
  mappings_along schema_without_ready ["properties"; "spec"; "properties"] = true /\
  mappings_along schema_without_ready ["properties"; "status"; "properties"] = true /\
  exists report',
    check_control_plane crd (mkContractReport "foo" "control-plane" [] [])
      = Ok report' /\
    length (violations report') = 7%nat /\
    is_compliant report' = false.
Proof.
  intros crd.
  assert (H1 : mappings_along crd ["metadata"] = true)
    by (vm_compute; reflexivity).
  assert (H2 : get_crd_schema crd = Ok schema_without_ready)
    by (vm_compute; reflexivity).
  assert (H3 : truthy schema_without_ready = true)
    by (vm_compute; reflexivity).
  assert (H4 : mappings_along schema_without_ready
                 ["properties"; "spec"; "properties"] = true)
    by (vm_compute; reflexivity).
  assert (H5 : mappings_along schema_without_ready
                 ["properties"; "status"; "properties"] = true)
    by (vm_compute; reflexivity).
  split_and!; try assumption.
  destruct (control_plane_violations crd schema_without_ready
              (mkContractReport "foo" "control-plane" [] [])
              H1 H2 H3 H4 H5) as (report' & Hrun & Hviolations & Hcompliant).
  exists report'. split; [exact Hrun|].
  rewrite Hviolations, Hcompliant. split; vm_compute; reflexivity.
Defined.

(** The same CRD as an infrastructure machine: not compliant. *)
Lemma compliance_follows_required_fields_witness :
  let crd := crd_with_schema schema_without_ready in
  mappings_along crd ["metadata"] = true /\
  get_crd_schema crd = Ok schema_without_ready /\
  truthy schema_without_ready = true /\
  mappings_along schema_without_ready ["properties"; "spec"; "properties"] = true /\
  mappings_along schema_without_ready ["properties"; "status"; "properties"] = true /\
  exists report',
    check_infrastructure_machine crd
      (mkContractReport "foo" "infrastructure-machine" [] []) = Ok report' /\
    is_compliant report' = false.
Proof.
  intros crd.
  assert (H1 : mappings_along crd ["metadata"] = true)
    by (vm_compute; reflexivity).
  assert (H2 : get_crd_schema crd = Ok schema_without_ready)
    by (vm_compute; reflexivity).
  assert (H3 : truthy schema_without_ready = true)
    by (vm_compute; reflexivity).
  assert (H4 : mappings_along schema_without_ready
                 ["properties"; "spec"; "properties"] = true)
    by (vm_compute; reflexivity).
  assert (H5 : mappings_along schema_without_ready
                 ["properties"; "status"; "properties"] = true)
    by (vm_compute; reflexivity).
  split_and!; try assumption.
  destruct (proj1 (proj2 (compliance_follows_required_fields crd
              schema_without_ready
              (mkContractReport "foo" "infrastructure-machine" [] [])
              H1 H2 H3 H4 H5))) as (report' & Hrun & Hcompliant).
  exists report'. split; [exact Hrun|].
  rewrite Hcompliant. vm_compute. reflexivity.
Defined.

(** A CRD whose only version is not served: no schema, and the
    bootstrap check adds the one error. *)
Lemma unserved_crd_has_no_schema_witness :
  mappings_along crd_unserved ["metadata"] = true /\
  mappings_along crd_unserved ["spec"] = true /\
  (exists versions,
     default empty_list (spec_resolve crd_unserved ["spec"; "versions"])
       = VList versions /\
     Forall (fun version => unserved version = true) versions) /\
  get_crd_schema crd_unserved = Ok empty_dict /\
  check_bootstrap_config crd_unserved (mkContractReport "foo" "bootstrap" [] []) =
  Ok (mkContractReport "foo" "bootstrap"
        [mkContractViolation "error" "Schema"
           (VStr "fooclusters.infrastructure.cluster.x-k8s.io")
           "No OpenAPI schema found in CRD" ""]
        []).
Proof.
  assert (H1 : mappings_along crd_unserved ["metadata"] = true)
    by (vm_compute; reflexivity).
  assert (H2 : mappings_along crd_unserved ["spec"] = true)
    by (vm_compute; reflexivity).
  pose (versions :=
          [ VDict {[ "served" := VBool false;
                     "schema" := VDict {[ "openAPIV3Schema" := schema_without_ready ]} ]} ]).
  assert (H3 : default empty_list (spec_resolve crd_unserved ["spec"; "versions"])
               = VList versions) by (vm_compute; reflexivity).
  assert (H4 : Forall (fun version => unserved version = true) versions)
    by (constructor; [vm_compute; reflexivity|constructor]).
  pose proof (unserved_crd_has_no_schema crd_unserved versions
                (mkContractReport "foo" "bootstrap" [] []) H1 H2 H3 H4)
    as (Hschema & _ & _ & Hbootstrap & _).
  split_and!; try assumption.
  exists versions. split; assumption.
Defined.

(** The API version of the Machine manifest gives no error; a number as
    API version of a Cluster raises. *)
Lemma validate_api_version_findings_witness :
  machine_manifest !! "apiVersion" = Some (VStr "cluster.x-k8s.io/v1beta1") /\
  "cluster.x-k8s.io/v1beta1" <> "" /\
  hashable (default (VStr "") (machine_manifest !! "kind")) = true /\
  (exists errors,
     validate_api_version (fun _ => "") (VDict machine_manifest) = Ok errors /\
     count_ve "error" errors = 0%nat) /\
  numbered_manifest !! "apiVersion" = Some (VInt 1) /\
  numbered_manifest !! "kind" = Some (VStr "Cluster") /\
  assoc "Cluster" CAPI_RESOURCES = Some "cluster.x-k8s.io" /\
  validate_api_version (fun _ => "") (VDict numbered_manifest)
    = Raise AttributeError.
Proof.
  assert (H1 : machine_manifest !! "apiVersion"
               = Some (VStr "cluster.x-k8s.io/v1beta1"))
    by (vm_compute; reflexivity).
  assert (H2 : "cluster.x-k8s.io/v1beta1" <> "") by discriminate.
  assert (H3 : hashable (default (VStr "") (machine_manifest !! "kind")) = true)
    by (vm_compute; reflexivity).
  assert (H4 : numbered_manifest !! "apiVersion" = Some (VInt 1))
    by (vm_compute; reflexivity).
  assert (H5 : numbered_manifest !! "kind" = Some (VStr "Cluster"))
    by (vm_compute; reflexivity).
  assert (H6 : assoc "Cluster" CAPI_RESOURCES = Some "cluster.x-k8s.io")
    by (vm_compute; reflexivity).
  assert (H7 : 1 <> 0) by discriminate.
  split_and!; try assumption.
  - destruct (proj1 (proj2 (validate_api_version_findings (fun _ => "")
                              machine_manifest))
                "cluster.x-k8s.io/v1beta1" H1 H2 H3)
      as (errors & Hrun & _ & Hcount & _).
    exists errors. split; assumption.
  - exact (proj2 (proj2 (validate_api_version_findings (fun _ => "")
                           numbered_manifest))
             1 "Cluster" "cluster.x-k8s.io" H4 H7 H5 H6).
Defined.

(** A Cluster with its infrastructure reference has no error. *)
Lemma validate_document_accepts_cluster_witness :
  cluster_manifest !! "kind" = Some (VStr "Cluster") /\
  cluster_manifest !! "apiVersion" = Some (VStr "cluster.x-k8s.io/v1beta1") /\
  cluster_manifest !! "metadata" = Some (VDict cluster_metadata) /\
  truthy (default VNone (cluster_metadata !! "name")) = true /\
  cluster_manifest !! "spec" = Some (VDict cluster_spec) /\
  cluster_spec !! "infrastructureRef" = Some (VDict infrastructure_ref) /\
  truthy (default VNone (infrastructure_ref !! "kind")) = true /\
  truthy (default VNone (infrastructure_ref !! "name")) = true /\
  control_plane_ref_accepted cluster_spec = true /\
  exists errors,
    validate_document (fun _ => "") (VDict cluster_manifest) "cluster.yaml"
      = Ok errors /\
    count_ve "error" errors = 0%nat.
Proof.
  assert (H1 : cluster_manifest !! "kind" = Some (VStr "Cluster"))
    by (vm_compute; reflexivity).
  assert (H2 : cluster_manifest !! "apiVersion"
               = Some (VStr "cluster.x-k8s.io/v1beta1"))
    by (vm_compute; reflexivity).
  assert (H3 : cluster_manifest !! "metadata" = Some (VDict cluster_metadata))
    by (vm_compute; reflexivity).
  assert (H4 : truthy (default VNone (cluster_metadata !! "name")) = true)
    by (vm_compute; reflexivity).
  assert (H5 : cluster_manifest !! "spec" = Some (VDict cluster_spec))
    by (vm_compute; reflexivity).
  assert (H6 : cluster_spec !! "infrastructureRef" = Some (VDict infrastructure_ref))
    by (vm_compute; reflexivity).
  assert (H7 : truthy (default VNone (infrastructure_ref !! "kind")) = true)
    by (vm_compute; reflexivity).
  assert (H8 : truthy (default VNone (infrastructure_ref !! "name")) = true)
    by (vm_compute; reflexivity).
  assert (H9 : control_plane_ref_accepted cluster_spec = true)
    by (vm_compute; reflexivity).
  assert (H0 : "cluster.x-k8s.io/v1beta1" <> "") by discriminate.
  split_and!; try assumption.
  exact (proj2 (validate_document_accepts_cluster (fun _ => ""))
           cluster_manifest cluster_metadata cluster_spec infrastructure_ref
           "cluster.x-k8s.io/v1beta1" "cluster.yaml"
           H1 H2 H0 H3 H4 H5 H6 H7 H8 H9).
Defined.

(** A Cluster with a topology and no references passes the linter. *)
Lemma lint_document_passes_witness :
  topology_cluster_manifest !! "kind" = Some (VStr "Cluster") /\
  mappings_along (VDict topology_cluster_manifest) ["metadata"] = true /\
  mappings_along (VDict topology_cluster_manifest) ["spec"] = true /\
  hashable (default (VStr "") (topology_cluster_manifest !! "apiVersion")) = true /\
  exists issues,
    lint_document (fun _ => "") (VDict topology_cluster_manifest) "cluster.yaml" 1
      = Ok issues /\
    count_li ERROR issues = 0%nat.
Proof.
  assert (H1 : topology_cluster_manifest !! "kind" = Some (VStr "Cluster"))
    by (vm_compute; reflexivity).
  assert (H2 : mappings_along (VDict topology_cluster_manifest) ["metadata"] = true)
    by (vm_compute; reflexivity).
  assert (H3 : mappings_along (VDict topology_cluster_manifest) ["spec"] = true)
    by (vm_compute; reflexivity).
  assert (H4 : hashable (default (VStr "")
                           (topology_cluster_manifest !! "apiVersion")) = true)
    by (vm_compute; reflexivity).
  split_and!; try assumption.
  destruct (lint_document_passes (fun _ => "") topology_cluster_manifest "Cluster"
              "cluster.yaml" 1 H1 H2 H3 H4) as (issues & Hrun & Hpass).
  exists issues. split; [exact Hrun|].
  apply Hpass. split_and!.
  - apply (bool_decide_unpack _). vm_compute. exact I.
  - apply (bool_decide_unpack _). vm_compute. exact I.
  - vm_compute. reflexivity.
Defined.

(** A Cluster whose [spec.paused] is null gets the warning. *)
Lemma lint_deprecated_reports_present_keys_witness :
  paused_null_cluster !! "kind" = Some (VStr "Cluster") /\
  spec_resolve (VDict paused_null_cluster) ["spec"; "paused"] = Some VNone /\
  lint_deprecated (VDict paused_null_cluster) "cluster.yaml" 1 =
  Ok [mkLintIssue WARNING "Deprecated field 'spec.paused' (since v1.4.0)"
        "cluster.yaml" (Some 1)
        (Some "Use spec.topology.controlPlane/workers for managed clusters")].
Proof.
  assert (H1 : paused_null_cluster !! "kind" = Some (VStr "Cluster"))
    by (vm_compute; reflexivity).
  assert (H2 : spec_resolve (VDict paused_null_cluster) ["spec"; "paused"]
               = Some VNone) by (vm_compute; reflexivity).
  split_and!; try assumption.
  rewrite (proj1 (lint_deprecated_reports_present_keys paused_null_cluster
                    "cluster.yaml" 1) H1).
  rewrite H2. reflexivity.
Defined.
